(** * The Qimen Dunjia engine (qimenEngine), embedded and checked against its specification

    The development has two parts.  Part I embeds the code of
    [src/qimenEngine] as executable definitions, one module per Python module
    ([astronomical.py], [ganzhi.py], [qimen_calendar.py], [ju.py], [palace.py],
    [rules.py], [cache.py]), preceded by the fragments of Python itself that
    the code relies on (integers, lists, dicts, [datetime]).  Part II states
    and proves the properties.

    Conventions.
    - A Python [int] is a [Z]; [//] and [%] with a positive divisor are
      [Z.div] and [Z.modulo] (both round towards minus infinity).
    - A Python [float] is a binary64 [float] of the kernel; an [int] that
      meets a float is rounded to the nearest float, and raises
      [OverflowError] when it has none.
    - A call that can raise ([list.index], [l[i]], [d[k]], [datetime(...)])
      returns an [option]; [None] stands for the raised exception.  A method
      that writes to its object returns the object as the call leaves it,
      with its answer; [ThreadSafeLRUCache.set], which can raise, answers
      [Ok] or [OverflowError].
    - A dict literal or a dict filled in a loop is an insertion-ordered
      association list ([PyDict]); the cache store, which also deletes, is a
      [gmap].  A cached value is any object, [None] included: it is an
      [option], [None] for Python's [None].
    - The board and the record that [RulesEngine.apply_all] hands to every
      plugin are shared objects: the call of a plugin gives them back as it
      leaves them, and the next plugin is called on that. *)

From Stdlib Require Import ZArith List Lia String Ascii Floats DecimalString Permutation.
From stdpp Require Import base decidable option list strings gmap.

Local Open Scope Z_scope.

(* ===================================================================== *)
(** * Part I: the embedding *)
(* ===================================================================== *)

(** ** Python lists and dicts *)

Module PyList.

(** [l.index(x)]: the position of the first occurrence, [ValueError] as [None]. *)
Fixpoint index {A} `{EqDecision A} (l : list A) (x : A) : option Z :=
  match l with
  | [] => None
  | y :: r => if decide (x = y) then Some 0 else Z.succ <$> index r x
  end.

(** [l[i]]: negative indices count from the end, [IndexError] as [None]. *)
Definition getitem {A} (l : list A) (i : Z) : option A :=
  let n := Z.of_nat (length l) in
  if decide (0 <= i < n) then l !! Z.to_nat i
  else if decide (- n <= i < 0) then l !! Z.to_nat (n + i)
  else None.

(** [range(a, b)] for [a <= b]. *)
Definition range (a b : Z) : list Z :=
  (fun k => a + Z.of_nat k) <$> seq 0 (Z.to_nat (b - a)).

(** [x in l]. *)
Definition contains {A} `{EqDecision A} (l : list A) (x : A) : bool :=
  bool_decide (x ∈ l).

End PyList.

Module PyDict.

(** An insertion-ordered dict: its items, oldest key first, each key once. *)
Definition dict (K V : Type) : Type := list (K * V).

Section ops.
Context {K V : Type} `{EqDecision K}.

(** [d.get(k)] with no default, or [d[k]] with [KeyError] as [None]. *)
Fixpoint lookup (d : dict K V) (k : K) : option V :=
  match d with
  | [] => None
  | (k', v) :: r => if decide (k = k') then Some v else lookup r k
  end.

(** [d.get(k, dflt)]. *)
Definition get (d : dict K V) (k : K) (dflt : V) : V :=
  default dflt (lookup d k).

(** [d[k] = v]: an existing key keeps its position, a new one goes last. *)
Fixpoint set (d : dict K V) (k : K) (v : V) : dict K V :=
  match d with
  | [] => [(k, v)]
  | (k', v') :: r =>
      if decide (k = k') then (k', v) :: r else (k', v') :: set r k v
  end.

Definition keys (d : dict K V) : list K := fst <$> d.
Definition values (d : dict K V) : list V := snd <$> d.
Definition len (d : dict K V) : Z := Z.of_nat (length d).
End ops.

End PyDict.

(** [str(n)] for an int. *)
Definition str_of_int (n : Z) : string := NilZero.string_of_int (Z.to_int n).

(** ** Python floats and datetime *)

Module PyFloat.

(** The float nearest to an int of any size, ties to even: the conversion
    that Python applies to the int operand of a mixed operation.  It is
    exact when [|n| <= 2^53]; an int beyond the largest float rounds to an
    infinity here, and is the case where Python raises instead (below).
    The engine converts day numbers, clock fields, time-to-live values and
    the microseconds between two readings of a clock. *)
Definition of_int (n : Z) : float :=
  SF2Prim (binary_normalize prec emax n 0 false).

(** The ints that have no float: the conversion raises [OverflowError] (int
    too large to convert to float) when [n] rounds beyond the largest
    float.  The first such int is 2^1024 - 2^970. *)
Definition int_too_large (n : Z) : bool := PrimFloat.is_infinity (of_int n).

(** [x + n] for a float [x] and an int [n]: [None] when the conversion of
    [n] raises [OverflowError].  The sum of two floats never raises. *)
Definition add_int (x : float) (n : Z) : option float :=
  if int_too_large n then None else Some (x + of_int n)%float.

End PyFloat.

Module Datetime.

(** [datetime.datetime]; [tzinfo] is [None] for a naive value and the UTC
    offset in minutes of a fixed-offset zone for an aware one. *)
Record datetime : Type := mk {
  year : Z;
  month : Z;
  day : Z;
  hour : Z;
  minute : Z;
  second : Z;
  microsecond : Z;
  tzinfo : option Z
}.

Definition MINYEAR : Z := 1.
Definition MAXYEAR : Z := 9999.

Definition DAYS_IN_MONTH : list Z :=
  [-1; 31; 28; 31; 30; 31; 30; 31; 31; 30; 31; 30; 31].
Definition DAYS_BEFORE_MONTH : list Z :=
  [-1; 0; 31; 59; 90; 120; 151; 181; 212; 243; 273; 304; 334].

Definition is_leap (year : Z) : bool :=
  bool_decide (year mod 4 = 0 ∧ (year mod 100 ≠ 0 ∨ year mod 400 = 0)).

Definition days_before_year (year : Z) : Z :=
  let y := year - 1 in
  y * 365 + y / 4 - y / 100 + y / 400.

Definition days_in_month (year month : Z) : Z :=
  if bool_decide (month = 2) && is_leap year then 29
  else default 0 (PyList.getitem DAYS_IN_MONTH month).

Definition days_before_month (year month : Z) : Z :=
  default 0 (PyList.getitem DAYS_BEFORE_MONTH month)
  + (if bool_decide (month > 2) && is_leap year then 1 else 0).

(** [_ymd2ord]: the proleptic Gregorian ordinal, 0001-01-01 being day 1. *)
Definition ymd2ord (year month day : Z) : Z :=
  days_before_year year + days_before_month year month + day.

Definition DI400Y : Z := Eval vm_compute in days_before_year 401.
Definition DI100Y : Z := Eval vm_compute in days_before_year 101.
Definition DI4Y : Z := Eval vm_compute in days_before_year 5.

(** [_ord2ymd]. *)
Definition ord2ymd (n : Z) : Z * Z * Z :=
  let n := n - 1 in
  let n400 := n / DI400Y in
  let n := n mod DI400Y in
  let year := n400 * 400 + 1 in
  let n100 := n / DI100Y in
  let n := n mod DI100Y in
  let n4 := n / DI4Y in
  let n := n mod DI4Y in
  let n1 := n / 365 in
  let n := n mod 365 in
  let year := year + (n100 * 100 + n4 * 4 + n1) in
  if bool_decide (n1 = 4 ∨ n100 = 4) then (year - 1, 12, 31)
  else
    let leapyear := bool_decide (n1 = 3 ∧ (n4 ≠ 24 ∨ n100 = 3)) in
    let month := Z.shiftr (n + 50) 5 in
    let preceding :=
      default 0 (PyList.getitem DAYS_BEFORE_MONTH month)
      + (if bool_decide (month > 2) && leapyear then 1 else 0) in
    let '(month, preceding) :=
      if bool_decide (preceding > n)
      then (month - 1,
            preceding
            - (default 0 (PyList.getitem DAYS_IN_MONTH (month - 1))
               + (if bool_decide (month - 1 = 2) && leapyear then 1 else 0)))
      else (month, preceding) in
    (year, month, n - preceding + 1).

(** The class invariant that the constructor checks. *)
Definition valid (dt : datetime) : Prop :=
  (MINYEAR <= year dt <= MAXYEAR)
  ∧ (1 <= month dt <= 12)
  ∧ (1 <= day dt <= days_in_month (year dt) (month dt))
  ∧ (0 <= hour dt <= 23)
  ∧ (0 <= minute dt <= 59)
  ∧ (0 <= second dt <= 59)
  ∧ (0 <= microsecond dt <= 999999).

Global Instance valid_dec dt : Decision (valid dt).
Proof. unfold valid. apply _. Defined.

(** [datetime(year, month, day)]: [ValueError] as [None]. *)
Definition make (year month day : Z) : option datetime :=
  let dt := mk year month day 0 0 0 0 None in
  if decide (valid dt) then Some dt else None.

(** [dt.replace(tzinfo=None)]. *)
Definition replace_tzinfo_none (dt : datetime) : datetime :=
  mk (year dt) (month dt) (day dt) (hour dt) (minute dt) (second dt)
     (microsecond dt) None.

Definition toordinal (dt : datetime) : Z :=
  ymd2ord (year dt) (month dt) (day dt).

(** The wall-clock reading in microseconds since the start of ordinal 0. *)
Definition to_us (dt : datetime) : Z :=
  (((toordinal dt * 24 + hour dt) * 60 + minute dt) * 60 + second dt)
  * 1000000 + microsecond dt.

Definition US_PER_DAY : Z := 86400000000.
Definition MAXORDINAL : Z := Eval vm_compute in ymd2ord 9999 12 31.

(** The inverse reading; [OverflowError] outside years 1..9999 as [None]. *)
Definition of_us (n : Z) (tz : option Z) : option datetime :=
  let ord := n / US_PER_DAY in
  let r := n mod US_PER_DAY in
  if decide (1 <= ord <= MAXORDINAL) then
    let '(y, m, d) := ord2ymd ord in
    Some (mk y m d (r / 3600000000) (r / 60000000 mod 60)
             (r / 1000000 mod 60) (r mod 1000000) tz)
  else None.

(** [dt + timedelta(microseconds=us)]. *)
Definition add_us (dt : datetime) (us : Z) : option datetime :=
  of_us (to_us dt + us) (tzinfo dt).

(** [dt.astimezone(tz)] for an aware [dt] at offset [off] and a target zone
    at the fixed offset [target] (minutes). *)
Definition astimezone (dt : datetime) (off target : Z) : option datetime :=
  of_us (to_us dt + (target - off) * 60000000) (Some target).

(** [a - b] for naive values: a [timedelta], kept as its microseconds. *)
Definition sub (a b : datetime) : Z := to_us a - to_us b.

(** [timedelta.days] and [timedelta.total_seconds()] (the quotient of the
    microseconds by 10^6, correctly rounded as long as the microseconds
    are below 2^53, some 285 years). *)
Definition td_days (td : Z) : Z := td / US_PER_DAY.
Definition td_total_seconds (td : Z) : float :=
  (PyFloat.of_int td / 1000000.0)%float.

(** [a >= b] for naive values. *)
Definition ge (a b : datetime) : bool := bool_decide (to_us a >= to_us b).

Definition pad2 (n : Z) : string :=
  if decide (0 <= n < 10) then ("0" ++ str_of_int n)%string else str_of_int n.

(** [dt.strftime("%H:%M:%S")]. *)
Definition strftime_HMS (dt : datetime) : string :=
  (pad2 (hour dt) ++ ":" ++ pad2 (minute dt) ++ ":" ++ pad2 (second dt))%string.

End Datetime.

(** ** symbols.py *)

Module Symbols.

(** Modelled from the spec: [symbols.py] is not among the sources.  The
    10-element stem cycle of spec section 4.2, in the order recorded by the
    index comments of [GanZhiCalculator.DAY_HOUR_GAN_TABLE] (jia=0, yi=1,
    bing=2, ding=3, wu=4, ji=5, geng=6, xin=7, ren=8, gui=9). *)
Definition TIAN_GAN : list string :=
  ["甲"; "乙"; "丙"; "丁"; "戊"; "己"; "庚"; "辛"; "壬"; "癸"].

(** Modelled from the spec: [symbols.py] is not among the sources.  The
    12-element branch cycle of spec section 4.2, in the order recorded by
    [get_shi_chen_number] (zi=1 ... hai=12, one more than the index) and by the
    comments of [GanZhiCalculator.SOLAR_TERM_TO_ZHI] (yin=2, ..., zi=0, chou=1). *)
Definition DI_ZHI : list string :=
  ["子"; "丑"; "寅"; "卯"; "辰"; "巳"; "午"; "未"; "申"; "酉"; "戌"; "亥"].

End Symbols.

(** ** astronomical.py *)

Module Astronomical.
Import Datetime.

(** [AstronomicalCalculator.SOLAR_TERMS_LONGITUDE], in the order of the literal. *)
Definition SOLAR_TERMS_LONGITUDE : PyDict.dict string Z :=
  [("立春", 315); ("雨水", 330); ("惊蛰", 345); ("春分", 0); ("清明", 15); ("谷雨", 30);
   ("立夏", 45); ("小满", 60); ("芒种", 75); ("夏至", 90); ("小暑", 105); ("大暑", 120);
   ("立秋", 135); ("处暑", 150); ("白露", 165); ("秋分", 180); ("寒露", 195); ("霜降", 210);
   ("立冬", 225); ("小雪", 240); ("大雪", 255); ("冬至", 270); ("小寒", 285); ("大寒", 300)].

(** [AstronomicalCalculator.julian_day(dt)]. *)
Definition julian_day (dt : datetime) : float :=
  let dt := if tzinfo dt is Some _ then replace_tzinfo_none dt else dt in
  let a := (14 - month dt) / 12 in
  let y := year dt + 4800 - a in
  let m := month dt + 12 * a - 3 in
  let jdn :=
    day dt + (153 * m + 2) / 5 + 365 * y + y / 4 - y / 100 + y / 400 - 32045 in
  let jd :=
    (PyFloat.of_int jdn + PyFloat.of_int (hour dt - 12) / 24.0
     + PyFloat.of_int (minute dt) / 1440.0
     + PyFloat.of_int (second dt) / 86400.0)%float in
  jd.

Section solar_terms.
(** [SOLAR_TERMS] of [symbols.py], which is not among the sources: the list
    of the 24 term names, whatever its first term is. *)
Variable SOLAR_TERMS : list string.

(** [AstronomicalCalculator.find_solar_term_time(year, term_name)] up to
    the value of [initial_dt], the seed of the iteration.  The loop that
    follows refines the seed with [calculate_solar_longitude]
    (trigonometric, on floats) and is not part of the embedding.  The
    [KeyError] of the longitude table, the [ValueError] of [index] and the
    [ValueError] of the [datetime] constructor are [None]. *)
Definition find_solar_term_time_initial_dt (year : Z) (term_name : string)
  : option datetime :=
  target_longitude ← PyDict.lookup SOLAR_TERMS_LONGITUDE term_name;
  term_index ← PyList.index SOLAR_TERMS term_name;
  let approx_day := 6 + (term_index mod 2) * 15 + (term_index / 2) * 30 in
  let '(year, approx_day) :=
    if bool_decide (term_index >= 20)
    then (year + 1, 6 + (term_index - 20) * 15)
    else (year, approx_day) in
  let month := (term_index / 2 + 1) mod 12 in
  let month := if bool_decide (month = 0) then 12 else month in
  let initial_dt := Datetime.make year month (Z.min approx_day 28) in
  initial_dt.
End solar_terms.

End Astronomical.

(** ** ganzhi.py *)

Module GanZhi.
Import Symbols Datetime.

Definition YEAR_MONTH_GAN_TABLE : PyDict.dict Z Z :=
  [(0, 2); (4, 2); (1, 4); (5, 4); (2, 6); (6, 6); (3, 8); (7, 8); (8, 0); (9, 0)].

Definition DAY_HOUR_GAN_TABLE : PyDict.dict Z Z :=
  [(0, 0); (5, 0); (1, 2); (6, 2); (2, 4); (7, 4); (3, 6); (8, 6); (4, 8); (9, 8)].

Definition SOLAR_TERM_TO_ZHI : PyDict.dict string Z :=
  [("立春", 2); ("雨水", 2);
   ("惊蛰", 3); ("春分", 3);
   ("清明", 4); ("谷雨", 4);
   ("立夏", 5); ("小满", 5);
   ("芒种", 6); ("夏至", 6);
   ("小暑", 7); ("大暑", 7);
   ("立秋", 8); ("处暑", 8);
   ("白露", 9); ("秋分", 9);
   ("寒露", 10); ("霜降", 10);
   ("立冬", 11); ("小雪", 11);
   ("大雪", 0); ("冬至", 0);
   ("小寒", 1); ("大寒", 1)].

(** [calculate_year_ganzhi(year)]. *)
Definition calculate_year_ganzhi (year : Z) : option (string * string) :=
  let base_year := 1984 in
  let offset := year - base_year in
  let gan_index := offset mod 10 in
  let zhi_index := offset mod 12 in
  gan ← PyList.getitem TIAN_GAN gan_index;
  zhi ← PyList.getitem DI_ZHI zhi_index;
  Some (gan, zhi).

Section solar_term_oracle.
(** [astro_calculator.get_current_solar_term(dt)]: the term in force at
    [dt] as (name, index, exact time).  It rests on the float iteration of
    [find_solar_term_time]; the calendar code only consumes its result, so
    it is a parameter here. *)
Variable get_current_solar_term : datetime → string * Z * datetime.

(** [calculate_month_ganzhi(dt, use_solar_terms)]. *)
Definition calculate_month_ganzhi (dt : datetime) (use_solar_terms : bool)
  : option (string * string) :=
  let dt := if tzinfo dt is Some _ then replace_tzinfo_none dt else dt in
  if use_solar_terms then
    let '(solar_term, _, _) := get_current_solar_term dt in
    let month_zhi_index := PyDict.get SOLAR_TERM_TO_ZHI solar_term 2 in
    month_zhi ← PyList.getitem DI_ZHI month_zhi_index;
    '(year_gan, _) ← calculate_year_ganzhi (year dt);
    year_gan_index ← PyList.index TIAN_GAN year_gan;
    let base_month_gan_index := PyDict.get YEAR_MONTH_GAN_TABLE year_gan_index 2 in
    let month_gan_index := (base_month_gan_index + (month_zhi_index - 2)) mod 10 in
    month_gan ← PyList.getitem TIAN_GAN month_gan_index;
    Some (month_gan, month_zhi)
  else
    let month_zhi_index := (month dt + 1) mod 12 in
    month_zhi ← PyList.getitem DI_ZHI month_zhi_index;
    '(year_gan, _) ← calculate_year_ganzhi (year dt);
    year_gan_index ← PyList.index TIAN_GAN year_gan;
    let base_month_gan_index := PyDict.get YEAR_MONTH_GAN_TABLE year_gan_index 2 in
    let month_gan_index := (base_month_gan_index + (month_zhi_index - 2)) mod 10 in
    month_gan ← PyList.getitem TIAN_GAN month_gan_index;
    Some (month_gan, month_zhi).
End solar_term_oracle.

(** [calculate_day_ganzhi(dt)]. *)
Definition calculate_day_ganzhi (dt : datetime) : option (string * string) :=
  let dt := if tzinfo dt is Some _ then replace_tzinfo_none dt else dt in
  let base_date := ymd2ord 1900 1 1 in
  let base_gan_index := 0 in
  let base_zhi_index := 10 in
  let target_date := toordinal dt in
  let days_diff := target_date - base_date in
  let gan_index := (base_gan_index + days_diff) mod 10 in
  let zhi_index := (base_zhi_index + days_diff) mod 12 in
  gan ← PyList.getitem TIAN_GAN gan_index;
  zhi ← PyList.getitem DI_ZHI zhi_index;
  Some (gan, zhi).

(** [calculate_shi_chen(hour)]. *)
Definition calculate_shi_chen (hour : Z) : option string :=
  let shi_chen_list :=
    ["子时"; "丑时"; "寅时"; "卯时"; "辰时"; "巳时";
     "午时"; "未时"; "申时"; "酉时"; "戌时"; "亥时"] in
  if bool_decide (hour = 23) then PyList.getitem shi_chen_list 0
  else
    let index := (hour + 1) / 2 in
    PyList.getitem shi_chen_list index.

(** The literal [nayin_table] of [get_nayin]. *)
Definition nayin_table : PyDict.dict (string * string) string :=
  [(("甲", "子"), "海中金"); (("乙", "丑"), "海中金");
   (("丙", "寅"), "炉中火"); (("丁", "卯"), "炉中火");
   (("戊", "辰"), "大林木"); (("己", "巳"), "大林木");
   (("庚", "午"), "路旁土"); (("辛", "未"), "路旁土");
   (("壬", "申"), "剑锋金"); (("癸", "酉"), "剑锋金");
   (("甲", "戌"), "山头火"); (("乙", "亥"), "山头火");
   (("丙", "子"), "涧下水"); (("丁", "丑"), "涧下水");
   (("戊", "寅"), "城墙土"); (("己", "卯"), "城墙土");
   (("庚", "辰"), "白蜡金"); (("辛", "巳"), "白蜡金");
   (("壬", "午"), "杨柳木"); (("癸", "未"), "杨柳木");
   (("甲", "申"), "泉中水"); (("乙", "酉"), "泉中水");
   (("丙", "戌"), "屋上土"); (("丁", "亥"), "屋上土");
   (("戊", "子"), "霹雳火"); (("己", "丑"), "霹雳火");
   (("庚", "寅"), "松柏木"); (("辛", "卯"), "松柏木");
   (("壬", "辰"), "长流水"); (("癸", "巳"), "长流水");
   (("甲", "午"), "沙中金"); (("乙", "未"), "沙中金");
   (("丙", "申"), "山下火"); (("丁", "酉"), "山下火");
   (("戊", "戌"), "平地木"); (("己", "亥"), "平地木");
   (("庚", "子"), "壁上土"); (("辛", "丑"), "壁上土");
   (("壬", "寅"), "金箔金"); (("癸", "卯"), "金箔金");
   (("甲", "辰"), "覆灯火"); (("乙", "巳"), "覆灯火");
   (("丙", "午"), "天河水"); (("丁", "未"), "天河水");
   (("戊", "申"), "大驿土"); (("己", "酉"), "大驿土");
   (("庚", "戌"), "钗钏金"); (("辛", "亥"), "钗钏金");
   (("壬", "子"), "桑柘木"); (("癸", "丑"), "桑柘木");
   (("甲", "寅"), "大溪水"); (("乙", "卯"), "大溪水");
   (("丙", "辰"), "沙中土"); (("丁", "巳"), "沙中土");
   (("戊", "午"), "天上火"); (("己", "未"), "天上火");
   (("庚", "申"), "石榴木"); (("辛", "酉"), "石榴木");
   (("壬", "戌"), "大海水"); (("癸", "亥"), "大海水")].

(** [get_nayin(gan, zhi)]. *)
Definition get_nayin (gan zhi : string) : string :=
  PyDict.get nayin_table (gan, zhi) "未知纳音".

(** A (stem, branch) pair whose stem index and branch index have the same
    parity. *)
Definition same_parity (gan zhi : string) : Prop :=
  ∃ gan_index zhi_index,
    PyList.index TIAN_GAN gan = Some gan_index
    ∧ PyList.index DI_ZHI zhi = Some zhi_index
    ∧ gan_index mod 2 = zhi_index mod 2.

End GanZhi.

(** ** qimen_calendar.py *)

Module Calendar.

(** [class CalendarInfo(TypedDict)]. *)
Record CalendarInfo : Type := {
  year : Z;
  month : Z;
  day : Z;
  hour : Z;
  minute : Z;
  second : Z;
  timezone : string;
  solar_term : string;
  solar_term_index : Z;
  year_gan : string;
  year_zhi : string;
  month_gan : string;
  month_zhi : string;
  day_gan : string;
  day_zhi : string;
  hour_gan : string;
  hour_zhi : string;
  shi_chen : string;
  is_early_zi : bool;
  is_late_zi : bool;
  jie_qi_day : Z;
  yuan_shou : Z;
  use_true_solar_time : bool;
  true_solar_time : option string;
  time_difference_minutes : float;
  standard_time_shi_chen : string
}.

(** The fields of the configuration object ([config.py]) that
    [from_datetime] reads. *)
Record Config : Type := {
  cfg_use_true_solar_time : bool;
  cfg_longitude : float;
  cfg_solar_term_algorithm : string
}.

(** [get_jie_qi_day(year, month, solar_term)]. *)
Definition get_jie_qi_day (year month : Z) (solar_term : string) : Z :=
  if PyList.contains
       ["立春"; "惊蛰"; "清明"; "立夏"; "芒种"; "小暑";
        "立秋"; "白露"; "寒露"; "立冬"; "大雪"; "小寒"] solar_term
  then 6
  else 21.

(** [get_yuan_shou(day, jie_qi_day)]. *)
Definition get_yuan_shou (day jie_qi_day : Z) : Z :=
  if bool_decide (day >= jie_qi_day)
  then (day - jie_qi_day) / 5 + 1
  else (day + 30 - jie_qi_day) / 5 + 1.

(** [is_zi_shi_split(dt)]. *)
Definition is_zi_shi_split (dt : Datetime.datetime) : bool :=
  bool_decide (Datetime.hour dt = 0)
  || (bool_decide (Datetime.hour dt = 23) && bool_decide (Datetime.minute dt >= 30)).

Section assembler.
Import Symbols.

(** [SHI_CHEN] of [symbols.py], which is not among the sources. *)
Variable SHI_CHEN : list string.
(** [pytz.timezone(tz)]: the zone of that name as a fixed offset in minutes,
    [UnknownTimeZoneError] as [None]. *)
Variable pytz_timezone : string → option Z.
(** [get_config()]. *)
Variable config : Config.
(** [astronomical.get_current_solar_term] and
    [astronomical.get_true_solar_time]: float computations whose results
    the assembler consumes. *)
Variable get_current_solar_term : Datetime.datetime → string * Z * Datetime.datetime.
Variable get_true_solar_time : Datetime.datetime → float → Datetime.datetime.

(** [get_shi_chen(hour)]. *)
Definition get_shi_chen (hour : Z) : option string :=
  let time_index := ((hour + 1) / 2) mod 12 in
  PyList.getitem SHI_CHEN time_index.

(** [get_solar_term(year, month, day)]. *)
Definition get_solar_term (year month day : Z) : option (string * Z) :=
  dt ← Datetime.make year month day;
  let '(solar_term, term_index, _) := get_current_solar_term dt in
  Some (solar_term, term_index).

(** [from_datetime(ts, tz)] for a [datetime] argument. *)
Definition from_datetime (ts : Datetime.datetime) (tz : string)
  : option CalendarInfo :=
  let dt := ts in
  dt ← match Datetime.tzinfo dt with
       | Some off =>
           timezone ← pytz_timezone tz;
           Datetime.replace_tzinfo_none <$> Datetime.astimezone dt off timezone
       | None => Some dt
       end;
  let '(calc_dt, true_solar_time_dt, time_diff_minutes) :=
    if cfg_use_true_solar_time config then
      let true_solar_time_dt := get_true_solar_time dt (cfg_longitude config) in
      (true_solar_time_dt, Some true_solar_time_dt,
       (Datetime.td_total_seconds (Datetime.sub dt true_solar_time_dt) / 60.0)%float)
    else (dt, None, 0.0%float) in
  let standard_hour_zhi_idx :=
    if bool_decide (Datetime.hour dt ≠ 23) then (Datetime.hour dt + 1) / 2 else 0 in
  standard_zhi ← PyList.getitem DI_ZHI standard_hour_zhi_idx;
  let standard_shi_chen := (standard_zhi ++ "时")%string in
  '(year_gan, year_zhi) ← GanZhi.calculate_year_ganzhi (Datetime.year calc_dt);
  '(month_gan, month_zhi) ← GanZhi.calculate_month_ganzhi get_current_solar_term calc_dt true;
  '(day_gan, day_zhi) ← GanZhi.calculate_day_ganzhi calc_dt;
  let hour_zhi_index :=
    if bool_decide (Datetime.hour calc_dt = 23) then 0
    else (Datetime.hour calc_dt + 1) / 2 in
  hour_zhi ← PyList.getitem DI_ZHI hour_zhi_index;
  day_gan_index ← PyList.index TIAN_GAN day_gan;
  let DAY_HOUR_GAN_TABLE : PyDict.dict Z Z :=
    [(0, 0); (5, 0); (1, 2); (6, 2); (2, 4); (7, 4); (3, 6); (8, 6); (4, 8); (9, 8)] in
  let base_hour_gan_index := PyDict.get DAY_HOUR_GAN_TABLE day_gan_index 0 in
  let hour_gan_index := (base_hour_gan_index + hour_zhi_index) mod 10 in
  hour_gan ← PyList.getitem TIAN_GAN hour_gan_index;
  shi_chen ← get_shi_chen (Datetime.hour calc_dt);
  '(solar_term, solar_term_index, jie_qi_day, yuan_shou) ←
    (if decide (cfg_solar_term_algorithm config = "astronomical") then
       let '(solar_term, solar_term_index, solar_term_time) :=
         get_current_solar_term calc_dt in
       let days_diff :=
         if Datetime.ge calc_dt solar_term_time
         then Datetime.td_days (Datetime.sub calc_dt solar_term_time)
         else 0 in
       let yuan_shou := Z.min (Z.max (days_diff / 5 + 1) 1) 6 in
       let jie_qi_day := Datetime.day solar_term_time in
       Some (solar_term, solar_term_index, jie_qi_day, yuan_shou)
     else
       '(solar_term, solar_term_index) ←
         get_solar_term (Datetime.year calc_dt) (Datetime.month calc_dt)
                        (Datetime.day calc_dt);
       let jie_qi_day :=
         get_jie_qi_day (Datetime.year calc_dt) (Datetime.month calc_dt) solar_term in
       let yuan_shou := get_yuan_shou (Datetime.day calc_dt) jie_qi_day in
       Some (solar_term, solar_term_index, jie_qi_day, yuan_shou));
  let is_early_zi :=
    bool_decide (Datetime.hour calc_dt = 0) && bool_decide (Datetime.minute calc_dt < 30) in
  let is_late_zi :=
    bool_decide (Datetime.hour calc_dt = 23) && bool_decide (Datetime.minute calc_dt >= 30) in
  Some {|
    year := Datetime.year dt;
    month := Datetime.month dt;
    day := Datetime.day dt;
    hour := Datetime.hour dt;
    minute := Datetime.minute dt;
    second := Datetime.second dt;
    timezone := tz;
    solar_term := solar_term;
    solar_term_index := solar_term_index;
    year_gan := year_gan;
    year_zhi := year_zhi;
    month_gan := month_gan;
    month_zhi := month_zhi;
    day_gan := day_gan;
    day_zhi := day_zhi;
    hour_gan := hour_gan;
    hour_zhi := hour_zhi;
    shi_chen := shi_chen;
    is_early_zi := is_early_zi;
    is_late_zi := is_late_zi;
    jie_qi_day := jie_qi_day;
    yuan_shou := yuan_shou;
    use_true_solar_time := cfg_use_true_solar_time config;
    true_solar_time := Datetime.strftime_HMS <$> true_solar_time_dt;
    time_difference_minutes := time_diff_minutes;
    standard_time_shi_chen := standard_shi_chen
  |}.
End assembler.

End Calendar.

(** ** ju.py *)

Module Ju.
Import Symbols.

(** [is_yang_dune(cal)]. *)
Definition is_yang_dune (cal : Calendar.CalendarInfo) : bool :=
  let solar_term_index := Calendar.solar_term_index cal in
  if bool_decide (solar_term_index >= 23 ∨ solar_term_index <= 11)
  then true
  else false.

(** The literal [shi_chen_nums] of [get_shi_chen_number]. *)
Definition shi_chen_nums : PyDict.dict string Z :=
  [("子", 1); ("丑", 2); ("寅", 3); ("卯", 4);
   ("辰", 5); ("巳", 6); ("午", 7); ("未", 8);
   ("申", 9); ("酉", 10); ("戌", 11); ("亥", 12)].

(** [get_shi_chen_number(hour_zhi)]. *)
Definition get_shi_chen_number (hour_zhi : string) : Z :=
  PyDict.get shi_chen_nums hour_zhi 1.

(** [calculate_ju_number_chabu(cal, is_yang)]. *)
Definition calculate_ju_number_chabu (cal : Calendar.CalendarInfo) (is_yang : bool) : Z :=
  let yuan_shou := Calendar.yuan_shou cal in
  let shi_chen_num := get_shi_chen_number (Calendar.hour_zhi cal) in
  let base_ju :=
    if is_yang
    then (yuan_shou + shi_chen_num - 1) mod 9
    else (yuan_shou - shi_chen_num + 1) mod 9 in
  let base_ju := if decide (base_ju = 0) then 9 else base_ju in
  base_ju.

(** [calculate_ju_index_huopan(cal, is_yang)]; a stem or branch outside the
    cycles makes [index] raise. *)
Definition calculate_ju_index_huopan (cal : Calendar.CalendarInfo) (is_yang : bool) : option Z :=
  day_gan_num ← PyList.index TIAN_GAN (Calendar.day_gan cal);
  day_zhi_num ← PyList.index DI_ZHI (Calendar.day_zhi cal);
  hour_zhi_num ← PyList.index DI_ZHI (Calendar.hour_zhi cal);
  let solar_term_index := Calendar.solar_term_index cal in
  let base_index :=
    (solar_term_index * 2 + day_gan_num + day_zhi_num + hour_zhi_num) mod 18 in
  let ju_index := if is_yang then base_index mod 9 else 9 + base_index mod 9 in
  Some ju_index.

(** [get_ju_chabu(cal)]. *)
Definition get_ju_chabu (cal : Calendar.CalendarInfo) : Z * bool :=
  let is_yang := is_yang_dune cal in
  let ju_number := calculate_ju_number_chabu cal is_yang in
  (ju_number, is_yang).

(** [get_ju_huopan(cal)]. *)
Definition get_ju_huopan (cal : Calendar.CalendarInfo) : option (Z * bool) :=
  let is_yang := is_yang_dune cal in
  ju_index ← calculate_ju_index_huopan cal is_yang;
  let ju_number := ju_index mod 9 + 1 in
  Some (ju_number, is_yang).

(** [get_ju(cal, mode)]; the default mode is huopan. *)
Definition get_ju (cal : Calendar.CalendarInfo) (mode : string) : option (Z * bool) :=
  if decide (mode = "拆补") then Some (get_ju_chabu cal) else get_ju_huopan cal.

(** [get_ju_name(ju_number, is_yang)]. *)
Definition get_ju_name (ju_number : Z) (is_yang : bool) : string :=
  let dun_type := if is_yang then "阳遁" else "阴遁" in
  (dun_type ++ str_of_int ju_number ++ "局")%string.

(** [get_seasonal_ju_range(month)]. *)
Definition get_seasonal_ju_range (month : Z) : Z * Z :=
  if PyList.contains [2; 3; 4] month then (1, 3)
  else if PyList.contains [5; 6; 7] month then (4, 6)
  else if PyList.contains [8; 9; 10] month then (7, 9)
  else (1, 3).

(** [validate_ju(ju_number, is_yang, cal)]. *)
Definition validate_ju (ju_number : Z) (is_yang : bool) (cal : Calendar.CalendarInfo)
  : bool :=
  if negb (bool_decide (1 <= ju_number <= 9)) then false
  else
    let expected_yang := is_yang_dune cal in
    if negb (bool_decide (is_yang = expected_yang)) then false
    else
      let '(min_ju, max_ju) := get_seasonal_ju_range (Calendar.month cal) in
      if negb (bool_decide (min_ju <= ju_number <= max_ju)) then true
      else true.

End Ju.

(** ** palace.py *)

Module Palace.
Import Symbols.

(** [class PalaceInfo(TypedDict)]. *)
Record PalaceInfo : Type := {
  gong_num : Z;
  gong_name : string;
  position : string;
  bagua : string;
  gan : string;
  men : string;
  xing : string;
  shen : string;
  wu_xing : string
}.

(** [class NinePalace(TypedDict)]. *)
Record NinePalace : Type := {
  ju_number : Z;
  is_yang : bool;
  ju_name : string;
  palaces : PyDict.dict string PalaceInfo;
  calendar_info : option Calendar.CalendarInfo;
  mode : string
}.

(** The four base sequences, written out in [_calculate_turn_pan] and again
    in [_get_fly_gan], [_get_fly_men], [_get_fly_xing], [_get_fly_shen]. *)
Definition gan_sequence : list string :=
  ["戊"; "己"; "庚"; "辛"; "壬"; "癸"; "丁"; "丙"; "乙"].
Definition men_sequence : list string :=
  ["休门"; "死门"; "伤门"; "杜门"; "中门"; "开门"; "惊门"; "生门"; "景门"].
Definition xing_sequence : list string :=
  ["天蓬"; "天任"; "天冲"; "天辅"; "天禽"; "天心"; "天柱"; "天英"; "天芮"].
Definition shen_sequence : list string :=
  ["直符"; "腾蛇"; "太阴"; "六合"; "白虎"; "玄武"; "九地"; "九天"; "太常"].

(** [_get_gong_wu_xing(gong_num)]. *)
Definition _get_gong_wu_xing (gong_num : Z) : string :=
  let wu_xing_map : PyDict.dict Z string :=
    [(1, "水"); (2, "土"); (3, "木"); (4, "木"); (5, "土");
     (6, "金"); (7, "金"); (8, "土"); (9, "火")] in
  PyDict.get wu_xing_map gong_num "土".

(** [_calculate_fly_start_gong(year_gan, month_zhi, day_gan, hour_zhi)]. *)
Definition _calculate_fly_start_gong (year_gan month_zhi day_gan hour_zhi : Z) : Z :=
  let start_pos := (year_gan + month_zhi + day_gan + hour_zhi) mod 9 in
  if bool_decide (start_pos ≠ 0) then start_pos else 9.

(** [_calculate_fly_position(start_gong, gong_num)]. *)
Definition _calculate_fly_position (start_gong gong_num : Z) : Z :=
  let fly_pos := (start_gong + gong_num - 1) mod 9 in
  if bool_decide (fly_pos ≠ 0) then fly_pos else 9.

Definition _get_fly_gan (fly_pos : Z) : option string :=
  PyList.getitem gan_sequence (fly_pos - 1).
Definition _get_fly_men (fly_pos : Z) : option string :=
  PyList.getitem men_sequence (fly_pos - 1).
Definition _get_fly_xing (fly_pos : Z) : option string :=
  PyList.getitem xing_sequence (fly_pos - 1).
Definition _get_fly_shen (fly_pos : Z) : option string :=
  PyList.getitem shen_sequence (fly_pos - 1).

(** [for x in l: body], threading the loop state, stopping at an exception. *)
Fixpoint for_each {A S : Type} (l : list A) (body : S → A → option S) (s : S)
  : option S :=
  match l with
  | [] => Some s
  | x :: r => s' ← body s x; for_each r body s'
  end.

Section tables.
(** [JIU_GONG], [GONG_POSITION] and [BAGUA_GONG] of [symbols.py], which is
    not among the sources: the name, compass position and trigram of each
    palace number.  The builders read them at 1..9 only. *)
Variables JIU_GONG GONG_POSITION BAGUA_GONG : Z → string.

(** [PalaceEngine._calculate_turn_pan(ju_number, is_yang)]. *)
Definition _calculate_turn_pan (ju_number : Z) (is_yang : bool) : option NinePalace :=
  let dun_type := if is_yang then "阳遁" else "阴遁" in
  let ju_name := (dun_type ++ str_of_int ju_number ++ "局")%string in
  let base_sequence := ["戊"; "己"; "庚"; "辛"; "壬"; "癸"; "丁"; "丙"; "乙"] in
  let men_sequence := ["休门"; "死门"; "伤门"; "杜门"; "中门"; "开门"; "惊门"; "生门"; "景门"] in
  let xing_sequence := ["天蓬"; "天任"; "天冲"; "天辅"; "天禽"; "天心"; "天柱"; "天英"; "天芮"] in
  let shen_sequence := ["直符"; "腾蛇"; "太阴"; "六合"; "白虎"; "玄武"; "九地"; "九天"; "太常"] in
  let '(offset, base_sequence, men_sequence, xing_sequence, shen_sequence) :=
    if is_yang
    then (ju_number - 1, base_sequence, men_sequence, xing_sequence, shen_sequence)
    else (9 - ju_number, rev base_sequence, rev men_sequence,
          rev xing_sequence, rev shen_sequence) in
  palaces ←
    for_each (PyList.range 1 10)
      (fun palaces gong_num =>
         let gong_str := str_of_int gong_num in
         let idx := (gong_num - 1 + offset) mod 9 in
         gan ← PyList.getitem base_sequence idx;
         men ← PyList.getitem men_sequence idx;
         xing ← PyList.getitem xing_sequence idx;
         shen ← PyList.getitem shen_sequence idx;
         Some (PyDict.set palaces gong_str
                 {| gong_num := gong_num;
                    gong_name := JIU_GONG gong_num;
                    position := GONG_POSITION gong_num;
                    bagua := BAGUA_GONG gong_num;
                    gan := gan;
                    men := men;
                    xing := xing;
                    shen := shen;
                    wu_xing := _get_gong_wu_xing gong_num |}))
      [];
  Some {| ju_number := ju_number;
          is_yang := is_yang;
          ju_name := ju_name;
          palaces := palaces;
          calendar_info := None;
          mode := "turn" |}.

(** [PalaceEngine.fly_pan(cal)]. *)
Definition fly_pan (cal : Calendar.CalendarInfo) : option NinePalace :=
  year_gan_idx ← PyList.index TIAN_GAN (Calendar.year_gan cal);
  month_zhi_idx ← PyList.index DI_ZHI (Calendar.month_zhi cal);
  day_gan_idx ← PyList.index TIAN_GAN (Calendar.day_gan cal);
  hour_zhi_idx ← PyList.index DI_ZHI (Calendar.hour_zhi cal);
  let start_gong :=
    _calculate_fly_start_gong year_gan_idx month_zhi_idx day_gan_idx hour_zhi_idx in
  palaces ←
    for_each (PyList.range 1 10)
      (fun palaces gong_num =>
         let gong_str := str_of_int gong_num in
         let fly_pos := _calculate_fly_position start_gong gong_num in
         gan ← _get_fly_gan fly_pos;
         men ← _get_fly_men fly_pos;
         xing ← _get_fly_xing fly_pos;
         shen ← _get_fly_shen fly_pos;
         Some (PyDict.set palaces gong_str
                 {| gong_num := gong_num;
                    gong_name := JIU_GONG gong_num;
                    position := GONG_POSITION gong_num;
                    bagua := BAGUA_GONG gong_num;
                    gan := gan;
                    men := men;
                    xing := xing;
                    shen := shen;
                    wu_xing := _get_gong_wu_xing gong_num |}))
      [];
  Some {| ju_number := 0;
          is_yang := true;
          ju_name := "飞盘";
          palaces := palaces;
          calendar_info := Some cal;
          mode := "fly" |}.
End tables.

(** [PalaceEngine.find_zhi_fu(nine_palace)]. *)
Definition find_zhi_fu (nine_palace : NinePalace) : option PalaceInfo :=
  List.find (fun palace_info => bool_decide (shen palace_info = "直符"))
            (PyDict.values (palaces nine_palace)).

(** [PalaceEngine.validate_palace(nine_palace)]; an empty string is falsy. *)
Definition validate_palace (nine_palace : NinePalace) : bool :=
  if bool_decide (PyDict.len (palaces nine_palace) ≠ 9) then false
  else
    forallb
      (fun palace_info =>
         bool_decide (gan palace_info ≠ "") && bool_decide (men palace_info ≠ "")
         && bool_decide (xing palace_info ≠ "") && bool_decide (shen palace_info ≠ ""))
      (PyDict.values (palaces nine_palace)).

(** [PalaceEngine._get_adjacent_gongs(gong_num)]. *)
Definition _get_adjacent_gongs (gong_num : Z) : list Z :=
  let adjacent_map : PyDict.dict Z (list Z) :=
    [(1, [2; 4; 6]);
     (2, [1; 3; 5]);
     (3, [2; 4; 8]);
     (4, [1; 3; 7; 9]);
     (5, [2; 6; 8]);
     (6, [1; 5; 7]);
     (7, [4; 6; 8]);
     (8, [3; 5; 7; 9]);
     (9, [4; 8])] in
  PyDict.get adjacent_map gong_num [].

(** [PalaceEngine._is_sheng_relation(wu_xing1, wu_xing2)]: [d.get(k) == v]
    is false when [d] has no [k]. *)
Definition _is_sheng_relation (wu_xing1 wu_xing2 : string) : bool :=
  let sheng_map : PyDict.dict string string :=
    [("木", "火"); ("火", "土"); ("土", "金"); ("金", "水"); ("水", "木")] in
  bool_decide (PyDict.lookup sheng_map wu_xing1 = Some wu_xing2).

(** [PalaceEngine._is_ke_relation(wu_xing1, wu_xing2)]. *)
Definition _is_ke_relation (wu_xing1 wu_xing2 : string) : bool :=
  let ke_map : PyDict.dict string string :=
    [("木", "土"); ("土", "水"); ("水", "火"); ("火", "金"); ("金", "木")] in
  bool_decide (PyDict.lookup ke_map wu_xing1 = Some wu_xing2).

(** [PalaceEngine._analyze_zhi_fu_to_palace_influence(zhi_fu_palace, target_palace)]. *)
Definition _analyze_zhi_fu_to_palace_influence (zhi_fu_palace target_palace : PalaceInfo)
  : string :=
  let zhi_fu_wu_xing := wu_xing zhi_fu_palace in
  let target_wu_xing := wu_xing target_palace in
  if _is_sheng_relation zhi_fu_wu_xing target_wu_xing then "生助有力，加强吉祥"
  else if _is_ke_relation zhi_fu_wu_xing target_wu_xing then "制约有度，化解凶煞"
  else "关系平和，影响中性".

(** [PalaceEngine._check_zhi_fu_special_patterns(nine_palace, zhi_fu_palace)]. *)
Definition _check_zhi_fu_special_patterns (nine_palace : NinePalace)
    (zhi_fu_palace : PalaceInfo) : list string :=
  let patterns := [] in
  let patterns :=
    if bool_decide (gong_num zhi_fu_palace = 5)
    then patterns ++ ["值符居中宫：统领全局，权威显著"]
    else patterns in
  let san_qi := ["乙"; "丙"; "丁"] in
  let patterns :=
    foldl
      (fun patterns '(gong_str, palace_info) =>
         if PyList.contains san_qi (gan palace_info) then
           if bool_decide (gong_num palace_info = gong_num zhi_fu_palace)
           then patterns
                ++ [("值符与" ++ gan palace_info ++ "奇同宫：奇仪相合，大吉之象")%string]
           else if bool_decide
                     (Z.abs (gong_num palace_info - gong_num zhi_fu_palace) = 1)
           then patterns
                ++ [("值符与" ++ gan palace_info ++ "奇相邻：奇仪呼应，吉祥有应")%string]
           else patterns
         else patterns)
      patterns (palaces nine_palace) in
  let patterns :=
    match List.find (fun palace_info => bool_decide (men palace_info = "开门"))
                    (PyDict.values (palaces nine_palace)) with
    | Some palace_info =>
        if bool_decide (gong_num palace_info = gong_num zhi_fu_palace)
        then patterns ++ ["值符与开门同宫：开启良机，事业发达"]
        else patterns
    | None => patterns
    end in
  patterns.

(** [PalaceEngine.get_zhi_fu_influence_analysis(nine_palace)]; the
    [KeyError] of [nine_palace["palaces"][str(adj_gong_num)]] is [None]. *)
Definition get_zhi_fu_influence_analysis (nine_palace : NinePalace)
  : option (list string) :=
  match find_zhi_fu nine_palace with
  | None => Some ["值符位置未明，无法分析影响"]
  | Some zhi_fu_palace =>
      let influences := [] in
      let zhi_fu_gong_num := gong_num zhi_fu_palace in
      let adjacent_gongs := _get_adjacent_gongs zhi_fu_gong_num in
      influences ←
        for_each adjacent_gongs
          (fun influences adj_gong_num =>
             adj_palace ← PyDict.lookup (palaces nine_palace) (str_of_int adj_gong_num);
             let influence :=
               _analyze_zhi_fu_to_palace_influence zhi_fu_palace adj_palace in
             if bool_decide (influence ≠ "")
             then Some (influences
                        ++ [("值符对" ++ gong_name adj_palace ++ "：" ++ influence)%string])
             else Some influences)
          influences;
      let special_patterns :=
        _check_zhi_fu_special_patterns nine_palace zhi_fu_palace in
      Some (influences ++ special_patterns)
  end.

(** The reference data of [PalaceEngine] ([self.palace_data], a JSON
    object): under ["palaces"], one entry per chart name; under the
    ["palaces"] of an entry, one object per palace number with the fields
    ["gan"], ["men"], ["xing"], ["shen"].  A key that may be absent is an
    [option]. *)
Record BasePalace : Type := {
  base_palaces : option (PyDict.dict string (PyDict.dict string string))
}.
Record PalaceData : Type := {
  data_palaces : option (PyDict.dict string BasePalace)
}.

(** [_get_default_palace_data()]: the data used when the file is missing. *)
Definition _get_default_palace_data : PalaceData :=
  {| data_palaces := Some [] |}.

Section turn_pan.
Variables JIU_GONG GONG_POSITION BAGUA_GONG : Z → string.
(** [self.palace_data]. *)
Variable palace_data : PalaceData.

(** [PalaceEngine.turn_pan(ju_number, is_yang)]. *)
Definition turn_pan (ju_number : Z) (is_yang : bool) : option NinePalace :=
  let dun_type := if is_yang then "阳遁" else "阴遁" in
  let ju_name := (dun_type ++ str_of_int ju_number ++ "局")%string in
  let palace_key := ju_name in
  match PyDict.lookup (default [] (data_palaces palace_data)) palace_key with
  | None => _calculate_turn_pan JIU_GONG GONG_POSITION BAGUA_GONG ju_number is_yang
  | Some base_palace =>
      base_palace_palaces ← base_palaces base_palace;
      palaces ←
        for_each (PyList.range 1 10)
          (fun palaces gong_num =>
             let gong_str := str_of_int gong_num in
             let base_info := PyDict.get base_palace_palaces gong_str [] in
             Some (PyDict.set palaces gong_str
                     {| gong_num := gong_num;
                        gong_name := JIU_GONG gong_num;
                        position := GONG_POSITION gong_num;
                        bagua := BAGUA_GONG gong_num;
                        gan := PyDict.get base_info "gan" "";
                        men := PyDict.get base_info "men" "";
                        xing := PyDict.get base_info "xing" "";
                        shen := PyDict.get base_info "shen" "";
                        wu_xing := _get_gong_wu_xing gong_num |}))
          [];
      Some {| ju_number := ju_number;
              is_yang := is_yang;
              ju_name := ju_name;
              palaces := palaces;
              calendar_info := None;
              mode := "turn" |}
  end.
End turn_pan.

(** Each value of the four base sequences sits in exactly one of the
    palaces "1".."9": the keys are the nine palace numbers, and the stems,
    gates, stars and deities read off the palaces in key order are
    rearrangements of their base sequences, which have no repeated value. *)
Definition assigns_each_value_once (nine_palace : NinePalace) : Prop :=
  PyDict.keys (palaces nine_palace) = ["1"; "2"; "3"; "4"; "5"; "6"; "7"; "8"; "9"]
  ∧ (gan <$> PyDict.values (palaces nine_palace) ≡ₚ gan_sequence ∧ NoDup gan_sequence)
  ∧ (men <$> PyDict.values (palaces nine_palace) ≡ₚ men_sequence ∧ NoDup men_sequence)
  ∧ (xing <$> PyDict.values (palaces nine_palace) ≡ₚ xing_sequence ∧ NoDup xing_sequence)
  ∧ (shen <$> PyDict.values (palaces nine_palace) ≡ₚ shen_sequence ∧ NoDup shen_sequence).

(** The palaces of a board whose palace [g] takes the entry at index
    [(g - 1 + rotation) mod 9] of each of four sequences. *)
Definition rotated_palaces (JIU_GONG GONG_POSITION BAGUA_GONG : Z → string)
    (gans mens xings shens : list string) (rotation : Z)
  : PyDict.dict string PalaceInfo :=
  (λ g, (str_of_int g,
         {| gong_num := g;
            gong_name := JIU_GONG g;
            position := GONG_POSITION g;
            bagua := BAGUA_GONG g;
            gan := default "" (PyList.getitem gans ((g - 1 + rotation) mod 9));
            men := default "" (PyList.getitem mens ((g - 1 + rotation) mod 9));
            xing := default "" (PyList.getitem xings ((g - 1 + rotation) mod 9));
            shen := default "" (PyList.getitem shens ((g - 1 + rotation) mod 9));
            wu_xing := _get_gong_wu_xing g |}))
    <$> PyList.range 1 10.

(** The four pillar fields that [fly_pan] looks up are members of the stem
    and branch cycles. *)
Definition fly_pillars_in_cycles (cal : Calendar.CalendarInfo) : Prop :=
  Calendar.year_gan cal ∈ TIAN_GAN
  ∧ Calendar.month_zhi cal ∈ DI_ZHI
  ∧ Calendar.day_gan cal ∈ TIAN_GAN
  ∧ Calendar.hour_zhi cal ∈ DI_ZHI.

End Palace.

(** ** zhishi_calculator.py *)

Module ZhiShi.

(** [ZhiShiCalculator.MEN_DIZHI_MAP]. *)
Definition MEN_DIZHI_MAP : PyDict.dict string string :=
  [("子", "休门");
   ("午", "景门");
   ("丑", "死门");
   ("未", "开门");
   ("寅", "伤门");
   ("申", "惊门");
   ("卯", "杜门");
   ("酉", "生门");
   ("辰", "景门");
   ("戌", "休门");
   ("巳", "生门");
   ("亥", "伤门")].

(** [calculate_zhishi_by_time(hour_zhi)]. *)
Definition calculate_zhishi_by_time (hour_zhi : string) : string :=
  PyDict.get MEN_DIZHI_MAP hour_zhi "未知".

(** [find_zhishi_gong(nine_palace, zhishi_men)]. *)
Definition find_zhishi_gong (nine_palace : Palace.NinePalace) (zhishi_men : string)
  : option string * option Palace.PalaceInfo :=
  let palaces := Palace.palaces nine_palace in
  match List.find (fun item => bool_decide (Palace.men item.2 = zhishi_men)) palaces with
  | Some (gong_str, palace_info) => (Some gong_str, Some palace_info)
  | None => (None, None)
  end.

End ZhiShi.

(** ** rules.py: the engine *)

Module Rules.

(** How a call of [plugin.apply(nine_palace, cal)] ends: it returns its
    findings, raises an exception that derives from [Exception] (with its
    [str(e)]), or raises one that does not ([KeyboardInterrupt],
    [SystemExit], ...). *)
Inductive outcome : Type :=
  | Return (messages : list string)
  | RaiseException (str_e : string)
  | RaiseBaseException (str_e : string).

(** The two arguments of [apply].  They are dicts, and [apply_all] passes
    the same two objects to every plugin: what one plugin writes into them
    is what the plugins called after it read. *)
Definition arguments : Type := Palace.NinePalace * Calendar.CalendarInfo.

(** An object that satisfies [class RulePlugin(Protocol)]: [name] is the
    instance attribute when the object has one.  [apply] gives how the call
    ends, and the board and the record as the call leaves them. *)
Record RulePlugin : Type := {
  name : option string;
  class_name : string;
  apply : Palace.NinePalace → Calendar.CalendarInfo → outcome * arguments
}.

(** [getattr(plugin, 'name', plugin.__class__.__name__)]. *)
Definition plugin_name (plugin : RulePlugin) : string :=
  default (class_name plugin) (name plugin).

(** [class RulesEngine]. *)
Record RulesEngine : Type := {
  plugins : list RulePlugin
}.

(** [RulesEngine()]. *)
Definition new : RulesEngine := {| plugins := [] |}.

(** [add_plugin(plugin)]. *)
Definition add_plugin (self : RulesEngine) (plugin : RulePlugin) : RulesEngine :=
  {| plugins := plugins self ++ [plugin] |}.

(** The body of the loop of [apply_all]: [try ... except Exception as e],
    on the two shared objects as they are when the plugin is called and on
    the [results] so far. *)
Definition apply_one (state : arguments * PyDict.dict string (list string))
    (plugin : RulePlugin)
  : option (arguments * PyDict.dict string (list string)) :=
  let '((nine_palace, cal), results) := state in
  let plugin_name := plugin_name plugin in
  match apply plugin nine_palace cal with
  | (Return messages, shared) =>
      Some (shared, PyDict.set results plugin_name messages)
  | (RaiseException str_e, shared) =>
      Some (shared,
            PyDict.set results plugin_name [("插件执行错误: " ++ str_e)%string])
  | (RaiseBaseException _, _) => None
  end.

(** The loop of [apply_all]: the two shared objects as the plugins leave
    them, and [results]; [None] when an exception leaves the loop. *)
Definition apply_loop (plugins : list RulePlugin) (nine_palace : Palace.NinePalace)
    (cal : Calendar.CalendarInfo)
  : option (arguments * PyDict.dict string (list string)) :=
  Palace.for_each plugins apply_one ((nine_palace, cal), []).

(** [RulesEngine.apply_all(nine_palace, cal)]; [None] when an exception
    leaves the call. *)
Definition apply_all (self : RulesEngine) (nine_palace : Palace.NinePalace)
    (cal : Calendar.CalendarInfo) : option (PyDict.dict string (list string)) :=
  snd <$> apply_loop (plugins self) nine_palace cal.

(** [get_plugin_names()]. *)
Definition get_plugin_names (self : RulesEngine) : list string :=
  plugin_name <$> plugins self.

(** [get_plugin_by_name(name)]. *)
Definition get_plugin_by_name (self : RulesEngine) (name : string) : option RulePlugin :=
  List.find (fun plugin => bool_decide (plugin_name plugin = name)) (plugins self).

(** The entry that the loop of [apply_all] writes for a plugin that it
    calls on this board and this record. *)
Definition entry (nine_palace : Palace.NinePalace) (cal : Calendar.CalendarInfo)
    (plugin : RulePlugin) : list string :=
  match (apply plugin nine_palace cal).1 with
  | Return messages => messages
  | RaiseException str_e => [("插件执行错误: " ++ str_e)%string]
  | RaiseBaseException _ => []
  end.

(** Called on this board and this record, the plugin returns or raises
    within the [Exception] hierarchy. *)
Definition raises_only_exceptions (nine_palace : Palace.NinePalace)
    (cal : Calendar.CalendarInfo) (plugin : RulePlugin) : Prop :=
  match (apply plugin nine_palace cal).1 with
  | RaiseBaseException _ => False
  | _ => True
  end.

(** Called on this board and this record, the plugin writes neither. *)
Definition leaves_arguments (nine_palace : Palace.NinePalace)
    (cal : Calendar.CalendarInfo) (plugin : RulePlugin) : Prop :=
  (apply plugin nine_palace cal).2 = (nine_palace, cal).

(** The board and the record as the plugins of a list, called in turn,
    leave them. *)
Definition arguments_after (plugins : list RulePlugin)
    (nine_palace : Palace.NinePalace) (cal : Calendar.CalendarInfo) : arguments :=
  fold_left (fun shared plugin => (apply plugin shared.1 shared.2).2)
    plugins (nine_palace, cal).

(** The calls of a run of the loop: each plugin with the board and the
    record as they are when it is called. *)
Fixpoint calls (plugins : list RulePlugin) (nine_palace : Palace.NinePalace)
    (cal : Calendar.CalendarInfo) : list (RulePlugin * arguments) :=
  match plugins with
  | [] => []
  | plugin :: plugins =>
      let shared := (apply plugin nine_palace cal).2 in
      (plugin, (nine_palace, cal)) :: calls plugins shared.1 shared.2
  end.

End Rules.

(** ** rules.py: the four plugins and the default engine *)

Module PyStr.

(** [sub in s] for two strings. *)
Fixpoint contains (sub s : string) : bool :=
  String.prefix sub s
  || match s with
     | EmptyString => false
     | String _ r => contains sub r
     end.

(** [sep.join(l)]. *)
Definition join (sep : string) (l : list string) : string := String.concat sep l.

End PyStr.

Module WangShuaiPlugin.
Import Palace.

(** [_is_sheng(sheng_wu_xing, bei_sheng_wu_xing)]. *)
Definition _is_sheng (sheng_wu_xing bei_sheng_wu_xing : string) : bool :=
  let sheng_relations : PyDict.dict string string :=
    [("木", "火"); ("火", "土"); ("土", "金"); ("金", "水"); ("水", "木")] in
  bool_decide (PyDict.lookup sheng_relations sheng_wu_xing = Some bei_sheng_wu_xing).

(** [_is_ke(ke_wu_xing, bei_ke_wu_xing)]. *)
Definition _is_ke (ke_wu_xing bei_ke_wu_xing : string) : bool :=
  let ke_relations : PyDict.dict string string :=
    [("木", "土"); ("土", "水"); ("水", "火"); ("火", "金"); ("金", "木")] in
  bool_decide (PyDict.lookup ke_relations ke_wu_xing = Some bei_ke_wu_xing).

(** [_get_season_wang_shuai(wu_xing, month)]: a branch whose inner chain
    matches nothing falls through to the last [return]. *)
Definition _get_season_wang_shuai (wu_xing : string) (month : Z) : string :=
  if PyList.contains [3; 4; 5] month then
    if decide (wu_xing = "木") then "旺"
    else if decide (wu_xing = "火") then "相"
    else if decide (wu_xing = "土") then "死"
    else if decide (wu_xing = "金") then "囚"
    else if decide (wu_xing = "水") then "休"
    else "平"
  else if PyList.contains [6; 7; 8] month then
    if decide (wu_xing = "火") then "旺"
    else if decide (wu_xing = "土") then "相"
    else if decide (wu_xing = "金") then "死"
    else if decide (wu_xing = "水") then "囚"
    else if decide (wu_xing = "木") then "休"
    else "平"
  else if PyList.contains [9; 10; 11] month then
    if decide (wu_xing = "金") then "旺"
    else if decide (wu_xing = "水") then "相"
    else if decide (wu_xing = "木") then "死"
    else if decide (wu_xing = "火") then "囚"
    else if decide (wu_xing = "土") then "休"
    else "平"
  else
    if decide (wu_xing = "水") then "旺"
    else if decide (wu_xing = "木") then "相"
    else if decide (wu_xing = "火") then "死"
    else if decide (wu_xing = "土") then "囚"
    else if decide (wu_xing = "金") then "休"
    else "平".

(** [_get_palace_wang_shuai(palace_info, cal)]. *)
Definition _get_palace_wang_shuai (palace_info : PalaceInfo)
    (cal : Calendar.CalendarInfo) : string :=
  let season_wang_shuai :=
    _get_season_wang_shuai (wu_xing palace_info) (Calendar.month cal) in
  ("：" ++ season_wang_shuai)%string.

(** [_get_yong_shen_gong(nine_palace, cal)]. *)
Definition _get_yong_shen_gong (nine_palace : NinePalace)
    (cal : Calendar.CalendarInfo) : option PalaceInfo :=
  let day_gan := Calendar.day_gan cal in
  List.find (fun palace_info => bool_decide (gan palace_info = day_gan))
            (PyDict.values (palaces nine_palace)).

Section symbols.
(** [TIAN_GAN_WU_XING] of [symbols.py], which is not among the sources:
    the element of each stem. *)
Variable TIAN_GAN_WU_XING : PyDict.dict string string.

(** [_analyze_wang_shuai(palace_info)]. *)
Definition _analyze_wang_shuai (palace_info : PalaceInfo) : string :=
  let gan_wu_xing := PyDict.get TIAN_GAN_WU_XING (gan palace_info) "" in
  let gong_wu_xing := wu_xing palace_info in
  if _is_sheng gong_wu_xing gan_wu_xing then "得地而旺"
  else if _is_ke gong_wu_xing gan_wu_xing then "受克而衰"
  else "平和".

(** [WangShuaiPlugin.apply(nine_palace, cal)]; a [PalaceInfo] and a
    non-empty string are truthy. *)
Definition apply (nine_palace : NinePalace) (cal : Calendar.CalendarInfo)
  : list string :=
  let messages := [] in
  let yong_shen_gong := _get_yong_shen_gong nine_palace cal in
  let messages :=
    match yong_shen_gong with
    | Some yong_shen_gong =>
        let wang_shuai := _analyze_wang_shuai yong_shen_gong in
        messages
        ++ [("用神在" ++ gong_name yong_shen_gong ++ "，" ++ wang_shuai)%string]
    | None => messages
    end in
  foldl
    (fun messages '(gong_str, palace_info) =>
       let wang_shuai := _get_palace_wang_shuai palace_info cal in
       if bool_decide (wang_shuai ≠ "")
       then messages ++ [(gong_name palace_info ++ wang_shuai)%string]
       else messages)
    messages (palaces nine_palace).

(** [WangShuaiPlugin()]. *)
Definition new : Rules.RulePlugin :=
  {| Rules.name := Some "旺衰分析";
     Rules.class_name := "WangShuaiPlugin";
     Rules.apply := fun nine_palace cal =>
       (Rules.Return (apply nine_palace cal), (nine_palace, cal)) |}.
End symbols.

End WangShuaiPlugin.

Module GeJuPlugin.
Import Palace.

(** The result of a check that indexes the board: a value, or the
    [KeyError] of a missing palace with its key. *)
Inductive result (A : Type) : Type :=
  | Ok (a : A)
  | KeyError (key : string).
Arguments Ok {A} a.
Arguments KeyError {A} key.

Definition bind {A B : Type} (r : result A) (k : A → result B) : result B :=
  match r with
  | Ok a => k a
  | KeyError key => KeyError key
  end.

Notation "x ←! r ; k" := (bind r (fun x => k))
  (at level 20, r at level 100, k at level 200, right associativity,
   format "x  ←!  r ;  '/' k").

(** [nine_palace["palaces"][key]]. *)
Definition palace_at (nine_palace : NinePalace) (key : string) : result PalaceInfo :=
  match PyDict.lookup (palaces nine_palace) key with
  | Some palace_info => Ok palace_info
  | None => KeyError key
  end.

(** [_check_qing_long_fan_shou(nine_palace)]. *)
Definition _check_qing_long_fan_shou (nine_palace : NinePalace) : result bool :=
  palace ←! palace_at nine_palace "1";
  Ok (bool_decide (gan palace = "乙")).

(** [_check_fei_niao_die_xue(nine_palace)]. *)
Definition _check_fei_niao_die_xue (nine_palace : NinePalace) : result bool :=
  palace ←! palace_at nine_palace "9";
  Ok (bool_decide (gan palace = "丙")).

(** [_check_san_qi_de_shi(nine_palace)]. *)
Definition _check_san_qi_de_shi (nine_palace : NinePalace) : bool :=
  existsb
    (fun palace_info =>
       PyList.contains ["乙"; "丙"; "丁"] (gan palace_info)
       && PyList.contains ["开门"; "休门"; "生门"] (men palace_info))
    (PyDict.values (palaces nine_palace)).

(** [_check_bai_hu_chang_kuang(nine_palace)]. *)
Definition _check_bai_hu_chang_kuang (nine_palace : NinePalace) : result bool :=
  palace ←! palace_at nine_palace "3";
  Ok (bool_decide (shen palace = "白虎")).

(** [_check_teng_she_yao_jiao(nine_palace)]. *)
Definition _check_teng_she_yao_jiao (nine_palace : NinePalace) : result bool :=
  palace ←! palace_at nine_palace "9";
  Ok (bool_decide (shen palace = "腾蛇")).

(** [_check_men_po(nine_palace)]. *)
Definition _check_men_po (nine_palace : NinePalace) : bool :=
  existsb
    (fun palace_info =>
       bool_decide (men palace_info = "死门") && bool_decide (bagua palace_info = "坎"))
    (PyDict.values (palaces nine_palace)).

(** [_check_fu_yin(nine_palace)]. *)
Definition _check_fu_yin (nine_palace : NinePalace) : bool :=
  existsb
    (fun palace_info =>
       bool_decide (xing palace_info = "天禽") && bool_decide (gong_num palace_info = 5))
    (PyDict.values (palaces nine_palace)).

(** [_check_fan_yin(nine_palace)]: the loop over the four opposite pairs
    returns at the first pair with the same star. *)
Fixpoint fan_yin_loop (nine_palace : NinePalace) (pairs : list (Z * Z)) : result bool :=
  match pairs with
  | [] => Ok false
  | pair_ :: rest =>
      palace1 ←! palace_at nine_palace (str_of_int pair_.1);
      palace2 ←! palace_at nine_palace (str_of_int pair_.2);
      if bool_decide (xing palace1 = xing palace2) then Ok true
      else fan_yin_loop nine_palace rest
  end.

Definition _check_fan_yin (nine_palace : NinePalace) : result bool :=
  let dui_chong_pairs := [(1, 9); (2, 8); (3, 7); (4, 6)] in
  fan_yin_loop nine_palace dui_chong_pairs.

(** [_analyze_ji_ge(nine_palace, cal)]. *)
Definition _analyze_ji_ge (nine_palace : NinePalace) (cal : Calendar.CalendarInfo)
  : result (list string) :=
  let messages := [] in
  qing_long ←! _check_qing_long_fan_shou nine_palace;
  let messages :=
    if qing_long then messages ++ ["青龙返首：大吉之格，事业有成"] else messages in
  fei_niao ←! _check_fei_niao_die_xue nine_palace;
  let messages :=
    if fei_niao then messages ++ ["飞鸟跌穴：利于求财，投资获利"] else messages in
  let messages :=
    if _check_san_qi_de_shi nine_palace
    then messages ++ ["三奇得使：贵人相助，事半功倍"] else messages in
  Ok messages.

(** [_analyze_xiong_ge(nine_palace, cal)]. *)
Definition _analyze_xiong_ge (nine_palace : NinePalace) (cal : Calendar.CalendarInfo)
  : result (list string) :=
  let messages := [] in
  bai_hu ←! _check_bai_hu_chang_kuang nine_palace;
  let messages :=
    if bai_hu then messages ++ ["白虎猖狂：易有血光之灾，需谨慎"] else messages in
  teng_she ←! _check_teng_she_yao_jiao nine_palace;
  let messages :=
    if teng_she then messages ++ ["腾蛇夭矫：多有虚惊，事多反复"] else messages in
  let messages :=
    if _check_men_po nine_palace
    then messages ++ ["门迫：行事受阻，需择时而动"] else messages in
  Ok messages.

(** [_analyze_te_shu_ge(nine_palace, cal)]. *)
Definition _analyze_te_shu_ge (nine_palace : NinePalace) (cal : Calendar.CalendarInfo)
  : result (list string) :=
  let messages := [] in
  let messages :=
    if _check_fu_yin nine_palace
    then messages ++ ["伏吟：事情拖延，进展缓慢"] else messages in
  fan_yin ←! _check_fan_yin nine_palace;
  let messages :=
    if fan_yin then messages ++ ["反吟：事情反复，变化较大"] else messages in
  Ok messages.

(** [GeJuPlugin.apply(nine_palace, cal)]. *)
Definition apply (nine_palace : NinePalace) (cal : Calendar.CalendarInfo)
  : result (list string) :=
  let messages := [] in
  ji_ge ←! _analyze_ji_ge nine_palace cal;
  let messages := messages ++ ji_ge in
  xiong_ge ←! _analyze_xiong_ge nine_palace cal;
  let messages := messages ++ xiong_ge in
  te_shu_ge ←! _analyze_te_shu_ge nine_palace cal;
  let messages := messages ++ te_shu_ge in
  Ok messages.

(** [GeJuPlugin()]; [str(KeyError(key))] is the key between quotes. *)
Definition new : Rules.RulePlugin :=
  {| Rules.name := Some "格局分析";
     Rules.class_name := "GeJuPlugin";
     Rules.apply :=
       fun nine_palace cal =>
         (match apply nine_palace cal with
          | Ok messages => Rules.Return messages
          | KeyError key => Rules.RaiseException ("'" ++ key ++ "'")%string
          end, (nine_palace, cal)) |}.

End GeJuPlugin.

Module YingQiPlugin.
Import Palace.

(** [_get_yong_shen_gong(nine_palace, cal)]. *)
Definition _get_yong_shen_gong (nine_palace : NinePalace)
    (cal : Calendar.CalendarInfo) : option PalaceInfo :=
  let day_gan := Calendar.day_gan cal in
  List.find (fun palace_info => bool_decide (gan palace_info = day_gan))
            (PyDict.values (palaces nine_palace)).

(** [_calculate_ying_qi_time(palace_info, cal)]. *)
Definition _calculate_ying_qi_time (palace_info : PalaceInfo)
    (cal : Calendar.CalendarInfo) : string :=
  let gong_num := gong_num palace_info in
  if bool_decide (gong_num <= 3) then "近期（1-3天内）"
  else if bool_decide (gong_num <= 6) then "中期（3-7天内）"
  else "远期（7-15天内）".

(** [_get_favorable_directions(nine_palace, cal)]. *)
Definition _get_favorable_directions (nine_palace : NinePalace)
    (cal : Calendar.CalendarInfo) : list string :=
  position
    <$> List.filter
          (fun palace_info => PyList.contains ["开门"; "生门"; "休门"] (men palace_info))
          (PyDict.values (palaces nine_palace)).

(** [_analyze_time_ying_qi(nine_palace, cal)]. *)
Definition _analyze_time_ying_qi (nine_palace : NinePalace)
    (cal : Calendar.CalendarInfo) : list string :=
  let messages := [] in
  match _get_yong_shen_gong nine_palace cal with
  | Some yong_shen_gong =>
      let ying_qi_time := _calculate_ying_qi_time yong_shen_gong cal in
      messages ++ [("应期时间：" ++ ying_qi_time)%string]
  | None => messages
  end.

(** [_analyze_direction_ying_qi(nine_palace, cal)]; an empty list is falsy. *)
Definition _analyze_direction_ying_qi (nine_palace : NinePalace)
    (cal : Calendar.CalendarInfo) : list string :=
  let messages := [] in
  let favorable_directions := _get_favorable_directions nine_palace cal in
  match favorable_directions with
  | [] => messages
  | _ => messages ++ [("有利方位：" ++ PyStr.join ", " favorable_directions)%string]
  end.

(** [YingQiPlugin.apply(nine_palace, cal)]. *)
Definition apply (nine_palace : NinePalace) (cal : Calendar.CalendarInfo)
  : list string :=
  let messages := [] in
  let time_ying_qi := _analyze_time_ying_qi nine_palace cal in
  let messages := messages ++ time_ying_qi in
  let direction_ying_qi := _analyze_direction_ying_qi nine_palace cal in
  let messages := messages ++ direction_ying_qi in
  messages.

(** [YingQiPlugin()]. *)
Definition new : Rules.RulePlugin :=
  {| Rules.name := Some "应期分析";
     Rules.class_name := "YingQiPlugin";
     Rules.apply := fun nine_palace cal =>
       (Rules.Return (apply nine_palace cal), (nine_palace, cal)) |}.

End YingQiPlugin.

Module ZhiFuPlugin.
Import Palace.

(** [_find_zhi_fu(nine_palace)]. *)
Definition _find_zhi_fu (nine_palace : NinePalace) : option PalaceInfo :=
  List.find (fun palace_info => bool_decide (shen palace_info = "直符"))
            (PyDict.values (palaces nine_palace)).

(** [_analyze_zhi_fu_location(zhi_fu_palace)]. *)
Definition _analyze_zhi_fu_location (zhi_fu_palace : PalaceInfo) : string :=
  let gong_num := gong_num zhi_fu_palace in
  let position := position zhi_fu_palace in
  let location_meanings : PyDict.dict Z string :=
    [(1, "坎宫" ++ position ++ "，智慧内敛，利于谋划决策");
     (2, "坤宫" ++ position ++ "，厚德包容，利于合作发展");
     (3, "震宫" ++ position ++ "，生机勃发，利于开创新局");
     (4, "巽宫" ++ position ++ "，进退有序，利于渐进成长");
     (5, "中宫" ++ position ++ "，统领八方，权威居中调度");
     (6, "乾宫" ++ position ++ "，刚健决断，利于领导管理");
     (7, "兑宫" ++ position ++ "，沟通协调，利于交际合作");
     (8, "艮宫" ++ position ++ "，稳重守成，利于积累发展");
     (9, "离宫" ++ position ++ "，光明显达，利于展示宣传")]%string in
  PyDict.get location_meanings gong_num
    (gong_name zhi_fu_palace ++ position ++ "，位置特殊")%string.

(** [_get_seasonal_status(month)]. *)
Definition _get_seasonal_status (month : Z) : string :=
  if PyList.contains [6; 7; 8] month then "夏季火旺生土，戊土得令而旺"
  else if PyList.contains [3; 6; 9; 12] month then "四季月土旺，戊土当令而强"
  else if PyList.contains [9; 10; 11] month then "秋季金旺泄土，戊土有泄但稳"
  else if PyList.contains [12; 1; 2] month then "冬季水旺克土，戊土受制较弱"
  else "春季木旺克土，戊土受克略衰".

(** [_analyze_hour_gan_relation(hour_gan)]. *)
Definition _analyze_hour_gan_relation (hour_gan : string) : string :=
  let gan_relations : PyDict.dict string string :=
    [("甲", "甲木克戊土，时干制约值符");
     ("乙", "乙木克戊土，时干约束值符");
     ("丙", "丙火生戊土，时干生助值符");
     ("丁", "丁火生戊土，时干滋养值符");
     ("戊", "戊土比和，时干同助值符");
     ("己", "己土比和，时干呼应值符");
     ("庚", "戊土生庚金，值符生助时干");
     ("辛", "戊土生辛金，值符扶持时干");
     ("壬", "戊土克壬水，值符制约时干");
     ("癸", "戊土克癸水，值符控制时干")] in
  PyDict.get gan_relations hour_gan "时干关系不明".

(** [_analyze_gong_relation(gong_wu_xing)]. *)
Definition _analyze_gong_relation (gong_wu_xing : string) : string :=
  let relations : PyDict.dict string string :=
    [("土", "戊土居土宫，比和得地而强");
     ("火", "戊土居火宫，火生土而得助");
     ("金", "戊土居金宫，土生金而有泄");
     ("水", "戊土居水宫，土克水而耗力");
     ("木", "戊土居木宫，木克土而受制")] in
  PyDict.get relations gong_wu_xing "宫位关系待查".

(** [_analyze_time_space_match(zhi_fu_palace, cal)]. *)
Definition _analyze_time_space_match (zhi_fu_palace : PalaceInfo)
    (cal : Calendar.CalendarInfo) : string :=
  let month := Calendar.month cal in
  let hour_gan := Calendar.hour_gan cal in
  let gong_wu_xing := wu_xing zhi_fu_palace in
  let seasonal_status := _get_seasonal_status month in
  let hour_relation := _analyze_hour_gan_relation hour_gan in
  let gong_relation := _analyze_gong_relation gong_wu_xing in
  if PyStr.contains "旺" seasonal_status && PyStr.contains "生助" gong_relation
  then ("时空俱佳：" ++ seasonal_status ++ "，" ++ gong_relation ++ "，"
        ++ hour_relation)%string
  else if PyStr.contains "衰" seasonal_status && PyStr.contains "受制" gong_relation
  then ("时空不利：" ++ seasonal_status ++ "，" ++ gong_relation ++ "，"
        ++ hour_relation)%string
  else ("时空平和：" ++ seasonal_status ++ "，" ++ gong_relation ++ "，"
        ++ hour_relation)%string.

(** [_check_san_qi_combination(nine_palace, zhi_fu_palace)]. *)
Definition _check_san_qi_combination (nine_palace : NinePalace)
    (zhi_fu_palace : PalaceInfo) : list string :=
  let combinations := [] in
  let san_qi := ["乙"; "丙"; "丁"] in
  let zhi_fu_gong := gong_num zhi_fu_palace in
  foldl
    (fun combinations '(gong_str, palace_info) =>
       if PyList.contains san_qi (gan palace_info) then
         if bool_decide (gong_num palace_info = zhi_fu_gong)
         then combinations
              ++ [("值符与" ++ gan palace_info ++ "奇同宫：权威与才华并显，主贵")%string]
         else if bool_decide (Z.abs (gong_num palace_info - zhi_fu_gong) <= 1)
         then combinations
              ++ [("值符与" ++ gan palace_info ++ "奇相邻：权威呼应才华，吉祥")%string]
         else combinations
       else combinations)
    combinations (palaces nine_palace).

(** [_check_ji_men_combination(nine_palace, zhi_fu_palace)]. *)
Definition _check_ji_men_combination (nine_palace : NinePalace)
    (zhi_fu_palace : PalaceInfo) : list string :=
  let combinations := [] in
  let ji_men := ["开门"; "休门"; "生门"] in
  let zhi_fu_gong := gong_num zhi_fu_palace in
  foldl
    (fun combinations palace_info =>
       if PyList.contains ji_men (men palace_info)
          && bool_decide (gong_num palace_info ≠ zhi_fu_gong)
       then
         if bool_decide (Z.abs (gong_num palace_info - zhi_fu_gong) <= 1)
         then combinations
              ++ [("值符临近" ++ men palace_info ++ "：权威配吉门，利于行动")%string]
         else combinations
       else combinations)
    combinations (PyDict.values (palaces nine_palace)).

(** [_check_jiu_xing_combination(zhi_fu_palace)]. *)
Definition _check_jiu_xing_combination (zhi_fu_palace : PalaceInfo) : string :=
  let xing := xing zhi_fu_palace in
  if bool_decide (xing = "天蓬")
  then "值符配天蓬星：智慧与权威结合，利于谋略策划"
  else ("值符配" ++ xing ++ "：星符组合特殊，需详察吉凶")%string.

(** [_analyze_pattern_influence(nine_palace, zhi_fu_palace)]; an empty
    list and an empty string are falsy. *)
Definition _analyze_pattern_influence (nine_palace : NinePalace)
    (zhi_fu_palace : PalaceInfo) : list string :=
  let influences := [] in
  let san_qi_combination := _check_san_qi_combination nine_palace zhi_fu_palace in
  let influences :=
    match san_qi_combination with
    | [] => influences
    | _ => influences ++ san_qi_combination
    end in
  let ji_men_combination := _check_ji_men_combination nine_palace zhi_fu_palace in
  let influences :=
    match ji_men_combination with
    | [] => influences
    | _ => influences ++ ji_men_combination
    end in
  let jiu_xing_combination := _check_jiu_xing_combination zhi_fu_palace in
  let influences :=
    if bool_decide (jiu_xing_combination ≠ "")
    then influences ++ [jiu_xing_combination]
    else influences in
  influences.

(** [_get_seasonal_advice(month)]. *)
Definition _get_seasonal_advice (month : Z) : string :=
  if PyList.contains [3; 4; 5] month then "春季生发，宜播种布局"
  else if PyList.contains [6; 7; 8] month then "夏季繁茂，宜积极行动"
  else if PyList.contains [9; 10; 11] month then "秋季收获，宜总结完善"
  else "冬季蛰伏，宜养精蓄锐".

(** [_get_action_advice(zhi_fu_palace, cal)]. *)
Definition _get_action_advice (zhi_fu_palace : PalaceInfo)
    (cal : Calendar.CalendarInfo) : string :=
  let gong_num := gong_num zhi_fu_palace in
  let month := Calendar.month cal in
  let position_advice : PyDict.dict Z string :=
    [(1, "宜静心思考，制定长远计划");
     (2, "宜合作共事，发挥团队优势");
     (3, "宜主动出击，开创新的局面");
     (4, "宜循序渐进，稳步推进计划");
     (5, "宜统筹全局，发挥领导作用");
     (6, "宜果断决策，展现权威风范");
     (7, "宜加强沟通，促进合作交流");
     (8, "宜稳扎稳打，积累实力资源");
     (9, "宜展示才华，扩大影响力度")] in
  let base_advice := PyDict.get position_advice gong_num "宜审时度势" in
  let seasonal_advice := _get_seasonal_advice month in
  (base_advice ++ "，" ++ seasonal_advice)%string.

(** [_predict_ying_qi(zhi_fu_palace, cal)]. *)
Definition _predict_ying_qi (zhi_fu_palace : PalaceInfo)
    (cal : Calendar.CalendarInfo) : string :=
  let gong_num := gong_num zhi_fu_palace in
  let period :=
    if PyList.contains [1; 6] gong_num then "7-10天内"
    else if PyList.contains [2; 8] gong_num then "15-30天内"
    else if PyList.contains [3; 4] gong_num then "3-7天内"
    else if bool_decide (gong_num = 5) then "当即或1-3天内"
    else if PyList.contains [7; 9] gong_num then "5-15天内"
    else "时机待定" in
  ("根据值符位置，事情应期约在" ++ period)%string.

(** [ZhiFuPlugin.apply(nine_palace, cal)]. *)
Definition apply (nine_palace : NinePalace) (cal : Calendar.CalendarInfo)
  : list string :=
  let messages := [] in
  match _find_zhi_fu nine_palace with
  | None => messages ++ ["值符位置不明，分析受限"]
  | Some zhi_fu_palace =>
      let location_analysis := _analyze_zhi_fu_location zhi_fu_palace in
      let messages := messages ++ [("值符位置：" ++ location_analysis)%string] in
      let time_match := _analyze_time_space_match zhi_fu_palace cal in
      let messages := messages ++ [("时空匹配：" ++ time_match)%string] in
      let pattern_influence := _analyze_pattern_influence nine_palace zhi_fu_palace in
      let messages := messages ++ pattern_influence in
      let action_advice := _get_action_advice zhi_fu_palace cal in
      let messages := messages ++ [("行运建议：" ++ action_advice)%string] in
      let ying_qi := _predict_ying_qi zhi_fu_palace cal in
      let messages := messages ++ [("应期预测：" ++ ying_qi)%string] in
      messages
  end.

(** [ZhiFuPlugin()]. *)
Definition new : Rules.RulePlugin :=
  {| Rules.name := Some "值符分析";
     Rules.class_name := "ZhiFuPlugin";
     Rules.apply := fun nine_palace cal =>
       (Rules.Return (apply nine_palace cal), (nine_palace, cal)) |}.

End ZhiFuPlugin.

(** [create_default_engine()]. *)
Definition create_default_engine (TIAN_GAN_WU_XING : PyDict.dict string string)
  : Rules.RulesEngine :=
  let engine := Rules.new in
  let engine := Rules.add_plugin engine ZhiFuPlugin.new in
  let engine := Rules.add_plugin engine (WangShuaiPlugin.new TIAN_GAN_WU_XING) in
  let engine := Rules.add_plugin engine GeJuPlugin.new in
  let engine := Rules.add_plugin engine YingQiPlugin.new in
  engine.

(** ** astronomical.py: the term in force *)

Module SolarTerm.
Import Datetime.

(** [list.sort(key=...)] on keys compared with [<]: a stable sort, here by
    insertion from the right. *)
Section sort.
Context {A : Type} (key : A → Z).

Fixpoint insert_by (x : A) (l : list A) : list A :=
  match l with
  | [] => [x]
  | y :: r => if bool_decide (key x < key y) then x :: y :: r else y :: insert_by x r
  end.

Definition sort_by (l : list A) : list A := foldl (fun acc x => insert_by x acc) [] l.
End sort.

Section solar_terms.
(** [SOLAR_TERMS] of [symbols.py]. *)
Variable SOLAR_TERMS : list string.
(** [AstronomicalCalculator.find_solar_term_time(year, term_name)]: the
    result of the float iteration, a naive [datetime]; an exception is
    [None]. *)
Variable find_solar_term_time : Z → string → option datetime.

(** [calculate_all_solar_terms(year)]. *)
Definition calculate_all_solar_terms (year : Z) : option (PyDict.dict string datetime) :=
  Palace.for_each SOLAR_TERMS
    (fun solar_terms term_name =>
       term_time ← find_solar_term_time year term_name;
       Some (PyDict.set solar_terms term_name term_time))
    [].

(** The loop that finds the term in force: it keeps the last term at or
    before [dt] and stops at the first one after [dt]. *)
Fixpoint scan (dt : datetime) (all_terms : list (string * Z * datetime))
    (current_term : option (string * Z * datetime))
  : option (string * Z * datetime) :=
  match all_terms with
  | [] => current_term
  | (term_name, term_index, term_time) :: rest =>
      if ge dt term_time
      then scan dt rest (Some (term_name, term_index, term_time))
      else current_term
  end.

(** [get_current_solar_term(dt)]. *)
Definition get_current_solar_term (dt : datetime)
  : option (string * Z * datetime) :=
  let dt := if tzinfo dt is Some _ then replace_tzinfo_none dt else dt in
  let year := Datetime.year dt in
  current_year_terms ← calculate_all_solar_terms year;
  prev_year_terms ← calculate_all_solar_terms (year - 1);
  let all_terms := [] in
  all_terms ←
    Palace.for_each ["小寒"; "大寒"]
      (fun all_terms term_name =>
         term_time ← PyDict.lookup prev_year_terms term_name;
         if bool_decide (Datetime.year term_time = year) then
           term_index ← PyList.index SOLAR_TERMS term_name;
           Some (all_terms ++ [(term_name, term_index, term_time)])
         else Some all_terms)
      all_terms;
  all_terms ←
    Palace.for_each SOLAR_TERMS
      (fun all_terms term_name =>
         term_time ← PyDict.lookup current_year_terms term_name;
         term_index ← PyList.index SOLAR_TERMS term_name;
         Some (all_terms ++ [(term_name, term_index, term_time)]))
      all_terms;
  let all_terms := sort_by (fun x => to_us x.2) all_terms in
  let current_term := scan dt all_terms None in
  match current_term with
  | None =>
      prev_dahan ← PyDict.lookup prev_year_terms "大寒";
      term_index ← PyList.index SOLAR_TERMS "大寒";
      Some ("大寒", term_index, prev_dahan)
  | Some current_term => Some current_term
  end.
End solar_terms.

End SolarTerm.

(** ** cache.py: the in-process LRU cache *)

Module Cache.

(** [class CacheStats]. *)
Record CacheStats : Type := {
  hits : Z;
  misses : Z;
  sets : Z;
  deletes : Z;
  size : Z;
  stats_max_size : Z
}.

(** How a call of [set] ends: it returns, or the addition
    [time.time() + ttl] raises [OverflowError], which nothing catches. *)
Inductive result (A : Type) : Type :=
  | Ok (a : A)
  | OverflowError.
Arguments Ok {A} a.
Arguments OverflowError {A}.

Section cache.
(** The type of the cached values other than [None].  A cached value is
    any Python object: [None] below is Python's [None], which [set] stores
    like any other value, and [Some v] is another value. *)
Context {V : Type}.

(** [class LRUCacheNode], without its two links: the position of a node in
    the list is kept by [_order] below. *)
Record LRUCacheNode : Type := {
  key : string;
  value : option V;
  expire_time : option float
}.

(** [class ThreadSafeLRUCache].  [_cache] is the dict from keys to nodes.
    The doubly linked list between the sentinels [_head] and [_tail] is
    [_order], most recently used first; it holds the key of each linked
    node, the node itself being the one [_cache] has under that key, so a
    write to a node is seen from the list and from the dict alike.  Every
    method body runs under [self._lock], one call at a time. *)
Record ThreadSafeLRUCache : Type := {
  max_size : Z;
  default_ttl : option Z;
  _cache : gmap string LRUCacheNode;
  _stats : CacheStats;
  _order : list string
}.

(** [ThreadSafeLRUCache(max_size, default_ttl)]. *)
Definition new (max_size : Z) (default_ttl : option Z) : ThreadSafeLRUCache :=
  {| max_size := max_size;
     default_ttl := default_ttl;
     _cache := ∅;
     _stats := {| hits := 0; misses := 0; sets := 0; deletes := 0; size := 0;
                  stats_max_size := max_size |};
     _order := [] |}.

Definition with_stats (self : ThreadSafeLRUCache) (f : CacheStats → CacheStats)
  : ThreadSafeLRUCache :=
  {| max_size := max_size self; default_ttl := default_ttl self;
     _cache := _cache self; _stats := f (_stats self); _order := _order self |}.
Definition with_cache (self : ThreadSafeLRUCache) (c : gmap string LRUCacheNode)
  : ThreadSafeLRUCache :=
  {| max_size := max_size self; default_ttl := default_ttl self;
     _cache := c; _stats := _stats self; _order := _order self |}.
Definition with_order (self : ThreadSafeLRUCache) (o : list string)
  : ThreadSafeLRUCache :=
  {| max_size := max_size self; default_ttl := default_ttl self;
     _cache := _cache self; _stats := _stats self; _order := o |}.

Definition incr_hits (s : CacheStats) : CacheStats :=
  {| hits := hits s + 1; misses := misses s; sets := sets s; deletes := deletes s;
     size := size s; stats_max_size := stats_max_size s |}.
Definition incr_misses (s : CacheStats) : CacheStats :=
  {| hits := hits s; misses := misses s + 1; sets := sets s; deletes := deletes s;
     size := size s; stats_max_size := stats_max_size s |}.
Definition incr_sets (s : CacheStats) : CacheStats :=
  {| hits := hits s; misses := misses s; sets := sets s + 1; deletes := deletes s;
     size := size s; stats_max_size := stats_max_size s |}.
Definition incr_deletes (s : CacheStats) : CacheStats :=
  {| hits := hits s; misses := misses s; sets := sets s; deletes := deletes s + 1;
     size := size s; stats_max_size := stats_max_size s |}.
Definition set_size (n : Z) (s : CacheStats) : CacheStats :=
  {| hits := hits s; misses := misses s; sets := sets s; deletes := deletes s;
     size := n; stats_max_size := stats_max_size s |}.

(** [len(self._cache)]. *)
Definition len_cache (self : ThreadSafeLRUCache) : Z :=
  Z.of_nat (base.size (_cache self)).

(** [_add_node(node)]: link the node right after [_head]. *)
Definition _add_node (self : ThreadSafeLRUCache) (node_key : string)
  : ThreadSafeLRUCache :=
  with_order self (node_key :: _order self).

(** [_remove_node(node)]: unlink the node.  The list holds a node once, so
    this takes its key out of [_order]. *)
Definition _remove_node (self : ThreadSafeLRUCache) (node_key : string)
  : ThreadSafeLRUCache :=
  with_order self (List.filter (fun k => bool_decide (k ≠ node_key)) (_order self)).

(** [_move_to_head(node)]. *)
Definition _move_to_head (self : ThreadSafeLRUCache) (node_key : string)
  : ThreadSafeLRUCache :=
  _add_node (_remove_node self node_key) node_key.

(** [_pop_tail()]: unlink and return the node before [_tail], if any. *)
Definition _pop_tail (self : ThreadSafeLRUCache)
  : ThreadSafeLRUCache * option string :=
  match last (_order self) with
  | Some last_node => (_remove_node self last_node, Some last_node)
  | None => (self, None)
  end.

(** [_is_expired(node)], [now] being the reading of [time.time()]. *)
Definition _is_expired (node : LRUCacheNode) (now : float) : bool :=
  match expire_time node with
  | None => false
  | Some t => PrimFloat.ltb t now
  end.

(** [delete(key)]. *)
Definition delete (self : ThreadSafeLRUCache) (key : string)
  : ThreadSafeLRUCache * bool :=
  match _cache self !! key with
  | Some node =>
      let self := _remove_node self key in
      let self := with_cache self (base.delete key (_cache self)) in
      let self := with_stats self incr_deletes in
      let self := with_stats self (set_size (len_cache self)) in
      (self, true)
  | None => (self, false)
  end.

(** [get(key)]: the answer is [None] for a miss, and [node.value] for a
    hit, which is [None] too when [None] is the value cached. *)
Definition get (self : ThreadSafeLRUCache) (key : string) (now : float)
  : ThreadSafeLRUCache * option V :=
  match _cache self !! key with
  | None => (with_stats self incr_misses, None)
  | Some node =>
      if _is_expired node now then
        let self := fst (delete self key) in
        (with_stats self incr_misses, None)
      else
        let self := _move_to_head self key in
        (with_stats self incr_hits, value node)
  end.

(** The [expire_time] that [set] computes: [time.time() + ttl] for the
    [ttl] given or else for [default_ttl], an int that Python converts to a
    float. *)
Definition set_expire_time (self : ThreadSafeLRUCache) (ttl : option Z)
    (now : float) : result (option float) :=
  match ttl with
  | Some ttl =>
      match PyFloat.add_int now ttl with
      | Some expire_time => Ok (Some expire_time)
      | None => OverflowError
      end
  | None =>
      match default_ttl self with
      | Some default_ttl =>
          match PyFloat.add_int now default_ttl with
          | Some expire_time => Ok (Some expire_time)
          | None => OverflowError
          end
      | None => Ok None
      end
  end.

(** [node.value = value; node.expire_time = expire_time]. *)
Definition update_node (node : LRUCacheNode) (v : option V) (t : option float)
  : LRUCacheNode :=
  {| key := key node; value := v; expire_time := t |}.

(** [set(key, value, ttl)], with the cache as the call leaves it: a call
    that raises has written nothing yet. *)
Definition set (self : ThreadSafeLRUCache) (key : string) (value : option V)
    (ttl : option Z) (now : float) : ThreadSafeLRUCache * result bool :=
  let node := _cache self !! key in
  match set_expire_time self ttl now with
  | OverflowError => (self, OverflowError)
  | Ok expire_time =>
      let self :=
        match node with
        | Some node =>
            let node := update_node node value expire_time in
            let self := with_cache self (<[key := node]> (_cache self)) in
            _move_to_head self key
        | None =>
            let new_node := {| key := key; value := value;
                               expire_time := expire_time |} in
            let self := with_cache self (<[key := new_node]> (_cache self)) in
            let self := _add_node self key in
            if bool_decide (len_cache self > max_size self) then
              match _pop_tail self with
              | (self, Some tail) =>
                  let self := with_cache self (base.delete tail (_cache self)) in
                  with_stats self incr_deletes
              | (self, None) => self
              end
            else self
        end in
      let self := with_stats self incr_sets in
      let self := with_stats self (set_size (len_cache self)) in
      (self, Ok true)
  end.

(** [clear()]. *)
Definition clear (self : ThreadSafeLRUCache) : ThreadSafeLRUCache * bool :=
  let self := with_cache self ∅ in
  let self := with_order self [] in
  let self := with_stats self (set_size 0) in
  (self, true).

(** [exists(key)]. *)
Definition exists_ (self : ThreadSafeLRUCache) (key : string) (now : float) : bool :=
  match _cache self !! key with
  | Some node => if negb (_is_expired node now) then true else false
  | None => false
  end.
(** [get_stats()]: a copy of the counters. *)
Definition get_stats (self : ThreadSafeLRUCache) : CacheStats :=
  {| hits := hits (_stats self);
     misses := misses (_stats self);
     sets := sets (_stats self);
     deletes := deletes (_stats self);
     size := size (_stats self);
     stats_max_size := stats_max_size (_stats self) |}.
End cache.

Arguments LRUCacheNode : clear implicits.
Arguments ThreadSafeLRUCache : clear implicits.

(** The cache states that the constructor and the methods produce. *)
Inductive reachable {V : Type} : ThreadSafeLRUCache V → Prop :=
  | reachable_new (max_size : Z) (default_ttl : option Z) :
      reachable (new max_size default_ttl)
  | reachable_get self key now :
      reachable self → reachable (get self key now).1
  | reachable_set self key value ttl now :
      reachable self → reachable (set self key value ttl now).1
  | reachable_delete self key :
      reachable self → reachable (delete self key).1
  | reachable_clear self :
      reachable self → reachable (clear self).1.

End Cache.

(** ** cache.py: the multi-level cache *)

Module MultiLevel.
Import Cache.

(** [class CacheProtocol(Protocol)], for caches held in a state of type
    [C], of values that are [None] or of type [V].  Each method gives the
    state it leaves and its answer: [get] answers the value ([None] for a
    miss), [set] returns or raises as the LRU cache does; the methods that
    consult an expiry take the reading of the clock. *)
Class CacheProtocol (C V : Type) : Type := {
  proto_get : C → string → float → C * option V;
  proto_set : C → string → option V → option Z → float → C * result bool;
  proto_delete : C → string → C * bool;
  proto_clear : C → C * bool;
  proto_exists : C → string → float → bool;
  proto_get_stats : C → CacheStats
}.

(** [ThreadSafeLRUCache] satisfies the protocol. *)
Global Instance lru_protocol {V : Type} : CacheProtocol (ThreadSafeLRUCache V) V := {
  proto_get := get;
  proto_set := set;
  proto_delete := delete;
  proto_clear := clear;
  proto_exists := exists_;
  proto_get_stats := get_stats
}.

Section multi_level.
Context {L1 L2 V : Type} `{CacheProtocol L1 V} `{CacheProtocol L2 V}.

(** [class MultiLevelCache]; a cache object is truthy, so [if self.l2_cache]
    asks whether there is a second level. *)
Record MultiLevelCache : Type := {
  l1_cache : L1;
  l2_cache : option L2;
  ml_stats : CacheStats
}.

(** [MultiLevelCache(l1_cache, l2_cache)]. *)
Definition new (l1_cache : L1) (l2_cache : option L2) : MultiLevelCache :=
  {| l1_cache := l1_cache;
     l2_cache := l2_cache;
     ml_stats := {| hits := 0; misses := 0; sets := 0; deletes := 0; size := 0;
                    stats_max_size := 0 |} |}.

(** [get(key)]; [now1], [now2] and [now3] are the clock readings of the
    calls [l1_cache.get], [l2_cache.get] and [l1_cache.set].  Each level is
    asked with [if value is not None], so a level that holds [None] under
    the key counts as a level that misses.  The call raises when the write
    to the first level does. *)
Definition get (self : MultiLevelCache) (key : string) (now1 now2 now3 : float)
  : MultiLevelCache * result (option V) :=
  let '(l1, value) := proto_get (l1_cache self) key now1 in
  if value is Some _ then
    ({| l1_cache := l1; l2_cache := l2_cache self;
        ml_stats := incr_hits (ml_stats self) |}, Ok value)
  else
    match l2_cache self with
    | Some l2 =>
        let '(l2, value) := proto_get l2 key now2 in
        if value is Some _ then
          match proto_set l1 key value None now3 with
          | (l1, Ok _) =>
              ({| l1_cache := l1; l2_cache := Some l2;
                  ml_stats := incr_hits (ml_stats self) |}, Ok value)
          | (l1, OverflowError) =>
              ({| l1_cache := l1; l2_cache := Some l2;
                  ml_stats := ml_stats self |}, OverflowError)
          end
        else
          ({| l1_cache := l1; l2_cache := Some l2;
              ml_stats := incr_misses (ml_stats self) |}, Ok None)
    | None =>
        ({| l1_cache := l1; l2_cache := None;
            ml_stats := incr_misses (ml_stats self) |}, Ok None)
    end.

(** [set(key, value, ttl)]; a level that raises ends the call. *)
Definition set (self : MultiLevelCache) (key : string) (value : option V)
    (ttl : option Z) (now1 now2 : float) : MultiLevelCache * result bool :=
  match proto_set (l1_cache self) key value ttl now1 with
  | (l1, OverflowError) =>
      ({| l1_cache := l1; l2_cache := l2_cache self; ml_stats := ml_stats self |},
       OverflowError)
  | (l1, Ok l1_success) =>
      match l2_cache self with
      | Some l2 =>
          match proto_set l2 key value ttl now2 with
          | (l2, OverflowError) =>
              ({| l1_cache := l1; l2_cache := Some l2; ml_stats := ml_stats self |},
               OverflowError)
          | (l2, Ok l2_success) =>
              ({| l1_cache := l1; l2_cache := Some l2;
                  ml_stats := incr_sets (ml_stats self) |},
               Ok (l1_success && l2_success))
          end
      | None =>
          ({| l1_cache := l1; l2_cache := None;
              ml_stats := incr_sets (ml_stats self) |},
           Ok (l1_success && true))
      end
  end.

(** [delete(key)]. *)
Definition delete (self : MultiLevelCache) (key : string) : MultiLevelCache * bool :=
  let '(l1, l1_success) := proto_delete (l1_cache self) key in
  let '(l2, l2_success) :=
    match l2_cache self with
    | Some l2 =>
        let '(l2, l2_success) := proto_delete l2 key in
        (Some l2, l2_success)
    | None => (None, true)
    end in
  ({| l1_cache := l1; l2_cache := l2;
      ml_stats := if l1_success || l2_success
                  then incr_deletes (ml_stats self) else ml_stats self |},
   l1_success || l2_success).

(** [clear()]. *)
Definition clear (self : MultiLevelCache) : MultiLevelCache * bool :=
  let '(l1, l1_success) := proto_clear (l1_cache self) in
  let '(l2, l2_success) :=
    match l2_cache self with
    | Some l2 =>
        let '(l2, l2_success) := proto_clear l2 in
        (Some l2, l2_success)
    | None => (None, true)
    end in
  ({| l1_cache := l1; l2_cache := l2; ml_stats := ml_stats self |},
   l1_success && l2_success).

(** [exists(key)]; the second level is asked only when the first says no. *)
Definition exists_ (self : MultiLevelCache) (key : string) (now1 now2 : float) : bool :=
  if proto_exists (l1_cache self) key now1 then true
  else
    match l2_cache self with
    | Some l2 => if proto_exists l2 key now2 then true else false
    | None => false
    end.
End multi_level.

Arguments MultiLevelCache : clear implicits.

End MultiLevel.

(** ** Sample inputs *)

Module Samples.

(** A calendar record with the given solar-term index, yuan shou and
    pillars; the other fields are those of 2025-01-15 08:00:00. *)
Definition make_cal (solar_term_index yuan_shou : Z)
    (year_gan year_zhi month_gan month_zhi day_gan day_zhi hour_gan hour_zhi : string)
  : Calendar.CalendarInfo :=
  {| Calendar.year := 2025; Calendar.month := 1; Calendar.day := 15;
     Calendar.hour := 8; Calendar.minute := 0; Calendar.second := 0;
     Calendar.timezone := "Asia/Shanghai";
     Calendar.solar_term := "小寒";
     Calendar.solar_term_index := solar_term_index;
     Calendar.year_gan := year_gan; Calendar.year_zhi := year_zhi;
     Calendar.month_gan := month_gan; Calendar.month_zhi := month_zhi;
     Calendar.day_gan := day_gan; Calendar.day_zhi := day_zhi;
     Calendar.hour_gan := hour_gan; Calendar.hour_zhi := hour_zhi;
     Calendar.shi_chen := "辰时";
     Calendar.is_early_zi := false; Calendar.is_late_zi := false;
     Calendar.jie_qi_day := 5;
     Calendar.yuan_shou := yuan_shou;
     Calendar.use_true_solar_time := false;
     Calendar.true_solar_time := None;
     Calendar.time_difference_minutes := 0.0%float;
     Calendar.standard_time_shi_chen := "辰时" |}.

(** The pillars that [from_datetime] gives 2025-01-15 08:00: yi-si year,
    ding-chou month, jia-shen day, wu-chen hour. *)
Definition cal_2025 (solar_term_index : Z) : Calendar.CalendarInfo :=
  make_cal solar_term_index 2 "乙" "巳" "丁" "丑" "甲" "申" "戊" "辰".

(** [SOLAR_TERMS] instantiated with the names in the order of the keys of
    [SOLAR_TERMS_LONGITUDE]. *)
Definition terms_by_longitude_table : list string :=
  PyDict.keys Astronomical.SOLAR_TERMS_LONGITUDE.

(** 2025-01-15 08:00:00 UTC, and the offset of Asia/Shanghai in minutes. *)
Definition utc_2025_01_15_0800 : Datetime.datetime :=
  Datetime.mk 2025 1 15 8 0 0 0 (Some 0).
Definition shanghai_offset : Z := 480.

(** A board with no palace, and a few plugins. *)
Definition empty_board : Palace.NinePalace :=
  {| Palace.ju_number := 1; Palace.is_yang := true; Palace.ju_name := "阳遁1局";
     Palace.palaces := []; Palace.calendar_info := None; Palace.mode := "turn" |}.

Definition plugin_a : Rules.RulePlugin :=
  {| Rules.name := Some "A"; Rules.class_name := "PluginA";
     Rules.apply := λ nine_palace cal,
       (Rules.Return ["a1"; "a2"], (nine_palace, cal)) |}.
Definition plugin_b : Rules.RulePlugin :=
  {| Rules.name := None; Rules.class_name := "PluginB";
     Rules.apply := λ nine_palace cal,
       (Rules.Return ["b1"], (nine_palace, cal)) |}.
Definition plugin_failing : Rules.RulePlugin :=
  {| Rules.name := Some "F"; Rules.class_name := "Failing";
     Rules.apply := λ nine_palace cal,
       (Rules.RaiseException "boom", (nine_palace, cal)) |}.
Definition plugin_a_again : Rules.RulePlugin :=
  {| Rules.name := Some "A"; Rules.class_name := "PluginA";
     Rules.apply := λ nine_palace cal,
       (Rules.Return ["again"], (nine_palace, cal)) |}.
Definition plugin_a_failing : Rules.RulePlugin :=
  {| Rules.name := Some "A"; Rules.class_name := "PluginA";
     Rules.apply := λ nine_palace cal,
       (Rules.RaiseException "boom", (nine_palace, cal)) |}.
Definition plugin_interrupted : Rules.RulePlugin :=
  {| Rules.name := Some "I"; Rules.class_name := "Interrupted";
     Rules.apply := λ nine_palace cal,
       (Rules.RaiseBaseException "KeyboardInterrupt", (nine_palace, cal)) |}.

(** A plugin whose [apply] runs [nine_palace["palaces"].clear()] and then
    raises. *)
Definition plugin_clearing : Rules.RulePlugin :=
  {| Rules.name := Some "C"; Rules.class_name := "Clearing";
     Rules.apply := λ nine_palace cal,
       (Rules.RaiseException "boom",
        ({| Palace.ju_number := Palace.ju_number nine_palace;
            Palace.is_yang := Palace.is_yang nine_palace;
            Palace.ju_name := Palace.ju_name nine_palace;
            Palace.palaces := [];
            Palace.calendar_info := Palace.calendar_info nine_palace;
            Palace.mode := Palace.mode nine_palace |}, cal)) |}.

(** A cache with room for two entries, holding one. *)
Definition cache_of_two : Cache.ThreadSafeLRUCache Z :=
  (Cache.set (Cache.new 2 None) "j" (Some 3) None 999.0%float).1.

(** The same cache, filled: "i" is the entry used last, "j" the one before. *)
Definition cache_full : Cache.ThreadSafeLRUCache Z :=
  (Cache.set cache_of_two "i" (Some 4) None 999.5%float).1.

(** A two-level cache: an empty LRU cache with a default expiry of an hour
    over [cache_of_two]; and a one-level cache. *)
Definition two_levels
  : MultiLevel.MultiLevelCache (Cache.ThreadSafeLRUCache Z) (Cache.ThreadSafeLRUCache Z) :=
  MultiLevel.new (Cache.new 1000 (Some 3600)) (Some cache_of_two).
Definition one_level
  : MultiLevel.MultiLevelCache (Cache.ThreadSafeLRUCache Z) (Cache.ThreadSafeLRUCache Z) :=
  MultiLevel.new (Cache.new 1000 (Some 3600)) None.

(** The names of the twelve double hours, a configuration with the true
    solar time off, a term oracle that answers 小寒 (index 22, since
    2025-01-05 10:33), and [from_datetime] with them. *)
Definition SHI_CHEN_names : list string :=
  ["子时"; "丑时"; "寅时"; "卯时"; "辰时"; "巳时";
   "午时"; "未时"; "申时"; "酉时"; "戌时"; "亥时"].
Definition config_astronomical : Calendar.Config :=
  {| Calendar.cfg_use_true_solar_time := false;
     Calendar.cfg_longitude := 120.0%float;
     Calendar.cfg_solar_term_algorithm := "astronomical" |}.
Definition xiao_han_2025 (dt : Datetime.datetime) : string * Z * Datetime.datetime :=
  ("小寒", 22, Datetime.mk 2025 1 5 10 33 0 0 None).
Definition from_datetime_sample (ts : Datetime.datetime) (tz : string)
  : option Calendar.CalendarInfo :=
  Calendar.from_datetime SHI_CHEN_names (λ _, Some 480) config_astronomical
    xiao_han_2025 (λ dt _, dt) ts tz.

(** The Yang chart 1 turn-plate with empty names, positions and trigrams. *)
Definition yang_1_board : option Palace.NinePalace :=
  Palace._calculate_turn_pan (λ _, "") (λ _, "") (λ _, "") 1 true.
Definition yang_1 : Palace.NinePalace := default empty_board yang_1_board.

End Samples.

(* ===================================================================== *)
(** * Part II: properties *)
(* ===================================================================== *)

(** ** Python floats *)

Module PyFloatFacts.
Import PyFloat.

(** On the ints of a machine word, [of_int] is the conversion of the
    kernel. *)
Lemma of_int_of_uint63 (n : Z) :
  0 <= n < 2 ^ 63 → of_int n = PrimFloat.of_uint63 (Uint63.of_Z n).
Proof.
  intros Hn. unfold of_int.
  rewrite <- (SF2Prim_Prim2SF (PrimFloat.of_uint63 (Uint63.of_Z n))).
  rewrite of_uint63_spec, Uint63.of_Z_spec.
  rewrite Z.mod_small; [done|]. exact Hn.
Qed.

Example of_int_exact :
  (of_int 0, of_int 60, of_int (-12), of_int 2451545, of_int (2 ^ 53))
  = (0.0, 60.0, (-12.0), 2451545.0, 9007199254740992.0)%float.
Proof. vm_compute. reflexivity. Qed.

(** Beyond 2^53 the conversion rounds to nearest, ties to even; it does not
    wrap at the machine word. *)
Example of_int_rounds :
  (of_int (2 ^ 53 + 1), of_int (2 ^ 53 + 3), of_int (2 ^ 63 + 60), of_int (- 2 ^ 63))
  = (9007199254740992.0, 9007199254740996.0,
     9223372036854775808.0, (-9223372036854775808.0))%float.
Proof. vm_compute. reflexivity. Qed.

(** The first int with no float is 2^1024 - 2^970, half way between the
    largest float and 2^1024. *)
Example int_too_large_threshold :
  (int_too_large (2 ^ 1024 - 2 ^ 970), int_too_large (2 ^ 1024 - 2 ^ 970 - 1),
   int_too_large (- (2 ^ 1024 - 2 ^ 970)), int_too_large (- (2 ^ 1024 - 2 ^ 970) + 1),
   add_int 1000.0 60, add_int 1000.0 (2 ^ 1024))
  = (true, false, true, false, Some 1060.0%float, None).
Proof. vm_compute. reflexivity. Qed.

End PyFloatFacts.

(** ** Python lists *)

Module PyListFacts.
Import PyList.

Lemma index_bounds {A} `{EqDecision A} (l : list A) (x : A) (i : Z) :
  index l x = Some i → 0 <= i < Z.of_nat (length l).
Proof.
  revert i. induction l as [|y r IH]; intros i; simpl; [done|].
  case_decide.
  - intros [= <-]. lia.
  - destruct (index r x) as [j|]; simpl; [|done].
    intros [= <-]. specialize (IH j eq_refl). lia.
Qed.

Lemma index_elem_of {A} `{EqDecision A} (l : list A) (x : A) :
  x ∈ l → is_Some (index l x).
Proof.
  induction 1 as [y r|y z r Hin IH]; simpl.
  - rewrite decide_True by done. eauto.
  - case_decide; [eauto|]. destruct IH as [j ->]. simpl. eauto.
Qed.

Lemma getitem_in_range {A} (l : list A) (i : Z) :
  0 <= i < Z.of_nat (length l) → is_Some (getitem l i).
Proof.
  intros Hi. unfold getitem. rewrite decide_True by done.
  apply lookup_lt_is_Some. lia.
Qed.

Lemma getitem_nonneg {A} (l : list A) (i : Z) :
  0 <= i → getitem l i = l !! Z.to_nat i.
Proof.
  intros Hi. unfold getitem. case_decide; [done|].
  rewrite decide_False by lia. symmetry. apply lookup_ge_None. lia.
Qed.

End PyListFacts.

(** ** Julian day and the seed of the solar-term search (astronomical.py) *)

Module AstronomicalFacts.
Import Datetime Astronomical.

(** C7, as the code has it.  [julian_day] drops the [tzinfo] of an aware
    datetime without converting: the result is that of the naive datetime
    with the same wall-clock fields, whatever the offset. *)
Theorem julian_day_ignores_offset (dt : datetime) :
  julian_day dt = julian_day (replace_tzinfo_none dt)
  ∧ ∀ off1 off2 : option Z,
      julian_day (mk (year dt) (month dt) (day dt) (hour dt) (minute dt)
                     (second dt) (microsecond dt) off1)
      = julian_day (mk (year dt) (month dt) (day dt) (hour dt) (minute dt)
                       (second dt) (microsecond dt) off2).
Proof.
  split.
  - unfold julian_day. by destruct (tzinfo dt).
  - intros [o1|] [o2|]; reflexivity.
Qed.

(** C7, the claim refuted.  For 08:00 UTC and the target zone UTC+8 the
    converted naive counterpart reads 16:00; [julian_day] of the aware
    value differs from [julian_day] of that counterpart ([==] is false),
    and equals [julian_day] of the value with its [tzinfo] simply dropped. *)
Lemma julian_day_not_converted :
  (replace_tzinfo_none
     <$> astimezone Samples.utc_2025_01_15_0800 0 Samples.shanghai_offset
   = Some (mk 2025 1 15 16 0 0 0 None))
  ∧ PrimFloat.eqb (julian_day Samples.utc_2025_01_15_0800)
                  (julian_day (mk 2025 1 15 16 0 0 0 None)) = false
  ∧ julian_day Samples.utc_2025_01_15_0800
    = julian_day (replace_tzinfo_none Samples.utc_2025_01_15_0800).
Proof. repeat split; vm_compute; reflexivity. Qed.

(** The seed of a term at an index 20..23: a day of November or December of
    the following year. *)
Lemma initial_dt_late_terms (SOLAR_TERMS : list string) (year : Z)
    (term_name : string) (term_index : Z) :
  is_Some (PyDict.lookup SOLAR_TERMS_LONGITUDE term_name) →
  PyList.index SOLAR_TERMS term_name = Some term_index →
  20 <= term_index <= 23 →
  0 <= year <= 9998 →
  ∃ initial_dt,
    find_solar_term_time_initial_dt SOLAR_TERMS year term_name = Some initial_dt
    ∧ Datetime.year initial_dt = year + 1
    ∧ Datetime.month initial_dt = (if decide (term_index <= 21) then 11 else 12)
    ∧ Datetime.day initial_dt
      = (if decide (term_index = 20) then 6
         else if decide (term_index = 21) then 21 else 28).
Proof.
  intros [lon Hlon] Hidx Hi Hy. unfold find_solar_term_time_initial_dt.
  rewrite Hlon, Hidx. cbn [mbind option_bind].
  rewrite bool_decide_true by lia.
  assert (Hc : term_index = 20 ∨ term_index = 21 ∨ term_index = 22 ∨ term_index = 23)
    by lia.
  destruct Hc as [->|[->|[->| ->]]];
    match goal with
    | |- context [Datetime.make ?y ?m ?d] =>
        let m' := eval vm_compute in m in
        let d' := eval vm_compute in d in
        change (Datetime.make y m d) with (Datetime.make y m' d')
    end;
    unfold Datetime.make;
    (rewrite decide_True;
     [eexists; split; [reflexivity|]; by repeat split|]);
    unfold valid, MINYEAR, MAXYEAR; cbn [Datetime.year month day hour minute second microsecond];
    (repeat split; try lia); vm_compute; congruence.
Qed.

(** C8, the code at a failing input.  For the year 2024 and the term at
    index 20 of the term list the seed is 2025-11-06 00:00:00: a day of
    November, not of January, of the following year. *)
Theorem initial_dt_index_20_is_november :
  PyList.index Samples.terms_by_longitude_table "大雪" = Some 20
  ∧ find_solar_term_time_initial_dt Samples.terms_by_longitude_table 2024 "大雪"
    = Some (mk 2025 11 6 0 0 0 0 None).
Proof. split; vm_compute; reflexivity. Qed.

End AstronomicalFacts.

(** ** The four pillars (ganzhi.py, qimen_calendar.py) *)

Module GanZhiFacts.
Import Symbols Datetime GanZhi.

(** Split on the values [lo], [lo+1], ... of a bounded integer, [n] of them,
    closing each case with [tac]. *)
Ltac cases_from i lo n tac :=
  lazymatch n with
  | O => exfalso; lia
  | S ?m =>
      destruct (decide (i = lo)) as [->|?];
      [tac
      |let lo' := eval vm_compute in (lo + 1) in cases_from i lo' m tac]
  end.

(** [TIAN_GAN[i]] is the stem whose index is [i mod 10], and [DI_ZHI[i]] the
    branch whose index is [i mod 12], also for the negative indices that
    Python accepts. *)
Lemma TIAN_GAN_getitem (i : Z) (gan : string) :
  PyList.getitem TIAN_GAN i = Some gan → PyList.index TIAN_GAN gan = Some (i mod 10).
Proof.
  unfold PyList.getitem. change (Z.of_nat (length TIAN_GAN)) with 10.
  case_decide as H1; [|case_decide as H2; [|done]].
  - cases_from i 0 10%nat ltac:(vm_compute; intros [= <-]; reflexivity).
  - cases_from i (-10) 10%nat ltac:(vm_compute; intros [= <-]; reflexivity).
Qed.

Lemma DI_ZHI_getitem (i : Z) (zhi : string) :
  PyList.getitem DI_ZHI i = Some zhi → PyList.index DI_ZHI zhi = Some (i mod 12).
Proof.
  unfold PyList.getitem. change (Z.of_nat (length DI_ZHI)) with 12.
  case_decide as H1; [|case_decide as H2; [|done]].
  - cases_from i 0 12%nat ltac:(vm_compute; intros [= <-]; reflexivity).
  - cases_from i (-12) 12%nat ltac:(vm_compute; intros [= <-]; reflexivity).
Qed.

Lemma TIAN_GAN_getitem_mod (a : Z) : is_Some (PyList.getitem TIAN_GAN (a mod 10)).
Proof.
  apply PyListFacts.getitem_in_range. change (Z.of_nat (length TIAN_GAN)) with 10.
  apply Z.mod_pos_bound. lia.
Qed.

Lemma DI_ZHI_getitem_mod (a : Z) : is_Some (PyList.getitem DI_ZHI (a mod 12)).
Proof.
  apply PyListFacts.getitem_in_range. change (Z.of_nat (length DI_ZHI)) with 12.
  apply Z.mod_pos_bound. lia.
Qed.

(** A stem at index [gi] and a branch at index [zi] read off the cycles are
    a pair of equal parity as soon as [gi] and [zi] are. *)
Lemma same_parity_getitem (gi zi : Z) (gan zhi : string) :
  PyList.getitem TIAN_GAN gi = Some gan →
  PyList.getitem DI_ZHI zi = Some zhi →
  gi mod 2 = zi mod 2 →
  same_parity gan zhi.
Proof.
  intros Hg%TIAN_GAN_getitem Hz%DI_ZHI_getitem Hpar.
  exists (gi mod 10), (zi mod 12). repeat split; [done..|].
  revert Hpar. Z.div_mod_to_equations. lia.
Qed.

Lemma year_month_gan_base_even (year_gan_index : Z) :
  PyDict.get YEAR_MONTH_GAN_TABLE year_gan_index 2 mod 2 = 0.
Proof.
  unfold PyDict.get, YEAR_MONTH_GAN_TABLE. simpl.
  repeat (case_decide; [reflexivity|]). reflexivity.
Qed.

Lemma day_hour_gan_base_even (day_gan_index : Z) :
  PyDict.get DAY_HOUR_GAN_TABLE day_gan_index 0 mod 2 = 0.
Proof.
  unfold PyDict.get, DAY_HOUR_GAN_TABLE. simpl.
  repeat (case_decide; [reflexivity|]). reflexivity.
Qed.

Lemma solar_term_to_zhi_range (solar_term : string) :
  0 <= PyDict.get SOLAR_TERM_TO_ZHI solar_term 2 < 12.
Proof.
  unfold PyDict.get, SOLAR_TERM_TO_ZHI. simpl.
  repeat (case_decide; [simpl; lia|]). simpl. lia.
Qed.

Lemma year_ganzhi_same_parity (year : Z) :
  ∃ gan zhi, calculate_year_ganzhi year = Some (gan, zhi) ∧ same_parity gan zhi.
Proof.
  unfold calculate_year_ganzhi. cbv zeta.
  destruct (TIAN_GAN_getitem_mod (year - 1984)) as [gan Hg].
  destruct (DI_ZHI_getitem_mod (year - 1984)) as [zhi Hz].
  rewrite Hg, Hz. cbn [mbind option_bind]. exists gan, zhi. split; [done|].
  apply (same_parity_getitem _ _ _ _ Hg Hz).
  Z.div_mod_to_equations. lia.
Qed.

Lemma year_gan_index (year : Z) (gan zhi : string) :
  calculate_year_ganzhi year = Some (gan, zhi) →
  ∃ i, PyList.index TIAN_GAN gan = Some i.
Proof.
  unfold calculate_year_ganzhi. cbv zeta.
  destruct (PyList.getitem TIAN_GAN ((year - 1984) mod 10)) as [g|] eqn:Hg; [|done].
  destruct (PyList.getitem DI_ZHI ((year - 1984) mod 12)) as [z|]; [|done].
  cbn [mbind option_bind]. intros [= <- <-].
  apply TIAN_GAN_getitem in Hg. eauto.
Qed.

Lemma day_ganzhi_same_parity (dt : datetime) :
  ∃ gan zhi, calculate_day_ganzhi dt = Some (gan, zhi) ∧ same_parity gan zhi.
Proof.
  unfold calculate_day_ganzhi. cbv zeta.
  set (dt' := if tzinfo dt is Some _ then replace_tzinfo_none dt else dt).
  set (d := toordinal dt' - ymd2ord 1900 1 1).
  destruct (TIAN_GAN_getitem_mod (0 + d)) as [gan Hg].
  destruct (DI_ZHI_getitem_mod (10 + d)) as [zhi Hz].
  rewrite Hg, Hz. cbn [mbind option_bind]. exists gan, zhi. split; [done|].
  apply (same_parity_getitem _ _ _ _ Hg Hz).
  Z.div_mod_to_equations. lia.
Qed.

(** The month pillar from a month-branch index in 0..11. *)
Lemma month_pillar_same_parity (year month_zhi_index : Z) :
  0 <= month_zhi_index < 12 →
  ∃ gan zhi,
    (month_zhi ← PyList.getitem DI_ZHI month_zhi_index;
     '(year_gan, _) ← calculate_year_ganzhi year;
     year_gan_index ← PyList.index TIAN_GAN year_gan;
     let base_month_gan_index := PyDict.get YEAR_MONTH_GAN_TABLE year_gan_index 2 in
     let month_gan_index := (base_month_gan_index + (month_zhi_index - 2)) mod 10 in
     month_gan ← PyList.getitem TIAN_GAN month_gan_index;
     Some (month_gan, month_zhi)) = Some (gan, zhi)
    ∧ same_parity gan zhi.
Proof.
  intros Hr.
  destruct (PyListFacts.getitem_in_range DI_ZHI month_zhi_index) as [zhi Hz]; [done|].
  destruct (year_ganzhi_same_parity year) as (yg & yz & Hy & _).
  destruct (year_gan_index _ _ _ Hy) as [ygi Hygi].
  rewrite Hz, Hy. cbn [mbind option_bind]. rewrite Hygi. cbn [mbind option_bind].
  cbv zeta.
  pose proof (year_month_gan_base_even ygi) as Heven.
  set (base := PyDict.get YEAR_MONTH_GAN_TABLE ygi 2) in *.
  destruct (TIAN_GAN_getitem_mod (base + (month_zhi_index - 2))) as [gan Hg].
  rewrite Hg. cbn [mbind option_bind]. exists gan, zhi. split; [done|].
  apply (same_parity_getitem _ _ _ _ Hg Hz).
  revert Heven. Z.div_mod_to_equations. lia.
Qed.

Lemma month_ganzhi_same_parity
    (get_current_solar_term : datetime → string * Z * datetime)
    (dt : datetime) (use_solar_terms : bool) :
  ∃ gan zhi,
    calculate_month_ganzhi get_current_solar_term dt use_solar_terms = Some (gan, zhi)
    ∧ same_parity gan zhi.
Proof.
  unfold calculate_month_ganzhi. cbv zeta.
  set (dt' := if tzinfo dt is Some _ then replace_tzinfo_none dt else dt).
  destruct use_solar_terms.
  - destruct (get_current_solar_term dt') as [[solar_term ?] ?].
    apply month_pillar_same_parity, solar_term_to_zhi_range.
  - apply month_pillar_same_parity, Z.mod_pos_bound. lia.
Qed.

End GanZhiFacts.

(** ** The calendar assembler (qimen_calendar.py) *)

Module CalendarFacts.
Import Symbols Datetime GanZhi Calendar.

Section assembler.
Variable SHI_CHEN : list string.
Variable pytz_timezone : string → option Z.
Variable config : Config.
Variable get_current_solar_term : datetime → string * Z * datetime.
Variable get_true_solar_time : datetime → float → datetime.

Local Abbreviation from_datetime :=
  (Calendar.from_datetime SHI_CHEN pytz_timezone config get_current_solar_term
     get_true_solar_time).

Lemma hour_pillar_same_parity (day_gan : string) (hour_zhi_index : Z)
    (hour_gan hour_zhi : string) (day_gan_index : Z) :
  PyList.getitem DI_ZHI hour_zhi_index = Some hour_zhi →
  PyList.getitem TIAN_GAN
    ((PyDict.get [(0, 0); (5, 0); (1, 2); (6, 2); (2, 4); (7, 4); (3, 6); (8, 6);
                  (4, 8); (9, 8)] day_gan_index 0 + hour_zhi_index) mod 10)
  = Some hour_gan →
  same_parity hour_gan hour_zhi.
Proof.
  intros Hz Hg. apply (GanZhiFacts.same_parity_getitem _ _ _ _ Hg Hz).
  pose proof (GanZhiFacts.day_hour_gan_base_even day_gan_index) as Heven.
  unfold DAY_HOUR_GAN_TABLE in Heven.
  revert Heven. Z.div_mod_to_equations. lia.
Qed.

Lemma from_datetime_pillars (ts : datetime) (tz : string) (cal : CalendarInfo) :
  from_datetime ts tz = Some cal →
  same_parity (year_gan cal) (year_zhi cal)
  ∧ same_parity (month_gan cal) (month_zhi cal)
  ∧ same_parity (day_gan cal) (day_zhi cal)
  ∧ same_parity (hour_gan cal) (hour_zhi cal).
Proof.
  unfold Calendar.from_datetime. cbv zeta.
  destruct (match tzinfo ts with Some _ => _ | None => _ end) as [dt|];
    [|by cbn [mbind option_bind]].
  cbn [mbind option_bind].
  destruct (if cfg_use_true_solar_time config then _ else _)
    as [[calc_dt true_solar_time_dt] time_diff_minutes].
  cbv beta iota.
  destruct (GanZhiFacts.year_ganzhi_same_parity (Datetime.year calc_dt))
    as (yg & yz & -> & Hy).
  destruct (GanZhiFacts.month_ganzhi_same_parity get_current_solar_term calc_dt true)
    as (mg & mz & -> & Hm).
  destruct (GanZhiFacts.day_ganzhi_same_parity calc_dt) as (dg & dz & -> & Hd).
  destruct (PyList.getitem DI_ZHI
              (if bool_decide (Datetime.hour dt ≠ 23) then _ else _))
    as [standard_zhi|];
    [|by cbn [mbind option_bind]].
  cbn [mbind option_bind]. cbv beta iota.
  destruct (PyList.getitem DI_ZHI _) as [hz|] eqn:Hhz;
    [|by cbn [mbind option_bind]].
  destruct (PyList.index TIAN_GAN dg) as [dgi|];
    [|by cbn [mbind option_bind]].
  cbn [mbind option_bind].
  destruct (PyList.getitem TIAN_GAN _) as [hg|] eqn:Hhg;
    [|by cbn [mbind option_bind]].
  destruct (get_shi_chen SHI_CHEN _) as [shi_chen|];
    [|by cbn [mbind option_bind]].
  cbn [mbind option_bind].
  destruct (if decide _ then _ else _) as [[[[st sti] jq] ys]|];
    [|by cbn [mbind option_bind]].
  cbn [mbind option_bind]. cbv beta iota. intros [= <-].
  cbn [year_gan year_zhi month_gan month_zhi day_gan day_zhi hour_gan hour_zhi].
  eauto using hour_pillar_same_parity.
Qed.

(** The clock fields and the date that [from_datetime] relies on are those
    of a well-formed [datetime]: with a twelve-entry [SHI_CHEN] and a
    true-solar-time correction that yields well-formed values, a naive
    timestamp always gets its record. *)
Lemma from_datetime_total (ts : datetime) (tz : string) :
  length SHI_CHEN = 12%nat →
  (∀ dt longitude, valid dt → valid (get_true_solar_time dt longitude)) →
  valid ts →
  tzinfo ts = None →
  is_Some (from_datetime ts tz).
Proof.
  intros Hlen Htst Hts Hnaive.
  unfold Calendar.from_datetime. cbv zeta. rewrite Hnaive.
  cbn [mbind option_bind].
  assert (Hcalc : ∃ calc_dt tsd diff,
             (if cfg_use_true_solar_time config
              then (get_true_solar_time ts (cfg_longitude config),
                    Some (get_true_solar_time ts (cfg_longitude config)),
                    (td_total_seconds
                       (sub ts (get_true_solar_time ts (cfg_longitude config)))
                     / 60)%float)
              else (ts, None, 0%float)) = (calc_dt, tsd, diff)
             ∧ valid calc_dt).
  { destruct (cfg_use_true_solar_time config); eauto 10. }
  destruct Hcalc as (calc_dt & tsd & diff & -> & Hcalc).
  cbv beta iota.
  assert (Hhour : ∀ dt, valid dt →
            0 <= (if bool_decide (Datetime.hour dt = 23) then 0
                  else (Datetime.hour dt + 1) / 2) < 12).
  { intros dt (_ & _ & _ & Hh & _). case_bool_decide; [lia|].
    split; [apply Z.div_pos; lia|apply Z.div_lt_upper_bound; lia]. }
  destruct (PyListFacts.getitem_in_range DI_ZHI
              (if bool_decide (Datetime.hour ts ≠ 23)
               then (Datetime.hour ts + 1) / 2 else 0)) as [standard_zhi ->].
  { specialize (Hhour ts Hts). change (Z.of_nat (length DI_ZHI)) with 12.
    repeat case_bool_decide; lia. }
  destruct (GanZhiFacts.year_ganzhi_same_parity (Datetime.year calc_dt))
    as (yg & yz & -> & Hy).
  destruct (GanZhiFacts.month_ganzhi_same_parity get_current_solar_term calc_dt true)
    as (mg & mz & -> & Hm).
  destruct (GanZhiFacts.day_ganzhi_same_parity calc_dt)
    as (dg & dz & -> & (dgi & dzi & Hdgi & _)).
  cbn [mbind option_bind]. cbv beta iota.
  destruct (PyListFacts.getitem_in_range DI_ZHI
              (if bool_decide (Datetime.hour calc_dt = 23) then 0
               else (Datetime.hour calc_dt + 1) / 2)) as [hz ->].
  { apply (Hhour calc_dt Hcalc). }
  rewrite Hdgi. cbn [mbind option_bind].
  destruct (GanZhiFacts.TIAN_GAN_getitem_mod
              (PyDict.get [(0, 0); (5, 0); (1, 2); (6, 2); (2, 4); (7, 4); (3, 6);
                           (8, 6); (4, 8); (9, 8)] dgi 0
               + (if bool_decide (Datetime.hour calc_dt = 23) then 0
                  else (Datetime.hour calc_dt + 1) / 2))) as [hg ->].
  destruct (PyListFacts.getitem_in_range SHI_CHEN
              (((Datetime.hour calc_dt + 1) / 2) mod 12)) as [shi_chen Hsc].
  { rewrite Hlen. apply Z.mod_pos_bound. lia. }
  unfold get_shi_chen. cbv zeta. rewrite Hsc. cbn [mbind option_bind].
  case_decide.
  - destruct (get_current_solar_term calc_dt) as [[st sti] stt].
    cbn [mbind option_bind]. eauto.
  - unfold get_solar_term, Datetime.make. cbv zeta.
    rewrite decide_True.
    + cbn [mbind option_bind].
      destruct (get_current_solar_term _) as [[st sti] stt].
      cbn [mbind option_bind]. eauto.
    + destruct Hcalc as (? & ? & ? & _). repeat split; simpl; lia.
Qed.

End assembler.

(** C6.  The year pillar of every year, the month pillar whatever the
    solar term in force, the day pillar of every date, and the four pillars
    of every record that [from_datetime] builds, are (stem, branch) pairs
    whose stem index and branch index have the same parity; and
    [from_datetime] does build a record for every well-formed naive
    timestamp. *)
Theorem pillars_same_parity :
  (∀ year : Z,
     ∃ gan zhi, calculate_year_ganzhi year = Some (gan, zhi) ∧ same_parity gan zhi)
  ∧ (∀ get_current_solar_term (dt : datetime) (use_solar_terms : bool),
       ∃ gan zhi,
         calculate_month_ganzhi get_current_solar_term dt use_solar_terms
         = Some (gan, zhi)
         ∧ same_parity gan zhi)
  ∧ (∀ dt : datetime,
       ∃ gan zhi, calculate_day_ganzhi dt = Some (gan, zhi) ∧ same_parity gan zhi)
  ∧ (∀ SHI_CHEN pytz_timezone config get_current_solar_term get_true_solar_time
       (ts : datetime) (tz : string),
       (∀ cal,
          Calendar.from_datetime SHI_CHEN pytz_timezone config
            get_current_solar_term get_true_solar_time ts tz = Some cal
          → same_parity (year_gan cal) (year_zhi cal)
            ∧ same_parity (month_gan cal) (month_zhi cal)
            ∧ same_parity (day_gan cal) (day_zhi cal)
            ∧ same_parity (hour_gan cal) (hour_zhi cal))
       ∧ (length SHI_CHEN = 12%nat
          → (∀ dt longitude, valid dt → valid (get_true_solar_time dt longitude))
          → valid ts
          → tzinfo ts = None
          → is_Some (Calendar.from_datetime SHI_CHEN pytz_timezone config
                       get_current_solar_term get_true_solar_time ts tz))).
Proof.
  split; [apply GanZhiFacts.year_ganzhi_same_parity|].
  split; [apply GanZhiFacts.month_ganzhi_same_parity|].
  split; [apply GanZhiFacts.day_ganzhi_same_parity|].
  intros. split; [apply from_datetime_pillars|apply from_datetime_total].
Qed.

(** The record of 2025-01-15 08:00:00 (naive), true solar time off, with a
    term oracle that answers index 22 since 2025-01-05 10:33. *)
Example from_datetime_2025 :
  (λ cal, (year_gan cal, year_zhi cal, month_gan cal, month_zhi cal,
           day_gan cal, day_zhi cal, hour_gan cal, hour_zhi cal,
           solar_term_index cal, yuan_shou cal))
    <$> Calendar.from_datetime
          ["子时"; "丑时"; "寅时"; "卯时"; "辰时"; "巳时";
           "午时"; "未时"; "申时"; "酉时"; "戌时"; "亥时"]
          (λ _, Some 480)
          {| cfg_use_true_solar_time := false; cfg_longitude := 120.0%float;
             cfg_solar_term_algorithm := "astronomical" |}
          (λ _, ("小寒", 22, Datetime.mk 2025 1 5 10 33 0 0 None))
          (λ dt _, dt)
          (Datetime.mk 2025 1 15 8 0 0 0 None) "Asia/Shanghai"
  = Some ("乙", "巳", "丁", "丑", "甲", "申", "戊", "辰", 22, 2).
Proof. vm_compute. reflexivity. Qed.

End CalendarFacts.

(** ** The chart number (ju.py) *)

Module JuFacts.
Import Symbols Calendar Ju.

Lemma mod9_range (a : Z) : 0 <= a mod 9 <= 8.
Proof. pose proof (Z.mod_pos_bound a 9). lia. Qed.

Lemma shi_chen_number_range (hour_zhi : string) :
  1 <= get_shi_chen_number hour_zhi <= 12.
Proof.
  unfold get_shi_chen_number, PyDict.get, shi_chen_nums. simpl.
  repeat (case_decide; [simpl; lia|]). simpl. lia.
Qed.

(** C4.  On the solar-term indices 0..23, [is_yang_dune] answers Yang
    exactly at index 23 and at the indices up to 11; so index 23 (the
    winter solstice of the spec) is Yang and index 12, the one after the
    summer solstice index 11, is Yin. *)
Theorem is_yang_dune_spec (cal : CalendarInfo) :
  0 <= solar_term_index cal <= 23 →
  (is_yang_dune cal = true ↔ solar_term_index cal = 23 ∨ solar_term_index cal <= 11)
  ∧ (solar_term_index cal = 23 → is_yang_dune cal = true)
  ∧ (solar_term_index cal = 12 → is_yang_dune cal = false).
Proof.
  intros Hrange. unfold is_yang_dune.
  case_bool_decide as Hd; (split; [split|split]); intros; try done; lia.
Qed.

Lemma is_yang_dune_spec_witness :
  (is_yang_dune (Samples.cal_2025 23) = true
   ↔ solar_term_index (Samples.cal_2025 23) = 23
     ∨ solar_term_index (Samples.cal_2025 23) <= 11)
  ∧ (solar_term_index (Samples.cal_2025 23) = 23
     → is_yang_dune (Samples.cal_2025 23) = true)
  ∧ (solar_term_index (Samples.cal_2025 23) = 12
     → is_yang_dune (Samples.cal_2025 23) = false).
Proof. apply (is_yang_dune_spec (Samples.cal_2025 23)). simpl. lia. Defined.

(** C2.  When the day stem, day branch and hour branch of the record are
    members of the stem and branch cycles (at indices [dg], [dz], [hz]),
    [get_ju_huopan] returns the number
    ((solar_term_index*2 + dg + dz + hz) mod 18) mod 9 + 1, which lies in
    1..9 and is what both the Yang and the Yin branch of
    [calculate_ju_index_huopan] lead to, paired with [is_yang_dune cal]. *)
Theorem get_ju_huopan_spec (cal : CalendarInfo) (dg dz hz : Z) :
  PyList.index TIAN_GAN (day_gan cal) = Some dg →
  PyList.index DI_ZHI (day_zhi cal) = Some dz →
  PyList.index DI_ZHI (hour_zhi cal) = Some hz →
  let n := ((solar_term_index cal * 2 + dg + dz + hz) mod 18) mod 9 + 1 in
  get_ju_huopan cal = Some (n, is_yang_dune cal)
  ∧ 1 <= n <= 9
  ∧ ∀ is_yang : bool,
      (λ ju_index, ju_index mod 9 + 1) <$> calculate_ju_index_huopan cal is_yang
      = Some n.
Proof.
  intros Hdg Hdz Hhz n.
  assert (Hboth : ∀ is_yang : bool,
             (λ ju_index, ju_index mod 9 + 1) <$> calculate_ju_index_huopan cal is_yang
             = Some n).
  { intros b. unfold calculate_ju_index_huopan.
    rewrite Hdg, Hdz, Hhz. simpl. f_equal. subst n.
    destruct b; [by rewrite Z.mod_mod by lia|].
    set (r := (solar_term_index cal * 2 + dg + dz + hz) mod 18).
    replace (9 + r mod 9) with (r mod 9 + 1 * 9) by lia.
    by rewrite Z.mod_add, Z.mod_mod by lia. }
  split; [|split; [|exact Hboth]].
  - unfold get_ju_huopan. specialize (Hboth (is_yang_dune cal)).
    destruct (calculate_ju_index_huopan cal (is_yang_dune cal)) as [i|];
      simpl in *; [|done].
    by injection Hboth as ->.
  - subst n. pose proof (mod9_range ((solar_term_index cal * 2 + dg + dz + hz) mod 18)).
    lia.
Qed.

Lemma get_ju_huopan_spec_witness :
  let cal := Samples.cal_2025 22 in
  let n := ((solar_term_index cal * 2 + 0 + 8 + 4) mod 18) mod 9 + 1 in
  get_ju_huopan cal = Some (n, is_yang_dune cal)
  ∧ 1 <= n <= 9
  ∧ ∀ is_yang : bool,
      (λ ju_index, ju_index mod 9 + 1) <$> calculate_ju_index_huopan cal is_yang
      = Some n.
Proof.
  apply (get_ju_huopan_spec (Samples.cal_2025 22) 0 8 4); vm_compute; reflexivity.
Defined.

(** C3.  [get_ju_chabu] returns (yuan_shou + n - 1) mod 9 under Yang and
    (yuan_shou - n + 1) mod 9 under Yin, a result 0 replaced by 9, where n
    is the hour-branch number; the twelve branches zi..hai have the numbers
    1..12, and the returned number lies in 1..9.  The polarity is that of
    [is_yang_dune]. *)
Theorem get_ju_chabu_spec (cal : CalendarInfo) :
  let n := get_shi_chen_number (hour_zhi cal) in
  let base :=
    if is_yang_dune cal
    then (yuan_shou cal + n - 1) mod 9
    else (yuan_shou cal - n + 1) mod 9 in
  get_ju_chabu cal = (if decide (base = 0) then 9 else base, is_yang_dune cal)
  ∧ 1 <= (get_ju_chabu cal).1 <= 9
  ∧ get_shi_chen_number <$> DI_ZHI = [1; 2; 3; 4; 5; 6; 7; 8; 9; 10; 11; 12].
Proof.
  intros n base. split; [reflexivity|]. split; [|vm_compute; reflexivity].
  unfold get_ju_chabu, calculate_ju_number_chabu. simpl. fold n.
  destruct (is_yang_dune cal); case_decide as Hz;
    try lia;
    [pose proof (mod9_range (yuan_shou cal + n - 1))
    |pose proof (mod9_range (yuan_shou cal - n + 1))]; lia.
Qed.

Example get_ju_chabu_2025 : get_ju_chabu (Samples.cal_2025 22) = (7, false).
Proof. vm_compute. reflexivity. Qed.

Example get_ju_huopan_2025 : get_ju_huopan (Samples.cal_2025 22) = Some (3, false).
Proof. vm_compute. reflexivity. Qed.

End JuFacts.

(** ** The nine-palace board (palace.py) *)

Module PalaceFacts.
Import Symbols Palace.

Lemma for_each_ext {A S : Type} (l : list A) (f g : S → A → option S) (s : S) :
  (∀ s' x, x ∈ l → f s' x = g s' x) → for_each l f s = for_each l g s.
Proof.
  revert s. induction l as [|x r IH]; intros s Hfg; simpl; [done|].
  rewrite (Hfg s x) by left.
  destruct (g s x) as [s'|]; simpl; [|done].
  apply IH. intros s'' y Hy. apply Hfg. by right.
Qed.

Lemma offset_residue (offset : Z) :
  ∃ k, 0 <= k < 9
       ∧ ∀ gong_num, (gong_num - 1 + offset) mod 9 = (gong_num - 1 + k) mod 9.
Proof.
  exists (offset mod 9). split.
  - apply Z.mod_pos_bound. lia.
  - intros g. by rewrite Z.add_mod_idemp_r by lia.
Qed.

Lemma fly_start_gong_range (year_gan month_zhi day_gan hour_zhi : Z) :
  1 <= _calculate_fly_start_gong year_gan month_zhi day_gan hour_zhi < 10.
Proof.
  unfold _calculate_fly_start_gong.
  pose proof (Z.mod_pos_bound (year_gan + month_zhi + day_gan + hour_zhi) 9 ltac:(lia)).
  case_bool_decide; lia.
Qed.

(** Split on the nine values of a bounded rotation. *)
Ltac nine_cases k lo :=
  let H := fresh "Hcase" in
  assert (H : k = lo ∨ k = lo + 1 ∨ k = lo + 2 ∨ k = lo + 3 ∨ k = lo + 4
              ∨ k = lo + 5 ∨ k = lo + 6 ∨ k = lo + 7 ∨ k = lo + 8) by lia;
  simpl in H;
  destruct H as [->|[->|[->|[->|[->|[->|[->|[->| ->]]]]]]]].

(** Evaluate the loop of a builder once its rotation is a numeral. *)
Ltac run_loop :=
  match goal with
  | |- context [for_each ?l ?f ?s] =>
      let v := eval vm_compute in (for_each l f s) in
      replace (for_each l f s) with v by (vm_compute; reflexivity)
  end.

Ltac solve_assigns :=
  unfold assigns_each_value_once; simpl;
  repeat split;
  first [ reflexivity
        | apply (bool_decide_unpack _); vm_compute; reflexivity ].

Section tables.
Variables JIU_GONG GONG_POSITION BAGUA_GONG : Z → string.

Lemma turn_pan_assigns (ju_number : Z) (is_yang : bool) :
  ∃ nine_palace,
    _calculate_turn_pan JIU_GONG GONG_POSITION BAGUA_GONG ju_number is_yang
    = Some nine_palace
    ∧ assigns_each_value_once nine_palace.
Proof.
  unfold _calculate_turn_pan.
  destruct is_yang; cbv zeta iota beta;
    [destruct (offset_residue (ju_number - 1)) as (k & Hk & Hmod)
    |destruct (offset_residue (9 - ju_number)) as (k & Hk & Hmod)];
    (erewrite for_each_ext;
     [|intros s' x _; rewrite (Hmod x); reflexivity]);
    clear Hmod; nine_cases k 0;
    run_loop; simpl; eexists; (split; [reflexivity|]); solve_assigns.
Qed.

Lemma fly_pan_total (cal : Calendar.CalendarInfo) :
  fly_pillars_in_cycles cal →
  is_Some (fly_pan JIU_GONG GONG_POSITION BAGUA_GONG cal).
Proof.
  intros (Hyg & Hmz & Hdg & Hhz). unfold fly_pan.
  destruct (PyListFacts.index_elem_of _ _ Hyg) as [yg ->].
  destruct (PyListFacts.index_elem_of _ _ Hmz) as [mz ->].
  destruct (PyListFacts.index_elem_of _ _ Hdg) as [dg ->].
  destruct (PyListFacts.index_elem_of _ _ Hhz) as [hz ->].
  cbv zeta. cbn [mbind option_bind].
  pose proof (fly_start_gong_range yg mz dg hz) as Hs.
  set (start_gong := _calculate_fly_start_gong yg mz dg hz) in *.
  clearbody start_gong. nine_cases start_gong 1; run_loop; simpl; eauto.
Qed.

Lemma fly_pan_inv (cal : Calendar.CalendarInfo) (nine_palace : NinePalace) :
  fly_pan JIU_GONG GONG_POSITION BAGUA_GONG cal = Some nine_palace →
  ju_number nine_palace = 0
  ∧ is_yang nine_palace = true
  ∧ assigns_each_value_once nine_palace.
Proof.
  unfold fly_pan.
  destruct (PyList.index TIAN_GAN (Calendar.year_gan cal)) as [yg|]; [|done].
  destruct (PyList.index DI_ZHI (Calendar.month_zhi cal)) as [mz|]; [|done].
  destruct (PyList.index TIAN_GAN (Calendar.day_gan cal)) as [dg|]; [|done].
  destruct (PyList.index DI_ZHI (Calendar.hour_zhi cal)) as [hz|]; [|done].
  cbv zeta. cbn [mbind option_bind].
  pose proof (fly_start_gong_range yg mz dg hz) as Hs.
  set (start_gong := _calculate_fly_start_gong yg mz dg hz) in *.
  clearbody start_gong.
  nine_cases start_gong 1; run_loop; simpl; intros [= <-];
    (split; [reflexivity|]); (split; [reflexivity|]); solve_assigns.
Qed.

(** C5.  The computed-rotation turn-plate builder, for every chart number
    (1..9 and beyond) and both polarities, and the fly-plate builder, for
    every calendar record it accepts (those whose pillars are in the stem
    and branch cycles), return a board in which the nine values of each base
    sequence (stems, gates, stars, deities) are spread over the nine palaces
    as a permutation: no value twice, none left out. *)
Theorem builders_assign_each_value_once :
  (∀ (ju_number : Z) (is_yang : bool),
     ∃ nine_palace,
       _calculate_turn_pan JIU_GONG GONG_POSITION BAGUA_GONG ju_number is_yang
       = Some nine_palace
       ∧ assigns_each_value_once nine_palace)
  ∧ (∀ cal : Calendar.CalendarInfo,
       (fly_pillars_in_cycles cal
        → is_Some (fly_pan JIU_GONG GONG_POSITION BAGUA_GONG cal))
       ∧ ∀ nine_palace,
           fly_pan JIU_GONG GONG_POSITION BAGUA_GONG cal = Some nine_palace
           → assigns_each_value_once nine_palace).
Proof.
  split; [apply turn_pan_assigns|].
  intros cal. split; [apply fly_pan_total|].
  intros b Hb. by apply fly_pan_inv in Hb as (_ & _ & ?).
Qed.

(** C10.  Whatever the calendar record (solar term, half-year, any other
    field), the board that [fly_pan] returns has [ju_number] 0 and
    [is_yang] True; and [fly_pan] does return a board for every record whose
    pillars are in the stem and branch cycles. *)
Theorem fly_pan_ju_number_is_yang (cal : Calendar.CalendarInfo) :
  (fly_pillars_in_cycles cal
   → ∃ nine_palace, fly_pan JIU_GONG GONG_POSITION BAGUA_GONG cal = Some nine_palace)
  ∧ ∀ nine_palace,
      fly_pan JIU_GONG GONG_POSITION BAGUA_GONG cal = Some nine_palace
      → ju_number nine_palace = 0 ∧ is_yang nine_palace = true.
Proof.
  split; [apply fly_pan_total|].
  intros b Hb. by apply fly_pan_inv in Hb as (? & ? & _).
Qed.

End tables.

Example turn_pan_yin_3_palace_1 :
  (λ b, PyDict.lookup (palaces b) "1")
    <$> _calculate_turn_pan (λ _, "") (λ _, "") (λ _, "") 3 false
  = Some (Some {| gong_num := 1; gong_name := ""; position := ""; bagua := "";
                  gan := "庚"; men := "伤门"; xing := "天冲"; shen := "太阴";
                  wu_xing := "水" |}).
Proof. vm_compute. reflexivity. Qed.

Example fly_pan_2025_palace_1 :
  (λ b, PyDict.lookup (palaces b) "1")
    <$> fly_pan (λ _, "") (λ _, "") (λ _, "") (Samples.cal_2025 22)
  = Some (Some {| gong_num := 1; gong_name := ""; position := ""; bagua := "";
                  gan := "癸"; men := "开门"; xing := "天心"; shen := "玄武";
                  wu_xing := "水" |}).
Proof. vm_compute. reflexivity. Qed.

End PalaceFacts.

(** ** Insertion-ordered dicts *)

Module PyDictFacts.
Import PyDict.

Section facts.
Context {K V : Type} `{EqDecision K}.
Implicit Types (d : dict K V) (k : K) (v : V).

Lemma lookup_set_eq d k v : lookup (set d k v) k = Some v.
Proof.
  induction d as [|[k' v'] r IH]; simpl.
  - by rewrite decide_True.
  - case_decide as Hk; simpl.
    + by rewrite decide_True.
    + by rewrite decide_False.
Qed.

Lemma lookup_set_ne d k k' v : k ≠ k' → lookup (set d k v) k' = lookup d k'.
Proof.
  intros Hne. induction d as [|[k0 v0] r IH]; simpl.
  - by rewrite decide_False.
  - case_decide as Hk; simpl.
    + subst k0. by rewrite !decide_False.
    + case_decide; [done|apply IH].
Qed.

Lemma keys_set_fresh d k v : k ∉ keys d → keys (set d k v) = keys d ++ [k].
Proof.
  unfold keys. induction d as [|[k' v'] r IH]; simpl; [done|].
  intros Hnotin. apply not_elem_of_cons in Hnotin as [Hne Hr].
  rewrite decide_False by done. simpl. f_equal. by apply IH.
Qed.

Lemma keys_set_present d k v : k ∈ keys d → keys (set d k v) = keys d.
Proof.
  unfold keys. induction d as [|[k' v'] r IH]; simpl.
  - by intros ?%elem_of_nil.
  - intros Hin. case_decide as Hk; simpl; [done|].
    f_equal. apply IH. apply elem_of_cons in Hin as [?|?]; [done|done].
Qed.

Lemma lookup_None_keys d k : lookup d k = None ↔ k ∉ keys d.
Proof.
  unfold keys. induction d as [|[k' v'] r IH]; simpl.
  - split; [intros _; apply not_elem_of_nil|done].
  - rewrite not_elem_of_cons. case_decide; [|tauto]. split; [done|tauto].
Qed.

End facts.

End PyDictFacts.

(** ** The rule engine (rules.py) *)

Module RulesFacts.
Import Rules.

Implicit Types (p : RulePlugin) (ps : list RulePlugin).
Implicit Types (b : Palace.NinePalace) (c : Calendar.CalendarInfo).

Lemma arguments_after_app ps ps' b c :
  arguments_after (ps ++ ps') b c
  = arguments_after ps' (arguments_after ps b c).1 (arguments_after ps b c).2.
Proof.
  unfold arguments_after. rewrite fold_left_app.
  by destruct (fold_left _ ps (b, c)).
Qed.

Lemma arguments_after_cons p ps b c :
  arguments_after (p :: ps) b c
  = arguments_after ps (apply p b c).2.1 (apply p b c).2.2.
Proof. unfold arguments_after. simpl. by destruct (apply p b c).2. Qed.

(** The calls of a run, cut where a list of plugins is. *)
Lemma calls_app ps ps' b c :
  calls (ps ++ ps') b c
  = calls ps b c
    ++ calls ps' (arguments_after ps b c).1 (arguments_after ps b c).2.
Proof.
  revert b c. induction ps as [|p ps IH]; intros b c; [done|].
  cbn [calls app]. f_equal. rewrite IH. by rewrite arguments_after_cons.
Qed.

Lemma calls_plugins ps b c : (calls ps b c).*1 = ps.
Proof.
  revert b c. induction ps as [|p ps IH]; intros b c; [done|].
  cbn [calls fmap list_fmap]. simpl. f_equal. apply IH.
Qed.

Lemma elem_of_calls ps p b c :
  p ∈ ps → ∃ b' c', (p, (b', c')) ∈ calls ps b c.
Proof.
  rewrite <- (calls_plugins ps b c) at 1.
  intros ([q [b' c']] & -> & Hin)%list_elem_of_fmap. eauto.
Qed.

Lemma calls_elem_of ps p b c b' c' :
  (p, (b', c')) ∈ calls ps b c → p ∈ ps.
Proof.
  intros Hin. rewrite <- (calls_plugins ps b c).
  apply list_elem_of_fmap. by exists (p, (b', c')).
Qed.

(** A plugin that writes neither argument does not show in the calls that
    follow it. *)
Lemma calls_without before failing after b c :
  leaves_arguments (arguments_after before b c).1 (arguments_after before b c).2
    failing →
  calls (before ++ failing :: after) b c
  = calls before b c
    ++ (failing, arguments_after before b c)
    :: calls after (arguments_after before b c).1 (arguments_after before b c).2
  ∧ calls (before ++ after) b c
    = calls before b c
      ++ calls after (arguments_after before b c).1 (arguments_after before b c).2.
Proof.
  unfold leaves_arguments. intros Hsame. rewrite !calls_app. cbn [calls].
  rewrite Hsame. by destruct (arguments_after before b c).
Qed.

(** One turn of the loop. *)
Lemma apply_one_step p b c (results : PyDict.dict string (list string)) :
  raises_only_exceptions b c p →
  apply_one ((b, c), results) p
  = Some ((apply p b c).2, PyDict.set results (plugin_name p) (entry b c p)).
Proof.
  unfold apply_one, entry, raises_only_exceptions.
  by destruct (apply p b c) as [[messages|str_e|str_e] shared].
Qed.

Lemma for_each_apply_one ps b c (results0 : PyDict.dict string (list string)) :
  NoDup (PyDict.keys results0 ++ (plugin_name <$> ps)) →
  (∀ p b' c', (p, (b', c')) ∈ calls ps b c → raises_only_exceptions b' c' p) →
  ∃ results,
    Palace.for_each ps apply_one ((b, c), results0)
    = Some (arguments_after ps b c, results)
    ∧ PyDict.keys results = PyDict.keys results0 ++ (plugin_name <$> ps)
    ∧ (∀ k, k ∉ plugin_name <$> ps → PyDict.lookup results k = PyDict.lookup results0 k)
    ∧ (∀ p b' c', (p, (b', c')) ∈ calls ps b c →
         PyDict.lookup results (plugin_name p) = Some (entry b' c' p)).
Proof.
  revert b c results0. induction ps as [|p ps IH]; intros b c results0 Hnd Hexc.
  - exists results0. simpl. rewrite app_nil_r.
    split; [done|]. split; [done|]. split; [done|].
    by intros p b' c' ?%elem_of_nil.
  - simpl in Hnd.
    assert (Hfresh : plugin_name p ∉ PyDict.keys results0).
    { apply NoDup_app in Hnd as (_ & Hdisj & _).
      intros Hin. apply (Hdisj _ Hin). left. }
    assert (Hp : plugin_name p ∉ plugin_name <$> ps).
    { apply NoDup_app in Hnd as (_ & _ & Hnd). by apply NoDup_cons in Hnd as [? _]. }
    assert (Hstep : apply_one ((b, c), results0) p
                    = Some ((apply p b c).2,
                            PyDict.set results0 (plugin_name p) (entry b c p))).
    { apply apply_one_step, Hexc. cbn [calls]. left. }
    destruct (IH (apply p b c).2.1 (apply p b c).2.2
                (PyDict.set results0 (plugin_name p) (entry b c p)))
      as (results & Hrun & Hkeys & Hother & Hentries).
    { rewrite PyDictFacts.keys_set_fresh by done.
      by rewrite <- app_assoc. }
    { intros q b' c' Hq. apply Hexc. cbn [calls]. by right. }
    exists results. cbn [Palace.for_each]. rewrite Hstep. cbn [mbind option_bind].
    rewrite arguments_after_cons.
    split; [by destruct (apply p b c).2|]. split; [|split].
    + rewrite Hkeys, PyDictFacts.keys_set_fresh by done. by rewrite <- app_assoc.
    + intros k Hk. apply not_elem_of_cons in Hk as [Hne Hk].
      rewrite Hother by done. by apply PyDictFacts.lookup_set_ne.
    + intros q b' c' Hq. cbn [calls] in Hq.
      apply elem_of_cons in Hq as [[= -> -> ->]|Hq]; [|by apply Hentries].
      rewrite Hother by done. apply PyDictFacts.lookup_set_eq.
Qed.

Lemma apply_all_entries ps b c :
  NoDup (plugin_name <$> ps) →
  (∀ p b' c', (p, (b', c')) ∈ calls ps b c → raises_only_exceptions b' c' p) →
  ∃ results,
    apply_all {| plugins := ps |} b c = Some results
    ∧ PyDict.keys results = plugin_name <$> ps
    ∧ (∀ p b' c', (p, (b', c')) ∈ calls ps b c →
         PyDict.lookup results (plugin_name p) = Some (entry b' c' p)).
Proof.
  intros Hnd Hexc.
  destruct (for_each_apply_one ps b c [] Hnd Hexc)
    as (results & Hrun & Hkeys & _ & Hent).
  exists results. split; [|done].
  exact (f_equal (fmap snd) Hrun).
Qed.

Section engine.
Variable nine_palace : Palace.NinePalace.
Variable cal : Calendar.CalendarInfo.


End engine.


Example apply_all_three :
  apply_all
    {| plugins := [Samples.plugin_a; Samples.plugin_failing; Samples.plugin_b] |}
    Samples.empty_board (Samples.cal_2025 22)
  = Some [("A", ["a1"; "a2"]);
          ("F", [("插件执行错误: " ++ "boom")%string]);
          ("PluginB", ["b1"])].
Proof. reflexivity. Qed.


End RulesFacts.

(** ** The LRU cache (cache.py) *)

Module CacheFacts.
Import Cache.

Section cache.
Context {V : Type}.
Implicit Types (c : ThreadSafeLRUCache V) (k : string) (v : option V).

(** The linked list and the dict hold the same nodes, each once. *)
Definition linked c : Prop :=
  NoDup (_order c) ∧ ∀ k, k ∈ _order c ↔ is_Some (_cache c !! k).

Lemma linked_new (max_size : Z) (default_ttl : option Z) :
  linked (new (V := V) max_size default_ttl).
Proof.
  split; [constructor|]. intros k. simpl. rewrite lookup_empty.
  split; [by intros ?%elem_of_nil|by intros [? ?]].
Qed.

Lemma order_remove_spec (o : list string) k k' :
  k' ∈ List.filter (λ x, bool_decide (x ≠ k)) o ↔ k' ∈ o ∧ k' ≠ k.
Proof.
  rewrite !list_elem_of_In, filter_In, bool_decide_eq_true. tauto.
Qed.

Lemma order_remove_NoDup (o : list string) k :
  NoDup o → NoDup (List.filter (λ x, bool_decide (x ≠ k)) o).
Proof.
  rewrite !NoDup_ListNoDup. apply List.NoDup_filter.
Qed.

(** Unlinking a node and dropping its key keeps the two in step. *)
Lemma linked_remove c k :
  linked c →
  linked (with_cache (_remove_node c k) (base.delete k (_cache c))).
Proof.
  intros [Hnd Hdom]. split; simpl.
  - by apply order_remove_NoDup.
  - intros k'. rewrite order_remove_spec, Hdom.
    destruct (decide (k' = k)) as [->|Hne].
    + rewrite lookup_delete_eq. split; [tauto|by intros [? ?]].
    + rewrite lookup_delete_ne by done. tauto.
Qed.

(** Linking a node at the head under a key of the dict keeps them in step. *)
Lemma linked_move_to_head c k (node : LRUCacheNode V) :
  linked c →
  linked (_move_to_head (with_cache c (<[k := node]> (_cache c))) k).
Proof.
  intros [Hnd Hdom]. split; simpl.
  - apply NoDup_cons. split; [|by apply order_remove_NoDup].
    rewrite order_remove_spec. tauto.
  - intros k'. rewrite elem_of_cons, order_remove_spec, Hdom.
    destruct (decide (k' = k)) as [->|Hne].
    + rewrite lookup_insert_eq. split; [eauto|tauto].
    + rewrite lookup_insert_ne by done. tauto.
Qed.

Lemma linked_with_stats c (f : CacheStats → CacheStats) :
  linked c → linked (with_stats c f).
Proof. done. Qed.

Lemma delete_linked c k : linked c → linked (delete c k).1.
Proof.
  intros Hc. unfold delete. destruct (_cache c !! k); [|done]. simpl.
  apply (linked_remove c k Hc).
Qed.

Lemma get_linked c k (now : float) : linked c → linked (get c k now).1.
Proof.
  intros Hc. unfold get. destruct (_cache c !! k) as [node|] eqn:Hk; [|done].
  destruct (_is_expired node now); simpl.
  - apply linked_with_stats, delete_linked, Hc.
  - apply linked_with_stats.
    replace c with (with_cache c (<[k := node]> (_cache c))) at 1.
    + by apply linked_move_to_head.
    + destruct c; unfold with_cache; simpl in *. f_equal. by apply insert_id.
Qed.

Lemma clear_linked c : linked (clear c).1.
Proof.
  split; simpl; [constructor|]. intros k. rewrite lookup_empty.
  split; [by intros ?%elem_of_nil|by intros [? ?]].
Qed.

Lemma set_linked c k v (ttl : option Z) (now : float) :
  linked c → linked (set c k v ttl now).1.
Proof.
  intros Hc. unfold set. cbv zeta.
  destruct (set_expire_time c ttl now) as [e|]; [|done].
  destruct (_cache c !! k) as [node|] eqn:Hk; simpl.
  - apply (linked_move_to_head c k _ Hc).
  - set (new_node := {| key := k; value := v; expire_time := e |}).
    assert (Hadd : linked (_add_node (with_cache c (<[k := new_node]> (_cache c))) k)).
    { destruct Hc as [Hnd Hdom]. split; simpl.
      - apply NoDup_cons. split; [|done]. rewrite Hdom, Hk. by intros [? ?].
      - intros k'. rewrite elem_of_cons, Hdom.
        destruct (decide (k' = k)) as [->|Hne].
        + rewrite lookup_insert_eq. split; [eauto|tauto].
        + rewrite lookup_insert_ne by done. tauto. }
    case_bool_decide; [|exact Hadd].
    unfold _pop_tail.
    destruct (last _) as [tail|]; [|exact Hadd].
    apply linked_with_stats.
    apply (linked_remove _ tail Hadd).
Qed.

(** Every cache state that the methods produce from a new cache is linked. *)
Lemma reachable_linked c : reachable c → linked c.
Proof.
  induction 1 as [m d|c k now _ IH|c k v ttl now _ IH|c k _ IH|c _ IH].
  - apply linked_new.
  - by apply get_linked.
  - by apply set_linked.
  - by apply delete_linked.
  - apply clear_linked.
Qed.

(** [set] returns [True] when it computes its expiry, and raises without
    a write when it does not. *)
Lemma set_result c k v (ttl : option Z) (now : float) :
  (set c k v ttl now).2
  = match set_expire_time c ttl now with
    | Ok _ => Ok true
    | OverflowError => OverflowError
    end
  ∧ (set_expire_time c ttl now = OverflowError → (set c k v ttl now).1 = c).
Proof.
  unfold set. cbv zeta. by destruct (set_expire_time c ttl now).
Qed.

(** What a [set] that returns leaves under the key it wrote, in a cache
    with room for at least one entry. *)
Lemma set_lookup c k v (ttl : option Z) (now : float) (e : option float) :
  linked c →
  1 <= max_size c →
  set_expire_time c ttl now = Ok e →
  ∃ node,
    _cache (set c k v ttl now).1 !! k = Some node
    ∧ value node = v
    ∧ expire_time node = e.
Proof.
  intros [Hnd Hdom] Hmax He. unfold set. cbv zeta. rewrite He.
  destruct (_cache c !! k) as [node|] eqn:Hk; simpl.
  - rewrite lookup_insert_eq. eauto.
  - set (new_node := {| key := k; value := v; expire_time := e |}).
    case_bool_decide as Hfull; simpl.
    + unfold _pop_tail, len_cache in *. simpl in *.
      rewrite map_size_insert_None in Hfull by done.
      destruct (_order c) as [|k0 o] eqn:Ho.
      { (* an empty list under a non-empty dict: excluded *)
        exfalso.
        assert (Hne : _cache c ≠ ∅).
        { intros Hempty. rewrite Hempty, map_size_empty in Hfull. lia. }
        apply map_choose in Hne as (k' & node' & Hk').
        assert (Hin : k' ∈ []) by (apply Hdom; eauto).
        by apply elem_of_nil in Hin. }
      rewrite last_cons.
      destruct (last (k0 :: o)) as [tail|] eqn:Hlast; simpl.
      * assert (Htail : tail ∈ k0 :: o) by (by apply last_Some_elem_of).
        assert (tail ≠ k).
        { intros ->. apply Hdom in Htail as [? Htail]. congruence. }
        rewrite lookup_delete_ne, lookup_insert_eq by done. eauto.
      * by apply last_None in Hlast.
    + rewrite lookup_insert_eq. eauto.
Qed.

(** C9, amended.  In a cache built by the constructor and the methods,
    with room for at least one entry ([max_size >= 1]), a [set(k, v)] that
    computes its expiry (the [ttl] in force, if there is one, has a float)
    returns [True], and the [get(k)] that follows returns [v], [None]
    included, provided the entry has not expired at the time of the [get].
    And in every cache, after [delete(k)], [exists(k)] is false. *)
Theorem set_get_delete_exists c k v (ttl : option Z) (t_set t_get : float) :
  (reachable c →
   1 <= max_size c →
   ∀ expire_time,
     set_expire_time c ttl t_set = Ok expire_time →
     (∀ t, expire_time = Some t → PrimFloat.ltb t t_get = false) →
     (set c k v ttl t_set).2 = Ok true
     ∧ (get (set c k v ttl t_set).1 k t_get).2 = v)
  ∧ exists_ (delete c k).1 k t_get = false.
Proof.
  split.
  - intros Hc%reachable_linked Hmax e He Hfresh.
    destruct (set_result c k v ttl t_set) as [-> _]. rewrite He.
    split; [done|].
    destruct (set_lookup c k v ttl t_set e Hc Hmax He) as (node & Hk & Hv & Hnode).
    unfold get. rewrite Hk.
    assert (Hlive : _is_expired node t_get = false).
    { unfold _is_expired. rewrite Hnode.
      destruct e as [t|]; [by apply Hfresh|done]. }
    by rewrite Hlive.
  - unfold exists_, delete.
    destruct (_cache c !! k) as [node|] eqn:Hk; simpl.
    + by rewrite lookup_delete_eq.
    + by rewrite Hk.
Qed.

End cache.

Lemma set_get_delete_exists_witness :
  (set Samples.cache_of_two "k" (Some 7) (Some 60) 1000.0%float).2 = Ok true
  ∧ (get (set Samples.cache_of_two "k" (Some 7) (Some 60) 1000.0%float).1
       "k" 1000.0%float).2
    = Some 7.
Proof.
  apply (proj1 (set_get_delete_exists Samples.cache_of_two "k" (Some 7) (Some 60)
                  1000.0%float 1000.0%float)) with (Some 1060.0%float).
  - apply reachable_set, reachable_new.
  - vm_compute. discriminate.
  - vm_compute. reflexivity.
  - intros t [= <-]. vm_compute. reflexivity.
Defined.

(** C9, the claim refuted.  In a cache created with [max_size=0], [set]
    evicts the entry it has just linked, and the [get] that follows finds
    nothing.  In a cache created with a [default_ttl] that has no float,
    [set] raises [OverflowError] and writes nothing. *)
Lemma set_get_without_room :
  (set (new (V := Z) 0 None) "k" (Some 7) None 1000.0%float).2 = Ok true
  ∧ (get (set (new (V := Z) 0 None) "k" (Some 7) None 1000.0%float).1
       "k" 1000.0%float).2
    = None
  ∧ set (new (V := Z) 2 (Some (2 ^ 1024))) "k" (Some 7) None 1000.0%float
    = (new 2 (Some (2 ^ 1024)), OverflowError).
Proof. repeat split; vm_compute; reflexivity. Qed.

Example lru_eviction_order :
  let c := (set (new (V := Z) 2 None) "a" (Some 1) None 1.0%float).1 in
  let c := (set c "b" (Some 2) None 2.0%float).1 in
  let c := (get c "a" 3.0%float).1 in
  let c := (set c "c" (Some 3) None 4.0%float).1 in
  (_order c, (get c "b" 5.0%float).2, (get c "a" 5.0%float).2)
  = (["c"; "a"], None, Some 1).
Proof. vm_compute. reflexivity. Qed.

(** A cached [None] is a hit that answers [None]. *)
Example get_of_a_cached_None :
  let c := (set (new (V := Z) 2 None) "a" None None 1.0%float).1 in
  ((get c "a" 2.0%float).2, exists_ c "a" 2.0%float,
   hits (_stats (get c "a" 2.0%float).1), misses (_stats (get c "a" 2.0%float).1))
  = (None, true, 1, 0).
Proof. vm_compute. reflexivity. Qed.

End CacheFacts.

(** ** Laws of the LRU cache (cache.py) *)

Module CacheLaws.
Import Cache.

Section cache.
Context {V : Type}.
Implicit Types (c : ThreadSafeLRUCache V) (k : string) (v : option V).

(** The dict is within the capacity and the [size] counter is its length. *)
Definition bounded c : Prop :=
  len_cache c <= Z.max (max_size c) 0 ∧ size (_stats c) = len_cache c.

Lemma len_cache_delete_present c k (node : LRUCacheNode V) :
  _cache c !! k = Some node →
  Z.of_nat (base.size (base.delete k (_cache c))) = len_cache c - 1.
Proof.
  intros Hk. unfold len_cache.
  rewrite map_size_delete_Some by eauto.
  assert (base.size (_cache c) ≠ 0%nat).
  { apply map_size_ne_0_lookup_2 with k. eauto. }
  lia.
Qed.

Lemma delete_bounded c k : bounded c → bounded (delete c k).1.
Proof.
  intros [Hcap Hsize]. unfold delete.
  destruct (_cache c !! k) as [node|] eqn:Hk; [|done].
  split; simpl; [|done].
  unfold len_cache at 1. simpl.
  rewrite (len_cache_delete_present c k node Hk). lia.
Qed.

Lemma get_bounded c k (now : float) : bounded c → bounded (get c k now).1.
Proof.
  intros Hc. unfold get.
  destruct (_cache c !! k) as [node|] eqn:Hk; [|done].
  destruct (_is_expired node now); [|done].
  by apply (delete_bounded c k) in Hc.
Qed.

Lemma set_bounded c k v (ttl : option Z) (now : float) :
  CacheFacts.linked c → bounded c → bounded (set c k v ttl now).1.
Proof.
  intros [Hnd Hdom] [Hcap Hsize]. unfold set. cbv zeta.
  destruct (set_expire_time c ttl now) as [e|]; [|done].
  destruct (_cache c !! k) as [node|] eqn:Hk.
  - split; simpl; [|done]. unfold len_cache in *. simpl.
    rewrite map_size_insert_Some by done. done.
  - set (new_node := {| key := k; value := v; expire_time := e |}).
    assert (Hlen : len_cache (_add_node (with_cache c (<[k := new_node]> (_cache c))) k)
                   = len_cache c + 1).
    { unfold len_cache. simpl. rewrite map_size_insert_None by done. lia. }
    case_bool_decide as Hfull.
    + unfold _pop_tail. simpl _order. rewrite last_cons.
      destruct (last (_order c)) as [tail|] eqn:Hlast.
      * assert (Htail : is_Some (_cache c !! tail)).
        { apply Hdom. by apply last_Some_elem_of. }
        destruct Htail as [tnode Htail].
        assert (tail ≠ k) by congruence.
        split; simpl; [|done].
        unfold len_cache in *. simpl in *.
        rewrite map_size_delete_Some by (rewrite lookup_insert_ne by done; eauto).
        rewrite map_size_insert_None by done.
        simpl. lia.
      * split; simpl; [|done].
        unfold len_cache at 1. simpl.
        rewrite delete_insert_eq.
        rewrite (delete_id _ _ Hk).
        fold (len_cache c). lia.
    + split; simpl; [|done].
      unfold len_cache in *. simpl in *. lia.
Qed.

Lemma clear_bounded c : bounded (clear c).1.
Proof.
  split; simpl; unfold len_cache; simpl; rewrite map_size_empty; lia.
Qed.

Lemma new_bounded (max_size : Z) (default_ttl : option Z) :
  bounded (new (V := V) max_size default_ttl).
Proof.
  split; simpl; unfold len_cache; simpl; rewrite map_size_empty; lia.
Qed.

Lemma max_size_get c k (now : float) : max_size (get c k now).1 = max_size c.
Proof.
  unfold get, delete. destruct (_cache c !! k) as [node|]; [|done].
  by destruct (_is_expired node now).
Qed.

Lemma max_size_set c k v (ttl : option Z) (now : float) :
  max_size (set c k v ttl now).1 = max_size c.
Proof.
  unfold set. cbv zeta. destruct (set_expire_time c ttl now) as [e|]; [|done].
  destruct (_cache c !! k) as [node|]; [done|].
  case_bool_decide; [|done]. unfold _pop_tail.
  by destruct (last _).
Qed.

Lemma max_size_delete c k : max_size (delete c k).1 = max_size c.
Proof. unfold delete. by destruct (_cache c !! k). Qed.

Lemma reachable_bounded c : reachable c → bounded c.
Proof.
  intros Hc. induction Hc as [m d|c k now Hc IH|c k v ttl now Hc IH|c k Hc IH|c Hc IH].
  - apply new_bounded.
  - by apply get_bounded.
  - apply set_bounded; [by apply CacheFacts.reachable_linked|done].
  - by apply delete_bounded.
  - apply clear_bounded.
Qed.

Lemma order_length c :
  CacheFacts.linked c → Z.of_nat (length (_order c)) = len_cache c.
Proof.
  intros [Hnd Hdom]. unfold len_cache. f_equal.
  rewrite <- size_dom, <- (size_list_to_set (C := gset string) (_order c)) by done.
  f_equal. apply set_eq. intros k.
  rewrite elem_of_list_to_set, elem_of_dom. apply Hdom.
Qed.

(** X1.  A cache built by the constructor and the methods never holds more
    than [max_size] entries (none beyond 0 for a negative [max_size]); its
    list and its dict hold the same keys, each once in the list: a key is
    in the list exactly when the dict has a node under it; and the [size]
    counter of its statistics is the number of entries. *)
Theorem capacity_is_kept c :
  reachable c →
  len_cache c <= Z.max (max_size c) 0
  ∧ size (get_stats c) = len_cache c
  ∧ Z.of_nat (length (_order c)) = len_cache c
  ∧ NoDup (_order c)
  ∧ ∀ k, (k ∈ _order c) ↔ is_Some (_cache c !! k).
Proof.
  intros Hc. destruct (reachable_bounded c Hc) as [Hcap Hsize].
  destruct (CacheFacts.reachable_linked c Hc) as [Hnd Hdom].
  repeat split; try done; try apply Hdom.
  unfold len_cache. f_equal.
  rewrite <- size_dom, <- (size_list_to_set (C := gset string) (_order c)) by done.
  f_equal. apply set_eq. intros k.
  rewrite elem_of_list_to_set, elem_of_dom. apply Hdom.
Qed.

(** What a [set] that returns leaves under its key, in any cache: the node
    it wrote, or nothing when that node was evicted at once. *)
Lemma set_lookup_any c k v (ttl : option Z) (now : float) (e : option float) :
  set_expire_time c ttl now = Ok e →
  _cache (set c k v ttl now).1 !! k = None
  ∨ ∃ node, _cache (set c k v ttl now).1 !! k = Some node
            ∧ value node = v
            ∧ expire_time node = e.
Proof.
  intros He. unfold set. cbv zeta. rewrite He.
  destruct (_cache c !! k) as [node|] eqn:Hk; simpl.
  - right. rewrite lookup_insert_eq. eauto.
  - case_bool_decide; simpl.
    + unfold _pop_tail. destruct (last _) as [tail|]; simpl.
      * destruct (decide (tail = k)) as [->|Hne].
        -- left. apply lookup_delete_eq.
        -- right. rewrite lookup_delete_ne, lookup_insert_eq by done. eauto.
      * right. rewrite lookup_insert_eq. eauto.
    + right. rewrite lookup_insert_eq. eauto.
Qed.

(** X2.  In every cache, a [set] with an explicit [ttl] that has a float
    returns [True]; and once the clock has passed the expiry that it
    computed, the time of the [set] plus [ttl], the key is gone: [exists]
    is false and [get] answers [None] for it. *)
Theorem get_after_expiry c k v (ttl : Z) (t_set t_get : float) :
  PyFloat.int_too_large ttl = false →
  PrimFloat.ltb (t_set + PyFloat.of_int ttl)%float t_get = true →
  (set c k v (Some ttl) t_set).2 = Ok true
  ∧ exists_ (set c k v (Some ttl) t_set).1 k t_get = false
  ∧ (get (set c k v (Some ttl) t_set).1 k t_get).2 = None.
Proof.
  intros Hfits Hlate.
  assert (He : set_expire_time c (Some ttl) t_set
               = Ok (Some (t_set + PyFloat.of_int ttl)%float)).
  { unfold set_expire_time, PyFloat.add_int. by rewrite Hfits. }
  destruct (CacheFacts.set_result c k v (Some ttl) t_set) as [-> _].
  rewrite He. split; [done|]. unfold get, exists_.
  destruct (set_lookup_any c k v (Some ttl) t_set _ He)
    as [->|(node & -> & _ & Hnode)]; [done|].
  unfold _is_expired. rewrite Hnode, Hlate. done.
Qed.

(** X3.  An entry written with no [ttl] into a cache that has no
    [default_ttl] and room for one entry never expires: the [set] returns
    [True], and [exists] is true for the key at every reading [now] of the
    clock. *)
Theorem no_ttl_never_expires c k v (t_set now : float) :
  reachable c →
  1 <= max_size c →
  default_ttl c = None →
  (set c k v None t_set).2 = Ok true
  ∧ exists_ (set c k v None t_set).1 k now = true.
Proof.
  intros Hc%CacheFacts.reachable_linked Hmax Hdef.
  assert (He : set_expire_time c None t_set = Ok None).
  { unfold set_expire_time. by rewrite Hdef. }
  destruct (CacheFacts.set_result c k v None t_set) as [-> _]. rewrite He.
  split; [done|].
  destruct (CacheFacts.set_lookup c k v None t_set None Hc Hmax He)
    as (node & Hk & _ & Hnode).
  unfold exists_, _is_expired. by rewrite Hk, Hnode.
Qed.

(** X4.  Lazy expiry: a [get] that finds the entry expired answers [None],
    counts a miss and a delete, and removes the entry from the dict and
    from the list; every other entry is left as it was. *)
Theorem get_drops_expired c k (node : LRUCacheNode V) (now : float) :
  _cache c !! k = Some node →
  _is_expired node now = true →
  (get c k now).2 = None
  ∧ _cache (get c k now).1 !! k = None
  ∧ (k ∉ _order (get c k now).1)
  ∧ (∀ k', k' ≠ k → _cache (get c k now).1 !! k' = _cache c !! k')
  ∧ misses (_stats (get c k now).1) = misses (_stats c) + 1
  ∧ deletes (_stats (get c k now).1) = deletes (_stats c) + 1
  ∧ hits (_stats (get c k now).1) = hits (_stats c).
Proof.
  intros Hk Hexp. unfold get, delete. rewrite Hk, Hexp. simpl.
  rewrite lookup_delete_eq. repeat split; try done.
  - rewrite CacheFacts.order_remove_spec. tauto.
  - intros k' Hne. by rewrite lookup_delete_ne.
Qed.

(** X5.  [get] against [exists].  [exists] is true exactly when the dict
    has a live node under the key.  Then [get] is a hit: it answers the
    value of that node, which is [None] when [None] is the value cached,
    counts one hit and leaves the dict as it was.  When [exists] is false,
    [get] is a miss: it answers [None] and counts one miss.  So an answer
    other than [None] comes from a hit on a live node with that value,
    whereas the answer [None] is that of a miss and of a hit on a cached
    [None] alike. *)
Theorem get_hit_or_miss c k (now : float) :
  (exists_ c k now = true
   ↔ ∃ node, _cache c !! k = Some node ∧ _is_expired node now = false)
  ∧ (∀ node, _cache c !! k = Some node → _is_expired node now = false →
       (get c k now).2 = value node
       ∧ hits (_stats (get c k now).1) = hits (_stats c) + 1
       ∧ misses (_stats (get c k now).1) = misses (_stats c)
       ∧ _cache (get c k now).1 = _cache c)
  ∧ (exists_ c k now = false →
       (get c k now).2 = None
       ∧ hits (_stats (get c k now).1) = hits (_stats c)
       ∧ misses (_stats (get c k now).1) = misses (_stats c) + 1)
  ∧ (∀ w : V, (get c k now).2 = Some w
              ↔ ∃ node, _cache c !! k = Some node
                        ∧ _is_expired node now = false ∧ value node = Some w).
Proof.
  unfold get, exists_, delete.
  destruct (_cache c !! k) as [node|] eqn:Hk; simpl;
    [destruct (_is_expired node now) eqn:Hexp; simpl|].
  - split; [|split; [|split]].
    + split; [done|]. intros (n & [= <-] & ?). congruence.
    + intros n [= <-] ?. congruence.
    + done.
    + intros w. split; [done|]. intros (n & [= <-] & ? & _). congruence.
  - split; [|split; [|split]].
    + split; [eauto|done].
    + by intros n [= <-] _.
    + done.
    + intros w. split; [eauto|]. by intros (n & [= <-] & _ & <-).
  - split; [|split; [|split]].
    + split; [done|]. by intros (n & ? & _).
    + by intros n ?.
    + done.
    + intros w. split; [done|]. by intros (n & ? & _).
Qed.

Lemma delete_lookup c k k' :
  _cache (delete c k).1 !! k' = if decide (k' = k) then None else _cache c !! k'.
Proof.
  unfold delete. destruct (_cache c !! k) as [node|] eqn:Hk; simpl.
  - case_decide as Hkk; [subst; apply lookup_delete_eq|by apply lookup_delete_ne].
  - case_decide; [by subst|done].
Qed.

Lemma delete_result c k :
  (delete c k).2 = true ↔ is_Some (_cache c !! k).
Proof.
  unfold delete. destruct (_cache c !! k) as [node|]; simpl.
  - split; eauto.
  - split; [done|by intros [? ?]].
Qed.

(** X6.  [delete] reports [True] exactly when the key was cached; afterwards
    the key is not in the dict, a second [delete] reports [False], and
    every other entry is left as it was; a [delete] that reports [False]
    changes nothing, not even the counters. *)
Theorem delete_reports_presence c k :
  ((delete c k).2 = true ↔ is_Some (_cache c !! k))
  ∧ _cache (delete c k).1 !! k = None
  ∧ (delete (delete c k).1 k).2 = false
  ∧ (∀ k', k' ≠ k → _cache (delete c k).1 !! k' = _cache c !! k')
  ∧ ((delete c k).2 = false → (delete c k).1 = c).
Proof.
  assert (Hgone : _cache (delete c k).1 !! k = None).
  { rewrite delete_lookup. by rewrite decide_True. }
  split; [apply delete_result|]. split; [done|]. split; [|split].
  - apply not_true_is_false. rewrite delete_result, Hgone. by intros [? ?].
  - intros k' Hne. rewrite delete_lookup. by rewrite decide_False.
  - unfold delete. by destruct (_cache c !! k).
Qed.

Lemma order_remove_last (o : list string) (tail : string) :
  NoDup (o ++ [tail]) →
  List.filter (λ x, bool_decide (x ≠ tail)) (o ++ [tail]) = o.
Proof.
  intros Hnd. apply NoDup_app in Hnd as (_ & Hdisj & _).
  rewrite List.filter_app. simpl.
  rewrite bool_decide_false by (intros ?; done). rewrite app_nil_r.
  induction o as [|x o IH]; simpl; [done|].
  rewrite bool_decide_true.
  - f_equal. apply IH. intros y Hy. apply Hdisj. by right.
  - intros ->. apply (Hdisj tail); [left|apply list_elem_of_singleton; done].
Qed.

(** X7.  Eviction takes the least recently used entry: when [set] writes a
    key that is not cached into a cache that is full ([max_size >= 1]
    entries), and the [ttl] in force, if there is one, has a float, [set]
    returns [True], the entry at the tail of the list is the one removed,
    the new key goes to the head, and every other entry is left as it
    was. *)
Theorem set_evicts_least_recent c k v (ttl : option Z) (now : float) :
  reachable c →
  1 <= max_size c →
  _cache c !! k = None →
  len_cache c = max_size c →
  set_expire_time c ttl now ≠ OverflowError →
  ∃ (recent : list string) (tail : string),
    _order c = recent ++ [tail]
    ∧ (set c k v ttl now).2 = Ok true
    ∧ _order (set c k v ttl now).1 = k :: recent
    ∧ _cache (set c k v ttl now).1 !! tail = None
    ∧ is_Some (_cache (set c k v ttl now).1 !! k)
    ∧ (∀ k', k' ≠ tail → k' ≠ k →
             _cache (set c k v ttl now).1 !! k' = _cache c !! k')
    ∧ len_cache (set c k v ttl now).1 = max_size c.
Proof.
  intros Hc Hmax Hk Hfull Hfits.
  destruct (set_expire_time c ttl now) as [e|] eqn:He; [clear Hfits|done].
  destruct (CacheFacts.reachable_linked c Hc) as [Hnd Hdom].
  destruct (CacheFacts.set_lookup c k v ttl now e (conj Hnd Hdom) Hmax He)
    as (node & Hknew & _ & _).
  assert (Hne : _order c ≠ []).
  { intros Ho. assert (Hsz : _cache c = ∅); [|unfold len_cache in Hfull;
      rewrite Hsz, map_size_empty in Hfull; lia].
    apply map_empty. intros k'. apply eq_None_not_Some. rewrite <- Hdom, Ho.
    apply not_elem_of_nil. }
  apply last_is_Some in Hne as [tail Hlast].
  pose proof Hlast as Hsplit. apply last_Some in Hsplit as [recent Hsplit].
  exists recent, tail. split; [done|].
  assert (Htk : tail ≠ k).
  { intros ->. assert (is_Some (_cache c !! k)); [|by rewrite Hk in *; destruct H].
    apply Hdom. rewrite Hsplit, elem_of_app, list_elem_of_singleton. by right. }
  revert Hknew. unfold set. cbv zeta. rewrite He, Hk.
  rewrite bool_decide_true
    by (unfold len_cache in *; simpl; rewrite map_size_insert_None by done; lia).
  unfold _pop_tail. simpl _order. rewrite last_cons, Hlast. simpl.
  intros Hknew. repeat split.
  - rewrite bool_decide_true by done. f_equal.
    rewrite Hsplit. apply order_remove_last. by rewrite <- Hsplit.
  - apply lookup_delete_eq.
  - eauto.
  - intros k' Hk't Hk'k. by rewrite lookup_delete_ne, lookup_insert_ne.
  - unfold len_cache in *. simpl.
    rewrite map_size_delete_Some.
    + rewrite map_size_insert_None by done. simpl. lia.
    + rewrite lookup_insert_ne by done. apply Hdom.
      rewrite Hsplit, elem_of_app, list_elem_of_singleton. by right.
Qed.

(** X8.  [set] evicts nothing when its key is already cached or the cache
    has room: every other entry is left as it was, whether the call returns
    or raises; and when the [ttl] in force, if there is one, has a float,
    the call returns [True] and the key is at the head of the list, with
    the value written. *)
Theorem set_keeps_others c k v (ttl : option Z) (now : float) :
  is_Some (_cache c !! k) ∨ len_cache c < max_size c →
  (∀ k', k' ≠ k → _cache (set c k v ttl now).1 !! k' = _cache c !! k')
  ∧ (set_expire_time c ttl now ≠ OverflowError →
     (set c k v ttl now).2 = Ok true
     ∧ head (_order (set c k v ttl now).1) = Some k
     ∧ ∃ node, _cache (set c k v ttl now).1 !! k = Some node ∧ value node = v).
Proof.
  intros Hroom. unfold set. cbv zeta.
  destruct (set_expire_time c ttl now) as [e|] eqn:He; [|done].
  destruct (_cache c !! k) as [node|] eqn:Hk; simpl.
  - rewrite lookup_insert_eq. repeat split; eauto.
    intros k' Hne. by rewrite lookup_insert_ne.
  - destruct Hroom as [[? ?]|Hroom]; [done|].
    rewrite bool_decide_false
      by (unfold len_cache in *; simpl; rewrite map_size_insert_None by done; lia).
    simpl. rewrite lookup_insert_eq. repeat split; eauto.
    intros k' Hne. by rewrite lookup_insert_ne.
Qed.

(** X9.  An entry that [get] has just hit survives the next insertion: in
    a cache with room for two entries, after a hit on [k] (its entry is
    live, whatever the value, [None] included) a [set] of another key does
    not evict [k]. *)
Theorem hit_survives_next_set c k k' v' (ttl : option Z) (t_get t_set : float) :
  reachable c →
  2 <= max_size c →
  exists_ c k t_get = true →
  k' ≠ k →
  _cache (set (get c k t_get).1 k' v' ttl t_set).1 !! k = _cache c !! k.
Proof.
  intros Hc Hmax Hhit Hne.
  assert (Hc' : reachable (get c k t_get).1) by (by apply reachable_get).
  assert (Hget : _cache (get c k t_get).1 = _cache c
                 ∧ ∃ rest, _order (get c k t_get).1 = k :: rest).
  { revert Hhit. unfold get, exists_. destruct (_cache c !! k) as [node|]; [|done].
    destruct (_is_expired node t_get); simpl; [done|eauto]. }
  destruct Hget as (Hsame & rest & Hrest).
  set (c1 := (get c k t_get).1) in *.
  destruct (set_expire_time c1 ttl t_set) as [e|] eqn:He.
  2: { rewrite (proj2 (CacheFacts.set_result c1 k' v' ttl t_set) He).
       by rewrite Hsame. }
  destruct (_cache c1 !! k') as [node'|] eqn:Hk'.
  { destruct (set_keeps_others c1 k' v' ttl t_set) as (Hothers & _); [eauto|].
    rewrite Hothers by done. by rewrite Hsame. }
  destruct (decide (len_cache c1 < max_size c1)) as [Hroom|Hfull].
  { destruct (set_keeps_others c1 k' v' ttl t_set) as (Hothers & _); [eauto|].
    rewrite Hothers by done. by rewrite Hsame. }
  destruct (reachable_bounded c1 Hc') as [Hcap _].
  assert (Hmax1 : max_size c1 = max_size c) by apply max_size_get.
  destruct (set_evicts_least_recent c1 k' v' ttl t_set Hc')
    as (recent & tail & Hsplit & _ & _ & _ & _ & Hothers & _);
    [lia|done|lia|by rewrite He|].
  rewrite Hothers; [by rewrite Hsame| |done].
  (* the tail is not [k]: the list starts with [k] and has two entries *)
  intros <-.
  destruct (CacheFacts.reachable_linked c1 Hc') as [Hnd Hdom].
  assert (Hlen : Z.of_nat (length (_order c1)) = len_cache c1).
  { by apply order_length. }
  rewrite Hrest in Hsplit, Hnd.
  destruct recent as [|x recent]; simpl in Hsplit.
  - injection Hsplit as ->. rewrite Hrest in Hlen. simpl in Hlen. lia.
  - injection Hsplit as <- ->.
    apply NoDup_cons in Hnd as [Hnotin _]. apply Hnotin.
    rewrite elem_of_app, list_elem_of_singleton. by right.
Qed.

End cache.

Lemma capacity_is_kept_witness :
  len_cache Samples.cache_of_two <= Z.max (max_size Samples.cache_of_two) 0
  ∧ size (get_stats Samples.cache_of_two) = len_cache Samples.cache_of_two
  ∧ Z.of_nat (length (_order Samples.cache_of_two)) = len_cache Samples.cache_of_two
  ∧ NoDup (_order Samples.cache_of_two)
  ∧ ∀ k, (k ∈ _order Samples.cache_of_two)
         ↔ is_Some (_cache Samples.cache_of_two !! k).
Proof.
  apply (capacity_is_kept Samples.cache_of_two).
  apply reachable_set, reachable_new.
Defined.

Lemma get_after_expiry_witness :
  (set (new (V := Z) 2 None) "k" (Some 7) (Some 60) 1000.0%float).2 = Ok true
  ∧ exists_ (set (new (V := Z) 2 None) "k" (Some 7) (Some 60) 1000.0%float).1
      "k" 2000.0%float = false
  ∧ (get (set (new (V := Z) 2 None) "k" (Some 7) (Some 60) 1000.0%float).1
       "k" 2000.0%float).2
    = None.
Proof.
  apply (get_after_expiry (new (V := Z) 2 None) "k" (Some 7) 60
           1000.0%float 2000.0%float).
  - vm_compute. reflexivity.
  - vm_compute. reflexivity.
Defined.

Lemma get_drops_expired_witness :
  let c := (set (new (V := Z) 2 None) "k" (Some 7) (Some 60) 1000.0%float).1 in
  (get c "k" 2000.0%float).2 = None
  ∧ _cache (get c "k" 2000.0%float).1 !! "k" = None
  ∧ ("k" ∉ _order (get c "k" 2000.0%float).1)
  ∧ (∀ k', k' ≠ "k" → _cache (get c "k" 2000.0%float).1 !! k' = _cache c !! k')
  ∧ misses (_stats (get c "k" 2000.0%float).1) = misses (_stats c) + 1
  ∧ deletes (_stats (get c "k" 2000.0%float).1) = deletes (_stats c) + 1
  ∧ hits (_stats (get c "k" 2000.0%float).1) = hits (_stats c).
Proof.
  apply (get_drops_expired
           (set (new (V := Z) 2 None) "k" (Some 7) (Some 60) 1000.0%float).1 "k"
           {| key := "k"; value := Some 7; expire_time := Some 1060.0%float |}
           2000.0%float).
  - vm_compute. reflexivity.
  - vm_compute. reflexivity.
Defined.

Lemma set_evicts_least_recent_witness :
  ∃ (recent : list string) (tail : string),
    _order Samples.cache_full = recent ++ [tail]
    ∧ (set Samples.cache_full "k" (Some 7) None 1000.0%float).2 = Ok true
    ∧ _order (set Samples.cache_full "k" (Some 7) None 1000.0%float).1
      = "k" :: recent
    ∧ _cache (set Samples.cache_full "k" (Some 7) None 1000.0%float).1 !! tail
      = None
    ∧ is_Some (_cache (set Samples.cache_full "k" (Some 7) None 1000.0%float).1
                 !! "k")
    ∧ (∀ k', k' ≠ tail → k' ≠ "k" →
             _cache (set Samples.cache_full "k" (Some 7) None 1000.0%float).1 !! k'
             = _cache Samples.cache_full !! k')
    ∧ len_cache (set Samples.cache_full "k" (Some 7) None 1000.0%float).1
      = max_size Samples.cache_full.
Proof.
  apply (set_evicts_least_recent Samples.cache_full "k" (Some 7) None 1000.0%float).
  - apply reachable_set, reachable_set, reachable_new.
  - vm_compute. discriminate.
  - vm_compute. reflexivity.
  - vm_compute. reflexivity.
  - vm_compute. discriminate.
Defined.

Lemma set_keeps_others_witness :
  (∀ k', k' ≠ "k" →
         _cache (set Samples.cache_of_two "k" (Some 7) None 1000.0%float).1 !! k'
         = _cache Samples.cache_of_two !! k')
  ∧ (set_expire_time Samples.cache_of_two None 1000.0%float ≠ OverflowError →
     (set Samples.cache_of_two "k" (Some 7) None 1000.0%float).2 = Ok true
     ∧ head (_order (set Samples.cache_of_two "k" (Some 7) None 1000.0%float).1)
       = Some "k"
     ∧ ∃ node,
         _cache (set Samples.cache_of_two "k" (Some 7) None 1000.0%float).1 !! "k"
         = Some node ∧ value node = Some 7).
Proof.
  apply (set_keeps_others Samples.cache_of_two "k" (Some 7) None 1000.0%float).
  right. vm_compute. reflexivity.
Defined.

Lemma hit_survives_next_set_witness :
  _cache (set (get Samples.cache_full "j" 1000.0%float).1 "k" (Some 7) None
            1001.0%float).1
    !! "j"
  = _cache Samples.cache_full !! "j".
Proof.
  apply (hit_survives_next_set Samples.cache_full "j" "k" (Some 7) None
           1000.0%float 1001.0%float).
  - apply reachable_set, reachable_set, reachable_new.
  - vm_compute. discriminate.
  - vm_compute. reflexivity.
  - discriminate.
Defined.

Lemma no_ttl_never_expires_witness :
  (set Samples.cache_of_two "k" (Some 7) None 1000.0%float).2 = Ok true
  ∧ exists_ (set Samples.cache_of_two "k" (Some 7) None 1000.0%float).1 "k"
      4294967296.0%float
    = true.
Proof.
  apply (no_ttl_never_expires Samples.cache_of_two "k" (Some 7)
           1000.0%float 4294967296.0%float).
  - apply reachable_set, reachable_new.
  - vm_compute. discriminate.
  - reflexivity.
Defined.

Example lru_keeps_the_entry_just_read :
  let c := (get Samples.cache_full "j" 1000.0%float).1 in
  let c := (set c "k" (Some 7) None 1001.0%float).1 in
  (_order c, value <$> _cache c !! "j", value <$> _cache c !! "i")
  = (["k"; "j"], Some (Some 3), None).
Proof. vm_compute. reflexivity. Qed.

(** An explicit [ttl] is added as the float nearest to it, whatever its
    size: an entry written at 1000.0 with [ttl = 2^63 + 60] is live at
    2000.0; and a [ttl] with no float makes [set] raise. *)
Example ttl_beyond_the_machine_word :
  let c := new (V := Z) 2 None in
  ((get (set c "k" (Some 7) (Some (2 ^ 63 + 60)) 1000.0%float).1 "k" 2000.0%float).2,
   exists_ (set c "k" (Some 7) (Some (- 2 ^ 63)) 1000.0%float).1 "k" 1000.0%float,
   (set c "k" (Some 7) (Some (2 ^ 1024 - 2 ^ 970)) 1000.0%float).2,
   (set c "k" (Some 7) (Some (2 ^ 1024 - 2 ^ 970 - 1)) 1000.0%float).2)
  = (Some 7, false, OverflowError, Ok true).
Proof. vm_compute. reflexivity. Qed.

End CacheLaws.

(** ** Laws of the multi-level cache (cache.py) *)

Module MultiLevelLaws.
Import Cache.

Section multi_level.
Context {L2 V : Type} `{MultiLevel.CacheProtocol L2 V}.
Implicit Types (self : MultiLevel.MultiLevelCache (ThreadSafeLRUCache V) L2).

Lemma default_ttl_get (c : ThreadSafeLRUCache V) k (now : float) :
  default_ttl (get c k now).1 = default_ttl c.
Proof.
  unfold get, delete. destruct (_cache c !! k) as [node|]; [|done].
  by destruct (_is_expired node now).
Qed.

Lemma set_expire_time_get (c : ThreadSafeLRUCache V) k (now now' : float)
    (ttl : option Z) :
  set_expire_time (get c k now).1 ttl now' = set_expire_time c ttl now'.
Proof. unfold set_expire_time. by rewrite default_ttl_get. Qed.

(** X10.  [MultiLevelCache.get] over an LRU first level that answers [None]
    for the key (it misses, or [None] is the value it holds) and a second
    level.  When the second level answers a value [v] other than [None],
    and the [default_ttl] of the first level, if there is one, has a float,
    the call answers [v], counts a hit, and has written [v] back to the
    first level, which alone then answers [v] as long as the expiry of that
    write has not passed.  When the second level answers [None] (it misses,
    or [None] is the value it holds), the call answers [None], counts a
    miss and writes nothing back. *)
Theorem second_level_hit_is_written_back self key (l2 l2' : L2)
    (value : option V) (now1 now2 now3 now4 : float) :
  reachable (MultiLevel.l1_cache self) →
  1 <= max_size (MultiLevel.l1_cache self) →
  (get (MultiLevel.l1_cache self) key now1).2 = None →
  MultiLevel.l2_cache self = Some l2 →
  MultiLevel.proto_get l2 key now2 = (l2', value) →
  (∀ v expire_time,
     value = Some v →
     set_expire_time (MultiLevel.l1_cache self) None now3 = Ok expire_time →
     (MultiLevel.get self key now1 now2 now3).2 = Ok (Some v)
     ∧ MultiLevel.l1_cache (MultiLevel.get self key now1 now2 now3).1
       = (set (get (MultiLevel.l1_cache self) key now1).1 key (Some v) None now3).1
     ∧ MultiLevel.l2_cache (MultiLevel.get self key now1 now2 now3).1 = Some l2'
     ∧ hits (MultiLevel.ml_stats (MultiLevel.get self key now1 now2 now3).1)
       = hits (MultiLevel.ml_stats self) + 1
     ∧ misses (MultiLevel.ml_stats (MultiLevel.get self key now1 now2 now3).1)
       = misses (MultiLevel.ml_stats self)
     ∧ ((∀ t, expire_time = Some t → PrimFloat.ltb t now4 = false) →
        (get (MultiLevel.l1_cache (MultiLevel.get self key now1 now2 now3).1)
           key now4).2
        = Some v))
  ∧ (value = None →
     MultiLevel.get self key now1 now2 now3
     = ({| MultiLevel.l1_cache := (get (MultiLevel.l1_cache self) key now1).1;
           MultiLevel.l2_cache := Some l2';
           MultiLevel.ml_stats := incr_misses (MultiLevel.ml_stats self) |},
        Ok None)).
Proof.
  intros Hc Hmax Hmiss Hl2 Hsecond.
  set (l1 := (get (MultiLevel.l1_cache self) key now1).1).
  assert (Hfirst : MultiLevel.proto_get (MultiLevel.l1_cache self) key now1
                   = (l1, None)).
  { change (get (MultiLevel.l1_cache self) key now1 = (l1, None)).
    subst l1. rewrite <- Hmiss. by destruct (get _ key now1). }
  split.
  - intros v e -> He.
    rewrite <- (set_expire_time_get _ key now1) in He. fold l1 in He.
    destruct (CacheFacts.set_result l1 key (Some v) None now3) as [Hok _].
    rewrite He in Hok.
    assert (Hres : MultiLevel.get self key now1 now2 now3
                   = ({| MultiLevel.l1_cache := (set l1 key (Some v) None now3).1;
                         MultiLevel.l2_cache := Some l2';
                         MultiLevel.ml_stats := incr_hits (MultiLevel.ml_stats self) |},
                      Ok (Some v))).
    { unfold MultiLevel.get. rewrite Hfirst, Hl2, Hsecond.
      change (MultiLevel.proto_set l1 key (Some v) None now3)
        with (set l1 key (Some v) None now3).
      destruct (set l1 key (Some v) None now3) as [l1' answer].
      simpl in Hok. by rewrite Hok. }
    rewrite Hres.
    cbn [fst snd MultiLevel.l1_cache MultiLevel.l2_cache MultiLevel.ml_stats].
    repeat (split; [reflexivity|]).
    intros Hlive.
    assert (Hc1 : CacheFacts.linked l1).
    { by apply CacheFacts.get_linked, CacheFacts.reachable_linked. }
    assert (Hmax1 : 1 <= max_size l1).
    { unfold l1. by rewrite CacheLaws.max_size_get. }
    destruct (CacheFacts.set_lookup l1 key (Some v) None now3 e Hc1 Hmax1 He)
      as (node & Hk & Hv & Hnode).
    unfold get at 1. rewrite Hk.
    assert (Hfresh : _is_expired node now4 = false).
    { unfold _is_expired. rewrite Hnode. destruct e as [t|]; [by apply Hlive|done]. }
    by rewrite Hfresh.
  - intros ->. unfold MultiLevel.get. by rewrite Hfirst, Hl2, Hsecond.
Qed.

(** X11.  With no second level, [MultiLevelCache.delete] reports [True] and
    counts a delete for every key, cached or not: the success of the
    absent level defaults to [True]. *)
Theorem single_level_delete_always_true
    (self : MultiLevel.MultiLevelCache (ThreadSafeLRUCache V) L2) key :
  MultiLevel.l2_cache self = None →
  (MultiLevel.delete self key).2 = true
  ∧ deletes (MultiLevel.ml_stats (MultiLevel.delete self key).1)
    = deletes (MultiLevel.ml_stats self) + 1
  ∧ MultiLevel.l1_cache (MultiLevel.delete self key).1
    = (delete (MultiLevel.l1_cache self) key).1.
Proof.
  intros Hl2. unfold MultiLevel.delete. simpl MultiLevel.proto_delete.
  destruct (delete (MultiLevel.l1_cache self) key) as [l1 ok]. rewrite Hl2.
  simpl. rewrite orb_true_r. repeat split.
Qed.

End multi_level.

Lemma second_level_hit_is_written_back_witness :
  (∀ v expire_time,
     Some 3 = Some v →
     set_expire_time (MultiLevel.l1_cache Samples.two_levels) None 3.0%float
     = Ok expire_time →
     (MultiLevel.get Samples.two_levels "j" 1.0%float 2.0%float 3.0%float).2
     = Ok (Some v)
     ∧ MultiLevel.l1_cache
         (MultiLevel.get Samples.two_levels "j" 1.0%float 2.0%float 3.0%float).1
       = (set (get (MultiLevel.l1_cache Samples.two_levels) "j" 1.0%float).1
            "j" (Some v) None 3.0%float).1
     ∧ MultiLevel.l2_cache
         (MultiLevel.get Samples.two_levels "j" 1.0%float 2.0%float 3.0%float).1
       = Some (get Samples.cache_of_two "j" 2.0%float).1
     ∧ hits (MultiLevel.ml_stats
               (MultiLevel.get Samples.two_levels "j" 1.0%float 2.0%float 3.0%float).1)
       = hits (MultiLevel.ml_stats Samples.two_levels) + 1
     ∧ misses (MultiLevel.ml_stats
                 (MultiLevel.get Samples.two_levels "j" 1.0%float 2.0%float 3.0%float).1)
       = misses (MultiLevel.ml_stats Samples.two_levels)
     ∧ ((∀ t, expire_time = Some t → PrimFloat.ltb t 4.0%float = false) →
        (get (MultiLevel.l1_cache
                (MultiLevel.get Samples.two_levels "j" 1.0%float 2.0%float 3.0%float).1)
           "j" 4.0%float).2
        = Some v))
  ∧ (Some 3 = None →
     MultiLevel.get Samples.two_levels "j" 1.0%float 2.0%float 3.0%float
     = ({| MultiLevel.l1_cache :=
             (get (MultiLevel.l1_cache Samples.two_levels) "j" 1.0%float).1;
           MultiLevel.l2_cache := Some (get Samples.cache_of_two "j" 2.0%float).1;
           MultiLevel.ml_stats :=
             incr_misses (MultiLevel.ml_stats Samples.two_levels) |},
        Ok None)).
Proof.
  apply (second_level_hit_is_written_back Samples.two_levels "j"
           Samples.cache_of_two (get Samples.cache_of_two "j" 2.0%float).1 (Some 3)
           1.0%float 2.0%float 3.0%float 4.0%float).
  - apply reachable_new.
  - vm_compute. discriminate.
  - vm_compute. reflexivity.
  - reflexivity.
  - vm_compute. reflexivity.
Defined.

(** The run of the witness: the hit at the second level is written back with
    the default expiry of the first level. *)
Example second_level_hit :
  let after :=
    MultiLevel.get Samples.two_levels "j" 1.0%float 2.0%float 3.0%float in
  (after.2,
   (get (MultiLevel.l1_cache after.1) "j" 4.0%float).2,
   (get (MultiLevel.l1_cache after.1) "j" 3604.0%float).2)
  = (Ok (Some 3), Some 3, None).
Proof. vm_compute. reflexivity. Qed.

(** A [None] cached at the second level is not written back, and counts a
    miss of the multi-level cache, while the second level counts a hit. *)
Example second_level_holds_None :
  let l2 := (set (new (V := Z) 2 None) "n" None None 0.5%float).1 in
  let self := MultiLevel.new (new (V := Z) 1000 (Some 3600)) (Some l2) in
  let after := MultiLevel.get self "n" 1.0%float 2.0%float 3.0%float in
  (after.2, misses (MultiLevel.ml_stats after.1), hits (MultiLevel.ml_stats after.1),
   _order (MultiLevel.l1_cache after.1),
   hits <$> (get_stats <$> MultiLevel.l2_cache after.1))
  = (Ok None, 1, 0, [], Some 1).
Proof. vm_compute. reflexivity. Qed.

Lemma single_level_delete_always_true_witness :
  (MultiLevel.delete Samples.one_level "absent").2 = true
  ∧ deletes (MultiLevel.ml_stats (MultiLevel.delete Samples.one_level "absent").1)
    = deletes (MultiLevel.ml_stats Samples.one_level) + 1
  ∧ MultiLevel.l1_cache (MultiLevel.delete Samples.one_level "absent").1
    = (delete (MultiLevel.l1_cache Samples.one_level) "absent").1.
Proof.
  apply (single_level_delete_always_true Samples.one_level "absent").
  reflexivity.
Defined.

End MultiLevelLaws.

(** ** Laws of the board builders (palace.py, zhishi_calculator.py) *)

Module PalaceLaws.
Import Symbols Palace.

Section tables.
Variables JIU_GONG GONG_POSITION BAGUA_GONG : Z → string.

Local Abbreviation rotated := (rotated_palaces JIU_GONG GONG_POSITION BAGUA_GONG).

(** The computed turn-plate is a rotation of the base sequences (Yang) or
    of the reversed ones (Yin). *)
Lemma turn_pan_rotated (ju_number : Z) (is_yang : bool) :
  ∃ nine_palace,
    _calculate_turn_pan JIU_GONG GONG_POSITION BAGUA_GONG ju_number is_yang
    = Some nine_palace
    ∧ Palace.ju_number nine_palace = ju_number
    ∧ Palace.is_yang nine_palace = is_yang
    ∧ palaces nine_palace
      = (if is_yang
         then rotated gan_sequence men_sequence xing_sequence shen_sequence
                ((ju_number - 1) mod 9)
         else rotated (rev gan_sequence) (rev men_sequence) (rev xing_sequence)
                (rev shen_sequence) ((9 - ju_number) mod 9)).
Proof.
  unfold _calculate_turn_pan.
  destruct is_yang; cbv zeta iota beta;
    [pose proof (Z.mod_pos_bound (ju_number - 1) 9 ltac:(lia)) as Hk;
     set (k := (ju_number - 1) mod 9) in *
    |pose proof (Z.mod_pos_bound (9 - ju_number) 9 ltac:(lia)) as Hk;
     set (k := (9 - ju_number) mod 9) in *];
    (erewrite PalaceFacts.for_each_ext;
     [|intros s' x _;
       first [replace ((x - 1 + (ju_number - 1)) mod 9) with ((x - 1 + k) mod 9)
                by (subst k; by rewrite Z.add_mod_idemp_r by lia)
             |replace ((x - 1 + (9 - ju_number)) mod 9) with ((x - 1 + k) mod 9)
                by (subst k; by rewrite Z.add_mod_idemp_r by lia)];
       reflexivity]);
    clearbody k; PalaceFacts.nine_cases k 0;
    PalaceFacts.run_loop; cbn [mbind option_bind]; eexists;
    (split; [reflexivity|]); (split; [reflexivity|]); (split; [reflexivity|]);
    vm_compute; reflexivity.
Qed.

Lemma fly_loop_rotated (start_gong : Z) :
  1 <= start_gong < 10 →
  for_each (PyList.range 1 10)
    (fun palaces gong_num =>
       gan ← _get_fly_gan (_calculate_fly_position start_gong gong_num);
       men ← _get_fly_men (_calculate_fly_position start_gong gong_num);
       xing ← _get_fly_xing (_calculate_fly_position start_gong gong_num);
       shen ← _get_fly_shen (_calculate_fly_position start_gong gong_num);
       Some (PyDict.set palaces (str_of_int gong_num)
               {| gong_num := gong_num;
                  gong_name := JIU_GONG gong_num;
                  position := GONG_POSITION gong_num;
                  bagua := BAGUA_GONG gong_num;
                  gan := gan;
                  men := men;
                  xing := xing;
                  shen := shen;
                  wu_xing := _get_gong_wu_xing gong_num |}))
    []
  = Some (rotated gan_sequence men_sequence xing_sequence shen_sequence
            (start_gong - 1)).
Proof.
  intros Hs. PalaceFacts.nine_cases start_gong 1; vm_compute; reflexivity.
Qed.

(** The fly-plate is a rotation of the base sequences by the start palace. *)
Lemma fly_pan_rotated (cal : Calendar.CalendarInfo) (nine_palace : NinePalace) :
  fly_pan JIU_GONG GONG_POSITION BAGUA_GONG cal = Some nine_palace →
  ∃ yg mz dg hz,
    PyList.index TIAN_GAN (Calendar.year_gan cal) = Some yg
    ∧ PyList.index DI_ZHI (Calendar.month_zhi cal) = Some mz
    ∧ PyList.index TIAN_GAN (Calendar.day_gan cal) = Some dg
    ∧ PyList.index DI_ZHI (Calendar.hour_zhi cal) = Some hz
    ∧ palaces nine_palace
      = rotated gan_sequence men_sequence xing_sequence shen_sequence
          (_calculate_fly_start_gong yg mz dg hz - 1).
Proof.
  unfold fly_pan.
  destruct (PyList.index TIAN_GAN (Calendar.year_gan cal)) as [yg|]; [|done].
  destruct (PyList.index DI_ZHI (Calendar.month_zhi cal)) as [mz|]; [|done].
  destruct (PyList.index TIAN_GAN (Calendar.day_gan cal)) as [dg|]; [|done].
  destruct (PyList.index DI_ZHI (Calendar.hour_zhi cal)) as [hz|]; [|done].
  cbn [mbind option_bind]. cbv zeta.
  pose proof (PalaceFacts.fly_start_gong_range yg mz dg hz) as Hs.
  rewrite (fly_loop_rotated _ Hs). cbn [mbind option_bind].
  intros [= <-]. exists yg, mz, dg, hz. done.
Qed.

(** A property of the palaces alone holds of every computed board as soon
    as it holds of the nine rotations of the base sequences and of the nine
    rotations of the reversed ones. *)
Lemma computed_boards_ind (P : PyDict.dict string PalaceInfo → Prop) :
  (∀ k, 0 <= k < 9 →
        P (rotated gan_sequence men_sequence xing_sequence shen_sequence k)) →
  (∀ k, 0 <= k < 9 →
        P (rotated (rev gan_sequence) (rev men_sequence) (rev xing_sequence)
             (rev shen_sequence) k)) →
  (∀ ju_number is_yang,
     ∃ nine_palace,
       _calculate_turn_pan JIU_GONG GONG_POSITION BAGUA_GONG ju_number is_yang
       = Some nine_palace
       ∧ P (palaces nine_palace))
  ∧ (∀ cal nine_palace,
       fly_pan JIU_GONG GONG_POSITION BAGUA_GONG cal = Some nine_palace
       → P (palaces nine_palace)).
Proof.
  intros Hyang Hyin. split.
  - intros ju_number is_yang.
    destruct (turn_pan_rotated ju_number is_yang) as (b & Hb & _ & _ & Hp).
    exists b. split; [done|]. rewrite Hp.
    destruct is_yang; [apply Hyang|apply Hyin]; apply Z.mod_pos_bound; lia.
  - intros cal b (yg & mz & dg & hz & _ & _ & _ & _ & Hp)%fly_pan_rotated.
    rewrite Hp. apply Hyang.
    pose proof (PalaceFacts.fly_start_gong_range yg mz dg hz). lia.
Qed.

(** Check a decidable property of the palaces on the eighteen rotations. *)
Ltac on_rotations :=
  apply computed_boards_ind;
  intros k Hk; PalaceFacts.nine_cases k 0; vm_compute; reflexivity.

(** X12.  [validate_palace] accepts every board that the computed-rotation
    turn-plate builder and the fly-plate builder return. *)
Theorem computed_boards_are_valid :
  (∀ ju_number is_yang,
     ∃ nine_palace,
       _calculate_turn_pan JIU_GONG GONG_POSITION BAGUA_GONG ju_number is_yang
       = Some nine_palace
       ∧ validate_palace nine_palace = true)
  ∧ (∀ cal nine_palace,
       fly_pan JIU_GONG GONG_POSITION BAGUA_GONG cal = Some nine_palace
       → validate_palace nine_palace = true).
Proof.
  apply (computed_boards_ind
           (λ ps, validate_palace
                    {| ju_number := 0; is_yang := true; ju_name := "";
                       palaces := ps; calendar_info := None; mode := "" |}
                  = true));
    intros k Hk; PalaceFacts.nine_cases k 0; vm_compute; reflexivity.
Qed.

(** Evaluate a search of a board once the board is a numeral. *)
Ltac eval_find :=
  match goal with
  | |- context [List.find ?p ?l] =>
      let v := eval vm_compute in (List.find p l) in
      replace (List.find p l) with v by (vm_compute; reflexivity)
  end.

Lemma rotated_zhi_fu_yang (k : Z) :
  0 <= k < 9 →
  ∃ zhi_fu,
    List.find (fun palace_info => bool_decide (shen palace_info = "直符"))
      (PyDict.values (rotated gan_sequence men_sequence xing_sequence shen_sequence k))
    = Some zhi_fu
    ∧ gan zhi_fu = "戊" ∧ men zhi_fu = "休门" ∧ xing zhi_fu = "天蓬"
    ∧ gong_num zhi_fu = (- k) mod 9 + 1
    ∧ PyDict.lookup
        (rotated gan_sequence men_sequence xing_sequence shen_sequence k)
        (str_of_int (gong_num zhi_fu)) = Some zhi_fu.
Proof.
  intros Hk. PalaceFacts.nine_cases k 0; eval_find; eexists;
    (split; [reflexivity|]); (split; [reflexivity|]); (split; [reflexivity|]);
    (split; [reflexivity|]); (split; [reflexivity|]); vm_compute; reflexivity.
Qed.

Lemma rotated_zhi_fu_yin (k : Z) :
  0 <= k < 9 →
  ∃ zhi_fu,
    List.find (fun palace_info => bool_decide (shen palace_info = "直符"))
      (PyDict.values (rotated (rev gan_sequence) (rev men_sequence)
                        (rev xing_sequence) (rev shen_sequence) k))
    = Some zhi_fu
    ∧ gan zhi_fu = "戊" ∧ men zhi_fu = "休门" ∧ xing zhi_fu = "天蓬"
    ∧ gong_num zhi_fu = (8 - k) mod 9 + 1
    ∧ PyDict.lookup
        (rotated (rev gan_sequence) (rev men_sequence) (rev xing_sequence)
           (rev shen_sequence) k)
        (str_of_int (gong_num zhi_fu)) = Some zhi_fu.
Proof.
  intros Hk. PalaceFacts.nine_cases k 0; eval_find; eexists;
    (split; [reflexivity|]); (split; [reflexivity|]); (split; [reflexivity|]);
    (split; [reflexivity|]); (split; [reflexivity|]); vm_compute; reflexivity.
Qed.

(** X13.  On every computed board the deity 直符 is found, and it sits with
    the heads of the other three sequences, 戊, 休门 and 天蓬, because the
    four sequences turn together.  Its palace is [(1 - ju) mod 9 + 1] on a
    Yang turn-plate, [(ju - 1) mod 9 + 1] on a Yin one, and
    [(1 - s) mod 9 + 1] on a fly-plate whose four pillar indices sum to
    [s]. *)
Theorem zhi_fu_leads_the_rotation :
  (∀ ju_number is_yang,
     ∃ nine_palace zhi_fu,
       _calculate_turn_pan JIU_GONG GONG_POSITION BAGUA_GONG ju_number is_yang
       = Some nine_palace
       ∧ find_zhi_fu nine_palace = Some zhi_fu
       ∧ gan zhi_fu = "戊" ∧ men zhi_fu = "休门" ∧ xing zhi_fu = "天蓬"
       ∧ gong_num zhi_fu
         = (if is_yang then (1 - ju_number) mod 9 + 1 else (ju_number - 1) mod 9 + 1)
       ∧ PyDict.lookup (palaces nine_palace) (str_of_int (gong_num zhi_fu))
         = Some zhi_fu)
  ∧ (∀ cal nine_palace,
       fly_pan JIU_GONG GONG_POSITION BAGUA_GONG cal = Some nine_palace →
       ∃ zhi_fu yg mz dg hz,
         find_zhi_fu nine_palace = Some zhi_fu
         ∧ gan zhi_fu = "戊" ∧ men zhi_fu = "休门" ∧ xing zhi_fu = "天蓬"
         ∧ PyList.index TIAN_GAN (Calendar.year_gan cal) = Some yg
         ∧ PyList.index DI_ZHI (Calendar.month_zhi cal) = Some mz
         ∧ PyList.index TIAN_GAN (Calendar.day_gan cal) = Some dg
         ∧ PyList.index DI_ZHI (Calendar.hour_zhi cal) = Some hz
         ∧ gong_num zhi_fu = (1 - (yg + mz + dg + hz)) mod 9 + 1
         ∧ PyDict.lookup (palaces nine_palace) (str_of_int (gong_num zhi_fu))
           = Some zhi_fu).
Proof.
  split.
  - intros ju_number is_yang.
    destruct (turn_pan_rotated ju_number is_yang) as (b & Hb & _ & _ & Hp).
    exists b. unfold find_zhi_fu. rewrite Hp. destruct is_yang.
    + destruct (rotated_zhi_fu_yang ((ju_number - 1) mod 9))
        as (zf & Hzf & Hg & Hm & Hx & Hn & Hl); [apply Z.mod_pos_bound; lia|].
      exists zf. repeat (split; [done|]). split; [|done].
      rewrite Hn. f_equal.
      rewrite <- (Z.sub_0_l ((ju_number - 1) mod 9)), Zminus_mod_idemp_r.
      f_equal. lia.
    + destruct (rotated_zhi_fu_yin ((9 - ju_number) mod 9))
        as (zf & Hzf & Hg & Hm & Hx & Hn & Hl); [apply Z.mod_pos_bound; lia|].
      exists zf. repeat (split; [done|]). split; [|done].
      rewrite Hn. f_equal. rewrite Zminus_mod_idemp_r.
      replace (8 - (9 - ju_number)) with (ju_number - 1) by lia. done.
  - intros cal b (yg & mz & dg & hz & Hyg & Hmz & Hdg & Hhz & Hp)%fly_pan_rotated.
    pose proof (PalaceFacts.fly_start_gong_range yg mz dg hz) as Hs.
    destruct (rotated_zhi_fu_yang (_calculate_fly_start_gong yg mz dg hz - 1))
      as (zf & Hzf & Hg & Hm & Hx & Hn & Hl); [lia|].
    exists zf, yg, mz, dg, hz. unfold find_zhi_fu. rewrite Hp.
    repeat (split; [done|]). split; [|done].
    rewrite Hn. f_equal. clear.
    unfold _calculate_fly_start_gong. case_bool_decide as H0.
    + rewrite <- (Z.sub_0_l (_ - 1)).
      replace (0 - ((yg + mz + dg + hz) mod 9 - 1))
        with (1 - (yg + mz + dg + hz) mod 9) by lia.
      by rewrite Zminus_mod_idemp_r.
    + assert (Hz : (yg + mz + dg + hz) mod 9 = 0)
        by (destruct (decide ((yg + mz + dg + hz) mod 9 = 0)); [done|by destruct H0]).
      rewrite <- (Zminus_mod_idemp_r 1 (yg + mz + dg + hz)), Hz. done.
Qed.

(** The board with the given palaces, for properties of the palaces alone. *)
Local Abbreviation board_of ps :=
  {| ju_number := 0; is_yang := true; ju_name := ""; palaces := ps;
     calendar_info := None; mode := "" |}.

Ltac eval_some t :=
  let v := eval vm_compute in t in
  lazymatch v with
  | Some ?x => exists x; split; [vm_compute; reflexivity|]
  end.

(** X14.  On every computed board [get_zhi_fu_influence_analysis] returns
    (no palace it looks up is missing) one line for each palace adjacent
    to the palace of 直符, followed by the special patterns; and the
    special patterns are never the same-palace ones (直符 with one of the
    three wonders 乙 丙 丁, or with 开门): only the centre-palace pattern and
    the neighbour pattern of 乙 can be reported. *)
Theorem same_palace_patterns_never_reported :
  (∀ ju_number is_yang,
     ∃ nine_palace,
       _calculate_turn_pan JIU_GONG GONG_POSITION BAGUA_GONG ju_number is_yang
       = Some nine_palace
       ∧ ∃ zhi_fu,
           find_zhi_fu nine_palace = Some zhi_fu
           ∧ _check_zhi_fu_special_patterns nine_palace zhi_fu
             ⊆ ["值符居中宫：统领全局，权威显著"; "值符与乙奇相邻：奇仪呼应，吉祥有应"]
           ∧ ∃ lines,
               get_zhi_fu_influence_analysis nine_palace = Some lines
               ∧ length lines
                 = (length (_get_adjacent_gongs (gong_num zhi_fu))
                    + length (_check_zhi_fu_special_patterns
                                nine_palace zhi_fu))%nat)
  ∧ (∀ cal nine_palace,
       fly_pan JIU_GONG GONG_POSITION BAGUA_GONG cal = Some nine_palace →
       ∃ zhi_fu,
         find_zhi_fu nine_palace = Some zhi_fu
         ∧ _check_zhi_fu_special_patterns nine_palace zhi_fu
           ⊆ ["值符居中宫：统领全局，权威显著"; "值符与乙奇相邻：奇仪呼应，吉祥有应"]
         ∧ ∃ lines,
             get_zhi_fu_influence_analysis nine_palace = Some lines
             ∧ length lines
               = (length (_get_adjacent_gongs (gong_num zhi_fu))
                  + length (_check_zhi_fu_special_patterns
                              nine_palace zhi_fu))%nat).
Proof.
  apply (computed_boards_ind
           (λ ps,
              ∃ zhi_fu,
                find_zhi_fu (board_of ps) = Some zhi_fu
                ∧ _check_zhi_fu_special_patterns (board_of ps) zhi_fu
                  ⊆ ["值符居中宫：统领全局，权威显著";
                     "值符与乙奇相邻：奇仪呼应，吉祥有应"]
                ∧ ∃ lines,
                    get_zhi_fu_influence_analysis (board_of ps) = Some lines
                    ∧ length lines
                      = (length (_get_adjacent_gongs (gong_num zhi_fu))
                         + length (_check_zhi_fu_special_patterns (board_of ps)
                                     zhi_fu))%nat));
    intros k Hk; PalaceFacts.nine_cases k 0;
    (lazymatch goal with
     | |- ∃ zf, ?f = Some zf ∧ _ => eval_some f
     end;
     split; [apply (bool_decide_unpack _); vm_compute; reflexivity|];
     lazymatch goal with
     | |- ∃ lines, ?f = Some lines ∧ _ => eval_some f
     end;
     vm_compute; reflexivity).
Qed.

Lemma lookup_of_item {K V : Type} `{EqDecision K} (d : PyDict.dict K V) (k : K) (v : V) :
  NoDup (PyDict.keys d) → (k, v) ∈ d → PyDict.lookup d k = Some v.
Proof.
  unfold PyDict.keys. induction d as [|[k' v'] r IH]; simpl.
  - by intros _ ?%elem_of_nil.
  - intros [Hk' Hr]%NoDup_cons [Heq|Hin]%elem_of_cons.
    + injection Heq as -> ->. by rewrite decide_True.
    + case_decide as Hk; [|by apply IH]. subst k'.
      destruct Hk'. apply list_elem_of_fmap. by exists (k, v).
Qed.

Lemma find_zhishi_gong_found (nine_palace : NinePalace) (zhishi_men : string) :
  NoDup (PyDict.keys (palaces nine_palace)) →
  zhishi_men ∈ men <$> PyDict.values (palaces nine_palace) →
  ∃ gong_str palace_info,
    ZhiShi.find_zhishi_gong nine_palace zhishi_men
    = (Some gong_str, Some palace_info)
    ∧ men palace_info = zhishi_men
    ∧ PyDict.lookup (palaces nine_palace) gong_str = Some palace_info.
Proof.
  intros Hnd Hin. unfold ZhiShi.find_zhishi_gong.
  destruct (List.find _ (palaces nine_palace)) as [[g p]|] eqn:Hfind.
  - apply find_some in Hfind as [Hitem Hmen].
    apply bool_decide_eq_true in Hmen. simpl in Hmen.
    exists g, p. split; [done|]. split; [done|].
    apply lookup_of_item; [done|]. by apply list_elem_of_In.
  - exfalso. unfold PyDict.values in Hin.
    apply list_elem_of_fmap in Hin as (p & -> & Hp).
    apply list_elem_of_fmap in Hp as ([g p'] & -> & Hitem).
    apply list_elem_of_In in Hitem.
    pose proof (find_none _ _ Hfind _ Hitem) as Hno.
    apply bool_decide_eq_false in Hno. by destruct Hno.
Qed.

Lemma find_zhishi_gong_absent (nine_palace : NinePalace) (zhishi_men : string) :
  zhishi_men ∉ men <$> PyDict.values (palaces nine_palace) →
  ZhiShi.find_zhishi_gong nine_palace zhishi_men = (None, None).
Proof.
  intros Hnot. unfold ZhiShi.find_zhishi_gong.
  destruct (List.find _ (palaces nine_palace)) as [[g p]|] eqn:Hfind; [|done].
  apply find_some in Hfind as [Hitem Hmen].
  apply bool_decide_eq_true in Hmen. simpl in Hmen.
  destruct Hnot. unfold PyDict.values. rewrite <- Hmen.
  apply list_elem_of_fmap. exists p. split; [done|].
  apply list_elem_of_fmap. exists (g, p). split; [done|]. by apply list_elem_of_In.
Qed.

(** The gate of a double hour is one of the eight gates other than 中门;
    any other key gives the placeholder, which is no gate. *)
Lemma calculate_zhishi_by_time_cases (hour_zhi : string) :
  (hour_zhi ∈ DI_ZHI
   → ZhiShi.calculate_zhishi_by_time hour_zhi ∈ men_sequence
     ∧ ZhiShi.calculate_zhishi_by_time hour_zhi ≠ "中门")
  ∧ (hour_zhi ∉ DI_ZHI
     → ZhiShi.calculate_zhishi_by_time hour_zhi = "未知"
       ∧ ZhiShi.calculate_zhishi_by_time hour_zhi ∉ men_sequence).
Proof.
  split.
  - intros Hin. unfold DI_ZHI in Hin.
    repeat (apply elem_of_cons in Hin as [->|Hin];
            [split; [apply (bool_decide_unpack _); vm_compute; reflexivity
                    |vm_compute; discriminate]|]).
    by apply elem_of_nil in Hin.
  - intros Hnot.
    assert (Hget : ZhiShi.calculate_zhishi_by_time hour_zhi = "未知").
    { unfold ZhiShi.calculate_zhishi_by_time, PyDict.get, ZhiShi.MEN_DIZHI_MAP.
      cbn [PyDict.lookup].
      repeat (case_decide;
              [subst hour_zhi; destruct Hnot;
               apply (bool_decide_unpack _); vm_compute; reflexivity|]).
      reflexivity. }
    rewrite Hget. split; [done|].
    apply (bool_decide_unpack _). vm_compute. reflexivity.
Qed.

Lemma zhishi_on_assigned_board (nine_palace : NinePalace) (hour_zhi : string) :
  assigns_each_value_once nine_palace →
  (hour_zhi ∈ DI_ZHI →
   ∃ gong_str palace_info,
     ZhiShi.find_zhishi_gong nine_palace (ZhiShi.calculate_zhishi_by_time hour_zhi)
     = (Some gong_str, Some palace_info)
     ∧ men palace_info = ZhiShi.calculate_zhishi_by_time hour_zhi
     ∧ men palace_info ≠ "中门"
     ∧ PyDict.lookup (palaces nine_palace) gong_str = Some palace_info)
  ∧ (hour_zhi ∉ DI_ZHI →
     ZhiShi.find_zhishi_gong nine_palace (ZhiShi.calculate_zhishi_by_time hour_zhi)
     = (None, None)).
Proof.
  intros (Hkeys & _ & [Hmen _] & _).
  destruct (calculate_zhishi_by_time_cases hour_zhi) as [Hin Hout]. split.
  - intros [Hseq Hne]%Hin.
    destruct (find_zhishi_gong_found nine_palace
                (ZhiShi.calculate_zhishi_by_time hour_zhi))
      as (g & p & Hfind & Hp & Hl).
    + rewrite Hkeys. apply (bool_decide_unpack _). vm_compute. reflexivity.
    + by rewrite Hmen.
    + exists g, p. rewrite Hp. done.
  - intros [_ Hseq]%Hout. apply find_zhishi_gong_absent. by rewrite Hmen.
Qed.

(** X15.  The gate on duty of each of the twelve double hours is found on
    every computed board: [find_zhishi_gong] returns the key of a palace and
    that palace, the palace holds the gate that [calculate_zhishi_by_time]
    gave, and that gate is never 中门.  For any other hour key the
    placeholder gate is looked for and (None, None) is returned. *)
Theorem zhishi_gate_is_on_every_computed_board :
  (∀ ju_number is_yang,
     ∃ nine_palace,
       _calculate_turn_pan JIU_GONG GONG_POSITION BAGUA_GONG ju_number is_yang
       = Some nine_palace
       ∧ ∀ hour_zhi,
           (hour_zhi ∈ DI_ZHI →
            ∃ gong_str palace_info,
              ZhiShi.find_zhishi_gong nine_palace
                (ZhiShi.calculate_zhishi_by_time hour_zhi)
              = (Some gong_str, Some palace_info)
              ∧ men palace_info = ZhiShi.calculate_zhishi_by_time hour_zhi
              ∧ men palace_info ≠ "中门"
              ∧ PyDict.lookup (palaces nine_palace) gong_str = Some palace_info)
           ∧ (hour_zhi ∉ DI_ZHI →
              ZhiShi.find_zhishi_gong nine_palace
                (ZhiShi.calculate_zhishi_by_time hour_zhi)
              = (None, None)))
  ∧ (∀ cal nine_palace,
       fly_pan JIU_GONG GONG_POSITION BAGUA_GONG cal = Some nine_palace →
       ∀ hour_zhi,
         (hour_zhi ∈ DI_ZHI →
          ∃ gong_str palace_info,
            ZhiShi.find_zhishi_gong nine_palace
              (ZhiShi.calculate_zhishi_by_time hour_zhi)
            = (Some gong_str, Some palace_info)
            ∧ men palace_info = ZhiShi.calculate_zhishi_by_time hour_zhi
            ∧ men palace_info ≠ "中门"
            ∧ PyDict.lookup (palaces nine_palace) gong_str = Some palace_info)
         ∧ (hour_zhi ∉ DI_ZHI →
            ZhiShi.find_zhishi_gong nine_palace
              (ZhiShi.calculate_zhishi_by_time hour_zhi)
            = (None, None))).
Proof.
  split.
  - intros ju_number is_yang.
    destruct (PalaceFacts.turn_pan_assigns JIU_GONG GONG_POSITION BAGUA_GONG
                ju_number is_yang) as (b & Hb & Hassigns).
    exists b. split; [done|]. intros hour_zhi.
    by apply zhishi_on_assigned_board.
  - intros cal b (_ & _ & Hassigns)%PalaceFacts.fly_pan_inv hour_zhi.
    by apply zhishi_on_assigned_board.
Qed.

End tables.

End PalaceLaws.

(** ** The data-driven turn-plate (palace.py) *)

Module PalaceDataLaws.
Import Symbols Palace.

Section tables.
Variables JIU_GONG GONG_POSITION BAGUA_GONG : Z → string.

Ltac copied_field H g :=
  first [ exact (H g "gan" I I) | exact (H g "men" I I)
        | exact (H g "xing" I I) | exact (H g "shen" I I) ].

(** X16.  [turn_pan] looks the chart name up in the reference data.  With
    no entry under that name (as with the default data, which has none) it
    returns what [_calculate_turn_pan] returns.  With an entry it does not
    rotate anything: it raises when the entry has no ["palaces"], and
    otherwise copies the four fields of each palace number from the entry,
    an empty string standing for a missing palace or field, so that
    [validate_palace] accepts the board exactly when all thirty-six fields
    are present and not empty. *)
Theorem turn_pan_copies_reference_data (palace_data : PalaceData)
    (ju_number : Z) (is_yang : bool) :
  turn_pan JIU_GONG GONG_POSITION BAGUA_GONG _get_default_palace_data
    ju_number is_yang
  = _calculate_turn_pan JIU_GONG GONG_POSITION BAGUA_GONG ju_number is_yang
  ∧ match PyDict.lookup (default [] (data_palaces palace_data))
            (Ju.get_ju_name ju_number is_yang) with
    | None =>
        turn_pan JIU_GONG GONG_POSITION BAGUA_GONG palace_data ju_number is_yang
        = _calculate_turn_pan JIU_GONG GONG_POSITION BAGUA_GONG ju_number is_yang
    | Some base_palace =>
        match base_palaces base_palace with
        | None =>
            turn_pan JIU_GONG GONG_POSITION BAGUA_GONG palace_data ju_number is_yang
            = None
        | Some base_palace_palaces =>
            ∃ nine_palace,
              turn_pan JIU_GONG GONG_POSITION BAGUA_GONG palace_data
                ju_number is_yang = Some nine_palace
              ∧ Palace.ju_number nine_palace = ju_number
              ∧ Palace.is_yang nine_palace = is_yang
              ∧ palaces nine_palace
                = (λ gong_num,
                     let base_info :=
                       PyDict.get base_palace_palaces (str_of_int gong_num) [] in
                     (str_of_int gong_num,
                      {| gong_num := gong_num;
                         gong_name := JIU_GONG gong_num;
                         position := GONG_POSITION gong_num;
                         bagua := BAGUA_GONG gong_num;
                         gan := PyDict.get base_info "gan" "";
                         men := PyDict.get base_info "men" "";
                         xing := PyDict.get base_info "xing" "";
                         shen := PyDict.get base_info "shen" "";
                         wu_xing := _get_gong_wu_xing gong_num |}))
                  <$> PyList.range 1 10
              ∧ (validate_palace nine_palace = true
                 ↔ ∀ gong_num field,
                     gong_num ∈ PyList.range 1 10 →
                     field ∈ ["gan"; "men"; "xing"; "shen"] →
                     PyDict.get
                       (PyDict.get base_palace_palaces (str_of_int gong_num) [])
                       field "" ≠ "")
        end
    end.
Proof.
  split; [reflexivity|].
  unfold turn_pan, Ju.get_ju_name. cbv zeta.
  destruct (PyDict.lookup _ _) as [base_palace|]; [|reflexivity].
  destruct (base_palaces base_palace) as [pp|]; [|reflexivity].
  cbn [mbind option_bind].
  lazymatch goal with
  | |- ∃ b, _ = Some b ∧ _ ∧ _ ∧ palaces b = ?c ∧ _ =>
      lazymatch goal with
      | |- context [for_each ?l ?f ?s] =>
          assert (Hloop : for_each l f s = Some c) by (vm_compute; reflexivity);
          rewrite Hloop
      end
  end.
  cbn [mbind option_bind]. eexists. split; [reflexivity|].
  split; [reflexivity|]. split; [reflexivity|]. split; [reflexivity|].
  unfold validate_palace. cbn [palaces].
  case_bool_decide as Hlen; [exfalso; apply Hlen; vm_compute; reflexivity|].
  clear Hloop Hlen.
  change (PyList.range 1 10) with [1; 2; 3; 4; 5; 6; 7; 8; 9].
  cbv zeta.
  cbn [PyDict.values fmap list_fmap snd forallb gan men xing shen].
  rewrite !andb_true_iff, !bool_decide_eq_true.
  split.
  - intros H gong_num field Hg Hf.
    repeat (apply elem_of_cons in Hg as [->|Hg]);
      try (by apply elem_of_nil in Hg);
      (repeat (apply elem_of_cons in Hf as [->|Hf]);
       try (by apply elem_of_nil in Hf));
      tauto.
  - intros H.
    pose proof (λ g f Hg Hf, H g f (bool_decide_unpack _ Hg) (bool_decide_unpack _ Hf))
      as H'.
    repeat split;
      first [ copied_field H' 1 | copied_field H' 2 | copied_field H' 3
            | copied_field H' 4 | copied_field H' 5 | copied_field H' 6
            | copied_field H' 7 | copied_field H' 8 | copied_field H' 9 ].
Qed.

End tables.

End PalaceDataLaws.

(** ** Validation of the chart number (ju.py) *)

Module JuLaws.
Import Symbols Calendar Ju.

Lemma validate_ju_iff (ju_number : Z) (is_yang : bool) (cal : CalendarInfo) :
  validate_ju ju_number is_yang cal = true
  ↔ 1 <= ju_number <= 9 ∧ is_yang = is_yang_dune cal.
Proof.
  unfold validate_ju.
  case_bool_decide as Hrange; cbn [negb]; [|split; [done|tauto]].
  case_bool_decide as Hyang; cbn [negb]; [|split; [done|tauto]].
  destruct (get_seasonal_ju_range (month cal)) as [min_ju max_ju].
  by destruct (negb _).
Qed.

Lemma get_ju_chabu_range (cal : CalendarInfo) : 1 <= (get_ju_chabu cal).1 <= 9.
Proof.
  unfold get_ju_chabu, calculate_ju_number_chabu. cbn [fst].
  destruct (is_yang_dune cal).
  - pose proof (JuFacts.mod9_range
                  (yuan_shou cal + get_shi_chen_number (hour_zhi cal) - 1)).
    case_decide; lia.
  - pose proof (JuFacts.mod9_range
                  (yuan_shou cal - get_shi_chen_number (hour_zhi cal) + 1)).
    case_decide; lia.
Qed.

(** X17.  [validate_ju] accepts exactly the chart numbers 1..9 whose
    polarity is the one [is_yang_dune] gives for the record: the seasonal
    range that it computes last never rejects anything.  So it accepts,
    for every record and in both modes, what [get_ju] returns. *)
Theorem validate_ju_accepts_get_ju :
  (∀ ju_number is_yang cal,
     validate_ju ju_number is_yang cal = true
     ↔ 1 <= ju_number <= 9 ∧ is_yang = is_yang_dune cal)
  ∧ (∀ cal mode ju_number is_yang,
       get_ju cal mode = Some (ju_number, is_yang)
       → validate_ju ju_number is_yang cal = true).
Proof.
  split; [apply validate_ju_iff|].
  intros cal mode ju_number is_yang. unfold get_ju.
  rewrite validate_ju_iff. case_decide as Hmode.
  - intros [= <- <-]. split; [apply get_ju_chabu_range|done].
  - unfold get_ju_huopan.
    destruct (calculate_ju_index_huopan cal (is_yang_dune cal)) as [ju_index|];
      [|done].
    cbn [mbind option_bind]. intros [= <- <-]. split; [|done].
    pose proof (JuFacts.mod9_range ju_index). lia.
Qed.

Example validate_ju_out_of_season :
  get_seasonal_ju_range (month (Samples.cal_2025 22)) = (1, 3)
  ∧ validate_ju 7 false (Samples.cal_2025 22) = true
  ∧ validate_ju 7 true (Samples.cal_2025 22) = false
  ∧ validate_ju 10 false (Samples.cal_2025 22) = false.
Proof. vm_compute. done. Qed.

End JuLaws.

(** ** The sexagenary cycle (ganzhi.py) *)

Module GanZhiLaws.
Import Symbols Datetime GanZhi.

Lemma pillar_eq (i1 j1 i2 j2 : Z) :
  (gan ← PyList.getitem TIAN_GAN (i1 mod 10);
   zhi ← PyList.getitem DI_ZHI (j1 mod 12);
   Some (gan, zhi))
  = (gan ← PyList.getitem TIAN_GAN (i2 mod 10);
     zhi ← PyList.getitem DI_ZHI (j2 mod 12);
     Some (gan, zhi))
  ↔ i1 mod 10 = i2 mod 10 ∧ j1 mod 12 = j2 mod 12.
Proof.
  split; [|by intros [-> ->]].
  destruct (GanZhiFacts.TIAN_GAN_getitem_mod i1) as [g1 Hg1].
  destruct (GanZhiFacts.TIAN_GAN_getitem_mod i2) as [g2 Hg2].
  destruct (GanZhiFacts.DI_ZHI_getitem_mod j1) as [z1 Hz1].
  destruct (GanZhiFacts.DI_ZHI_getitem_mod j2) as [z2 Hz2].
  rewrite Hg1, Hg2, Hz1, Hz2. cbn [mbind option_bind]. intros [= -> ->].
  apply GanZhiFacts.TIAN_GAN_getitem in Hg1, Hg2.
  apply GanZhiFacts.DI_ZHI_getitem in Hz1, Hz2.
  rewrite Hg1 in Hg2. rewrite Hz1 in Hz2.
  injection Hg2 as Hg. injection Hz2 as Hz.
  rewrite !Z.mod_mod in Hg, Hz by lia. done.
Qed.

Lemma sixty_iff (a b : Z) :
  a mod 10 = b mod 10 ∧ a mod 12 = b mod 12 ↔ (a - b) mod 60 = 0.
Proof. Z.div_mod_to_equations. lia. Qed.

Lemma year_ganzhi_eq_iff (year1 year2 : Z) :
  calculate_year_ganzhi year1 = calculate_year_ganzhi year2
  ↔ (year1 - year2) mod 60 = 0.
Proof.
  unfold calculate_year_ganzhi. cbv zeta.
  rewrite pillar_eq, sixty_iff.
  by replace (year1 - 1984 - (year2 - 1984)) with (year1 - year2) by lia.
Qed.

Lemma day_ganzhi_eq_iff (dt1 dt2 : datetime) :
  calculate_day_ganzhi dt1 = calculate_day_ganzhi dt2
  ↔ (toordinal dt1 - toordinal dt2) mod 60 = 0.
Proof.
  unfold calculate_day_ganzhi. cbv zeta.
  assert (Hstrip : ∀ dt,
            toordinal (if tzinfo dt is Some _ then replace_tzinfo_none dt else dt)
            = toordinal dt) by (intros dt; by destruct (tzinfo dt)).
  rewrite !Hstrip, pillar_eq.
  set (d1 := toordinal dt1 - ymd2ord 1900 1 1).
  set (d2 := toordinal dt2 - ymd2ord 1900 1 1).
  replace (toordinal dt1 - toordinal dt2) with (d1 - d2) by (subst d1 d2; lia).
  rewrite <- sixty_iff. clearbody d1 d2. Z.div_mod_to_equations. lia.
Qed.

(** X18.  The year pillar and the day pillar repeat with period sixty and
    no shorter: two years have the same pillar exactly when they differ by
    a multiple of 60, and two timestamps have the same day pillar exactly
    when their dates differ by a multiple of 60 days (the time of day and
    the zone play no part).  The cycles are anchored at the year 1984 (甲子)
    and at 1900-01-01 (甲戌). *)
Theorem pillars_have_period_sixty :
  (∀ year1 year2,
     calculate_year_ganzhi year1 = calculate_year_ganzhi year2
     ↔ (year1 - year2) mod 60 = 0)
  ∧ (∀ dt1 dt2,
       calculate_day_ganzhi dt1 = calculate_day_ganzhi dt2
       ↔ (toordinal dt1 - toordinal dt2) mod 60 = 0)
  ∧ calculate_year_ganzhi 1984 = Some ("甲", "子")
  ∧ calculate_day_ganzhi (mk 1900 1 1 0 0 0 0 None) = Some ("甲", "戌").
Proof.
  split; [apply year_ganzhi_eq_iff|].
  split; [apply day_ganzhi_eq_iff|].
  split; vm_compute; reflexivity.
Qed.

(** The parity test of [same_parity], as a computation. *)
Lemma same_parity_iff (gan zhi : string) :
  same_parity gan zhi
  ↔ match PyList.index TIAN_GAN gan, PyList.index DI_ZHI zhi with
    | Some gan_index, Some zhi_index => gan_index mod 2 = zhi_index mod 2
    | _, _ => False
    end.
Proof.
  unfold same_parity. split.
  - by intros (gi & zi & -> & -> & ?).
  - destruct (PyList.index TIAN_GAN gan) as [gi|]; [|done].
    destruct (PyList.index DI_ZHI zhi) as [zi|]; [|done]. eauto.
Qed.

Lemma index_Some_elem {A} `{EqDecision A} (l : list A) (x : A) (i : Z) :
  PyList.index l x = Some i → x ∈ l.
Proof.
  revert i. induction l as [|y r IH]; intros i; simpl; [done|].
  case_decide as Hxy; [subst; left|].
  destruct (PyList.index r x) as [j|]; [|done]. intros _. right. by eapply IH.
Qed.

Lemma nayin_known_iff (gan zhi : string) :
  get_nayin gan zhi ≠ "未知纳音" ↔ same_parity gan zhi.
Proof.
  rewrite same_parity_iff. split.
  - intros Hknown.
    destruct (PyDict.lookup nayin_table (gan, zhi)) as [name|] eqn:Hlook.
    + clear Hknown. unfold nayin_table in Hlook. cbn [PyDict.lookup] in Hlook.
      repeat (case_decide as Heq;
              [injection Heq as -> ->; vm_compute; reflexivity|clear Heq]).
      done.
    + destruct Hknown. unfold get_nayin, PyDict.get. by rewrite Hlook.
  - destruct (PyList.index TIAN_GAN gan) as [gi|] eqn:Hgi; [|done].
    destruct (PyList.index DI_ZHI zhi) as [zi|] eqn:Hzi; [|done].
    pose proof (index_Some_elem _ _ _ Hgi) as Hgan.
    pose proof (index_Some_elem _ _ _ Hzi) as Hzhi.
    unfold TIAN_GAN in Hgan. unfold DI_ZHI in Hzhi.
    repeat (apply elem_of_cons in Hgan as [->|Hgan]);
      try (by apply elem_of_nil in Hgan);
      (repeat (apply elem_of_cons in Hzhi as [->|Hzhi]);
       try (by apply elem_of_nil in Hzhi));
      vm_compute in Hgi, Hzi; injection Hgi as <-; injection Hzi as <-;
      first [ (intros _; vm_compute; discriminate)
            | (intros Hpar; vm_compute in Hpar; discriminate) ].
Qed.

Lemma nayin_pairs (k : Z) :
  (λ '(gan, zhi), get_nayin gan zhi) <$> calculate_year_ganzhi (1984 + 2 * k)
  = (λ '(gan, zhi), get_nayin gan zhi) <$> calculate_year_ganzhi (1984 + 2 * k + 1).
Proof.
  assert (H1 : calculate_year_ganzhi (1984 + 2 * k)
               = calculate_year_ganzhi (1984 + 2 * (k mod 30)))
    by (apply year_ganzhi_eq_iff; Z.div_mod_to_equations; lia).
  assert (H2 : calculate_year_ganzhi (1984 + 2 * k + 1)
               = calculate_year_ganzhi (1984 + 2 * (k mod 30) + 1))
    by (apply year_ganzhi_eq_iff; Z.div_mod_to_equations; lia).
  rewrite H1, H2.
  pose proof (Z.mod_pos_bound k 30 ltac:(lia)) as Hr.
  set (r := k mod 30) in *. clearbody r. clear H1 H2.
  GanZhiFacts.cases_from r 0 30%nat ltac:(vm_compute; reflexivity).
Qed.

(** X19.  [get_nayin] knows a (stem, branch) pair exactly when the indices
    of the stem and of the branch have the same parity: these are the sixty
    pairs of the cycle, so the placeholder is never returned for a pillar
    that the engine computed (year, day, or any of the four pillars of a
    calendar record).  The two years of a pair (an even offset from 1984
    and the year after) have the same nayin. *)
Theorem nayin_known_for_every_pillar :
  (∀ gan zhi, get_nayin gan zhi ≠ "未知纳音" ↔ same_parity gan zhi)
  ∧ (∀ year,
       ∃ gan zhi,
         calculate_year_ganzhi year = Some (gan, zhi)
         ∧ get_nayin gan zhi ≠ "未知纳音")
  ∧ (∀ dt,
       ∃ gan zhi,
         calculate_day_ganzhi dt = Some (gan, zhi)
         ∧ get_nayin gan zhi ≠ "未知纳音")
  ∧ (∀ SHI_CHEN pytz_timezone config get_current_solar_term get_true_solar_time
       ts tz cal,
       Calendar.from_datetime SHI_CHEN pytz_timezone config
         get_current_solar_term get_true_solar_time ts tz = Some cal
       → get_nayin (Calendar.year_gan cal) (Calendar.year_zhi cal) ≠ "未知纳音"
         ∧ get_nayin (Calendar.month_gan cal) (Calendar.month_zhi cal) ≠ "未知纳音"
         ∧ get_nayin (Calendar.day_gan cal) (Calendar.day_zhi cal) ≠ "未知纳音"
         ∧ get_nayin (Calendar.hour_gan cal) (Calendar.hour_zhi cal) ≠ "未知纳音")
  ∧ (∀ k,
       (λ '(gan, zhi), get_nayin gan zhi) <$> calculate_year_ganzhi (1984 + 2 * k)
       = (λ '(gan, zhi), get_nayin gan zhi)
           <$> calculate_year_ganzhi (1984 + 2 * k + 1)).
Proof.
  split; [apply nayin_known_iff|].
  split.
  { intros year.
    destruct (GanZhiFacts.year_ganzhi_same_parity year) as (gan & zhi & H & Hp).
    exists gan, zhi. by rewrite nayin_known_iff. }
  split.
  { intros dt.
    destruct (GanZhiFacts.day_ganzhi_same_parity dt) as (gan & zhi & H & Hp).
    exists gan, zhi. by rewrite nayin_known_iff. }
  split; [|apply nayin_pairs].
  intros SHI_CHEN pytz_timezone config get_current_solar_term get_true_solar_time
    ts tz cal Hcal.
  rewrite !nayin_known_iff.
  by eapply CalendarFacts.from_datetime_pillars.
Qed.

Example nayin_of_2025 :
  (λ '(gan, zhi), get_nayin gan zhi) <$> calculate_year_ganzhi 2025
  = Some "覆灯火"
  ∧ get_nayin "甲" "丑" = "未知纳音".
Proof. vm_compute. done. Qed.

End GanZhiLaws.

(** ** Invariants of the calendar record (qimen_calendar.py) *)

Module CalendarLaws.
Import Symbols Datetime GanZhi Calendar.

Lemma days_in_month_le (year month : Z) : days_in_month year month <= 31.
Proof.
  assert (H : ∀ n, default 0 (DAYS_IN_MONTH !! n) <= 31).
  { intros n. unfold DAYS_IN_MONTH.
    do 13 (destruct n as [|n]; [simpl; lia|]). simpl. lia. }
  unfold days_in_month. destruct (_ && _); [lia|].
  unfold PyList.getitem. repeat case_decide; try apply H. simpl. lia.
Qed.

Lemma get_yuan_shou_range (day : Z) (solar_term : string) (year month : Z) :
  1 <= day <= 31 →
  1 <= get_yuan_shou day (get_jie_qi_day year month solar_term) <= 6.
Proof.
  intros Hday. unfold get_yuan_shou, get_jie_qi_day.
  destruct (PyList.contains _ _); case_bool_decide;
    Z.div_mod_to_equations; lia.
Qed.

(** [shi_chen_list[i]] of [calculate_shi_chen] is [DI_ZHI[i]] followed by 时. *)
Lemma shi_chen_list_getitem (i : Z) :
  PyList.getitem
    ["子时"; "丑时"; "寅时"; "卯时"; "辰时"; "巳时";
     "午时"; "未时"; "申时"; "酉时"; "戌时"; "亥时"] i
  = (λ zhi, (zhi ++ "时")%string) <$> PyList.getitem DI_ZHI i.
Proof.
  assert (H : ∀ n,
            ["子时"; "丑时"; "寅时"; "卯时"; "辰时"; "巳时";
             "午时"; "未时"; "申时"; "酉时"; "戌时"; "亥时"] !! n
            = (λ zhi, (zhi ++ "时")%string) <$> DI_ZHI !! n).
  { intros n. unfold DI_ZHI.
    do 12 (destruct n as [|n]; [reflexivity|]). reflexivity. }
  unfold PyList.getitem. change (length DI_ZHI) with 12%nat. cbn [length].
  repeat case_decide; rewrite ?H; done.
Qed.

Section assembler.
Variable SHI_CHEN : list string.
Variable pytz_timezone : string → option Z.
Variable config : Config.
Variable get_current_solar_term : datetime → string * Z * datetime.
Variable get_true_solar_time : datetime → float → datetime.

Local Abbreviation from_datetime :=
  (Calendar.from_datetime SHI_CHEN pytz_timezone config get_current_solar_term
     get_true_solar_time).

(** What a record that [from_datetime] built says about the wall-clock
    value [dt] (the argument, converted to the zone when it was aware) and
    about the value [calc_dt] that the pillars are computed from. *)
Lemma from_datetime_inv (ts : datetime) (tz : string) (cal : CalendarInfo) :
  from_datetime ts tz = Some cal →
  ∃ dt calc_dt standard_zhi,
    match tzinfo ts with
    | Some off =>
        ∃ target dt', pytz_timezone tz = Some target
                      ∧ astimezone ts off target = Some dt'
                      ∧ dt = replace_tzinfo_none dt'
    | None => dt = ts
    end
    ∧ calc_dt = (if cfg_use_true_solar_time config
                 then get_true_solar_time dt (cfg_longitude config) else dt)
    ∧ (year cal, month cal, day cal, hour cal, minute cal, second cal)
      = (Datetime.year dt, Datetime.month dt, Datetime.day dt,
         Datetime.hour dt, Datetime.minute dt, Datetime.second dt)
    ∧ timezone cal = tz
    ∧ use_true_solar_time cal = cfg_use_true_solar_time config
    ∧ true_solar_time cal
      = (if cfg_use_true_solar_time config
         then Some (strftime_HMS calc_dt) else None)
    ∧ PyList.getitem DI_ZHI
        (if bool_decide (Datetime.hour dt ≠ 23) then (Datetime.hour dt + 1) / 2 else 0)
      = Some standard_zhi
    ∧ standard_time_shi_chen cal = (standard_zhi ++ "时")%string
    ∧ PyList.getitem DI_ZHI
        (if bool_decide (Datetime.hour calc_dt = 23) then 0
         else (Datetime.hour calc_dt + 1) / 2)
      = Some (hour_zhi cal)
    ∧ get_shi_chen SHI_CHEN (Datetime.hour calc_dt) = Some (shi_chen cal)
    ∧ is_early_zi cal
      = bool_decide (Datetime.hour calc_dt = 0)
        && bool_decide (Datetime.minute calc_dt < 30)
    ∧ is_late_zi cal
      = bool_decide (Datetime.hour calc_dt = 23)
        && bool_decide (Datetime.minute calc_dt >= 30)
    ∧ (if decide (cfg_solar_term_algorithm config = "astronomical")
       then (solar_term cal, solar_term_index cal)
            = (get_current_solar_term calc_dt).1
            ∧ jie_qi_day cal = Datetime.day (get_current_solar_term calc_dt).2
            ∧ yuan_shou cal
              = Z.min
                  (Z.max
                     ((if ge calc_dt (get_current_solar_term calc_dt).2
                       then td_days (sub calc_dt (get_current_solar_term calc_dt).2)
                       else 0) / 5 + 1) 1) 6
       else valid (mk (Datetime.year calc_dt) (Datetime.month calc_dt)
                      (Datetime.day calc_dt) 0 0 0 0 None)
            ∧ jie_qi_day cal
              = get_jie_qi_day (Datetime.year calc_dt) (Datetime.month calc_dt)
                  (solar_term cal)
            ∧ yuan_shou cal = get_yuan_shou (Datetime.day calc_dt) (jie_qi_day cal)).
Proof.
  unfold Calendar.from_datetime. cbv zeta.
  destruct (match tzinfo ts with Some _ => _ | None => _ end) as [dt|] eqn:Hdt;
    [|by cbn [mbind option_bind]].
  cbn [mbind option_bind].
  assert (Hconv : match tzinfo ts with
                  | Some off =>
                      ∃ target dt', pytz_timezone tz = Some target
                                    ∧ astimezone ts off target = Some dt'
                                    ∧ dt = replace_tzinfo_none dt'
                  | None => dt = ts
                  end).
  { destruct (tzinfo ts) as [off|]; [|by injection Hdt].
    apply bind_Some in Hdt as (target & Hzone & Hdt).
    apply fmap_Some in Hdt as (dt' & Hconv & ->). eauto. }
  clear Hdt.
  set (calc := if cfg_use_true_solar_time config
               then get_true_solar_time dt (cfg_longitude config) else dt).
  assert (Hcalc : (if cfg_use_true_solar_time config
                   then (get_true_solar_time dt (cfg_longitude config),
                         Some (get_true_solar_time dt (cfg_longitude config)),
                         (td_total_seconds
                            (sub dt (get_true_solar_time dt (cfg_longitude config)))
                          / 60)%float)
                   else (dt, None, 0%float))
                  = (calc,
                     if cfg_use_true_solar_time config then Some calc else None,
                     if cfg_use_true_solar_time config
                     then (td_total_seconds (sub dt calc) / 60)%float
                     else 0%float))
    by (subst calc; by destruct (cfg_use_true_solar_time config)).
  rewrite Hcalc. clear Hcalc. cbv beta iota.
  destruct (PyList.getitem DI_ZHI
              (if bool_decide (Datetime.hour dt ≠ 23) then _ else _))
    as [standard_zhi|] eqn:Hsz;
    [|by cbn [mbind option_bind]].
  cbn [mbind option_bind].
  destruct (calculate_year_ganzhi _) as [[yg yz]|]; [|by cbn [mbind option_bind]].
  cbn [mbind option_bind].
  destruct (calculate_month_ganzhi _ _ _) as [[mg mz]|];
    [|by cbn [mbind option_bind]].
  cbn [mbind option_bind].
  destruct (calculate_day_ganzhi _) as [[dg dz]|]; [|by cbn [mbind option_bind]].
  cbn [mbind option_bind]. cbv beta iota.
  destruct (PyList.getitem DI_ZHI
              (if bool_decide (Datetime.hour calc = 23) then 0
               else (Datetime.hour calc + 1) / 2)) as [hz|] eqn:Hhz;
    [|by cbn [mbind option_bind]].
  cbn [mbind option_bind].
  destruct (PyList.index TIAN_GAN dg) as [dgi|];
    [|by cbn [mbind option_bind]].
  cbn [mbind option_bind].
  destruct (PyList.getitem TIAN_GAN _) as [hg|] eqn:Hhg;
    [|by cbn [mbind option_bind]].
  cbn [mbind option_bind].
  destruct (get_shi_chen SHI_CHEN _) as [sc|] eqn:Hsc;
    [|by cbn [mbind option_bind]].
  cbn [mbind option_bind].
  destruct (if decide _ then _ else _) as [[[[st sti] jq] ys]|] eqn:Hterm;
    [|by cbn [mbind option_bind]].
  cbn [mbind option_bind]. cbv beta iota. intros [= <-].
  exists dt, calc, standard_zhi.
  cbn [year month day hour minute second timezone use_true_solar_time
       true_solar_time standard_time_shi_chen hour_zhi shi_chen is_early_zi
       is_late_zi solar_term solar_term_index jie_qi_day yuan_shou].
  repeat (split; [done|]).
  split; [by destruct (cfg_use_true_solar_time config)|].
  repeat (split; [done|]).
  case_decide as Halg.
  - destruct (get_current_solar_term calc) as [[st' sti'] stt].
    injection Hterm as <- <- <- <-. done.
  - unfold get_solar_term, Datetime.make in Hterm. cbv zeta in Hterm.
    case_decide as Hvalid; [|done]. cbn [mbind option_bind] in Hterm.
    destruct (get_current_solar_term _) as [[st' sti'] stt].
    cbn [mbind option_bind] in Hterm.
    injection Hterm as <- <- <- <-. done.
Qed.

(** X20.  Every record that [from_datetime] builds, whatever the solar-term
    algorithm, the zone and the true-solar-time setting: its [yuan_shou] is
    one of 1..6; its early and late 子 flags are never both set, and either
    one implies that the hour branch is 子; and [standard_time_shi_chen]
    is what [calculate_shi_chen] gives for the hour of the record. *)
Theorem record_invariants (ts : datetime) (tz : string) (cal : CalendarInfo) :
  from_datetime ts tz = Some cal →
  1 <= yuan_shou cal <= 6
  ∧ (is_early_zi cal && is_late_zi cal = false)
  ∧ (is_early_zi cal || is_late_zi cal = true → hour_zhi cal = "子")
  ∧ calculate_shi_chen (hour cal) = Some (standard_time_shi_chen cal).
Proof.
  intros (dt & calc_dt & sz & _ & _ & Hfields & _ & _ & _ & Hsz & Hstd & Hhz & _
          & -> & -> & Hterm)%from_datetime_inv.
  injection Hfields as _ _ _ Hhour _ _.
  split; [|split; [|split]].
  - case_decide.
    + destruct Hterm as (_ & _ & ->). lia.
    + destruct Hterm as ((_ & _ & Hday & _) & -> & ->).
      cbn [Datetime.year Datetime.month Datetime.day] in Hday.
      apply get_yuan_shou_range.
      pose proof (days_in_month_le (Datetime.year calc_dt) (Datetime.month calc_dt)).
      lia.
  - destruct (bool_decide (Datetime.hour calc_dt = 0)) eqn:H0;
      destruct (bool_decide (Datetime.hour calc_dt = 23)) eqn:H23;
      cbn [andb]; rewrite ?andb_false_r; try done.
    apply bool_decide_eq_true in H0, H23. lia.
  - intros Hzi.
    assert (Hh : Datetime.hour calc_dt = 0 ∨ Datetime.hour calc_dt = 23).
    { apply orb_true_iff in Hzi as [H|H]; apply andb_true_iff in H as [H _];
        apply bool_decide_eq_true in H; tauto. }
    destruct Hh as [Hh|Hh]; rewrite Hh in Hhz; vm_compute in Hhz;
      by injection Hhz.
  - rewrite Hhour, Hstd. unfold calculate_shi_chen. cbv zeta.
    rewrite !shi_chen_list_getitem.
    destruct (decide (Datetime.hour dt = 23)) as [H23|H23].
    + rewrite (bool_decide_eq_true_2 _ H23).
      rewrite bool_decide_eq_false_2 in Hsz by (intros Hne; by apply Hne).
      by rewrite Hsz.
    + rewrite (bool_decide_eq_false_2 _ H23).
      rewrite (bool_decide_eq_true_2 _ H23) in Hsz. by rewrite Hsz.
Qed.

End assembler.

Lemma record_invariants_witness :
  1 <= yuan_shou (Samples.cal_2025 22) <= 6
  ∧ (is_early_zi (Samples.cal_2025 22) && is_late_zi (Samples.cal_2025 22) = false)
  ∧ (is_early_zi (Samples.cal_2025 22) || is_late_zi (Samples.cal_2025 22) = true
     → hour_zhi (Samples.cal_2025 22) = "子")
  ∧ calculate_shi_chen (hour (Samples.cal_2025 22))
    = Some (standard_time_shi_chen (Samples.cal_2025 22)).
Proof.
  apply (record_invariants Samples.SHI_CHEN_names (λ _, Some 480)
           Samples.config_astronomical Samples.xiao_han_2025 (λ dt _, dt)
           (mk 2025 1 15 8 0 0 0 None) "Asia/Shanghai").
  vm_compute. reflexivity.
Defined.

(** Half past eleven at night: the late 子 hour, still on the same date. *)
Example late_zi_record :
  (λ cal, (hour_zhi cal, is_early_zi cal, is_late_zi cal, day_gan cal, day_zhi cal))
    <$> Samples.from_datetime_sample (mk 2025 1 15 23 30 0 0 None) "Asia/Shanghai"
  = Some ("子", false, true, "甲", "申").
Proof. vm_compute. reflexivity. Qed.

End CalendarLaws.

(** ** The Julian day number (astronomical.py) *)

Module AstronomicalLaws.
Import Symbols Datetime Astronomical.

(** The day number of the formula of [julian_day] is the proleptic
    Gregorian ordinal of [datetime], shifted. *)
Lemma jdn_ordinal (year month day : Z) :
  1 <= month <= 12 →
  let a := (14 - month) / 12 in
  let y := year + 4800 - a in
  let m := month + 12 * a - 3 in
  day + (153 * m + 2) / 5 + 365 * y + y / 4 - y / 100 + y / 400 - 32045
  = ymd2ord year month day + 1721425.
Proof.
  intros Hmonth. cbv zeta.
  unfold ymd2ord, days_before_year, days_before_month, is_leap. cbv zeta.
  GanZhiFacts.cases_from month 1 12%nat
    ltac:(match goal with
          | |- context [PyList.getitem DAYS_BEFORE_MONTH ?i] =>
              let v := eval vm_compute in (PyList.getitem DAYS_BEFORE_MONTH i) in
              change (PyList.getitem DAYS_BEFORE_MONTH i) with v
          end;
          cbn [default from_option]; unfold id;
          match goal with
          | |- context [(14 - ?mm) / 12] =>
              let v := eval vm_compute in ((14 - mm) / 12) in
              change ((14 - mm) / 12) with v
          end;
          repeat case_bool_decide; cbn [andb]; Z.div_mod_to_equations; lia).
Qed.

(** X21.  For a timestamp whose month is 1..12, the integer day number that
    [julian_day] computes is [toordinal() + 1721425], so [julian_day] is that
    number plus the fraction of the day counted from noon; and the day
    pillar of [calculate_day_ganzhi] is the one that the usual formulas give
    on that day number: stem index [(jdn + 9) mod 10], branch index
    [(jdn + 1) mod 12]. *)
Theorem julian_day_number_is_the_ordinal (dt : datetime) :
  1 <= month dt <= 12 →
  let jdn := toordinal dt + 1721425 in
  julian_day dt
  = (PyFloat.of_int jdn + PyFloat.of_int (hour dt - 12) / 24.0
     + PyFloat.of_int (minute dt) / 1440.0
     + PyFloat.of_int (second dt) / 86400.0)%float
  ∧ GanZhi.calculate_day_ganzhi dt
    = (gan ← PyList.getitem TIAN_GAN ((jdn + 9) mod 10);
       zhi ← PyList.getitem DI_ZHI ((jdn + 1) mod 12);
       Some (gan, zhi)).
Proof.
  intros Hmonth. cbv zeta. split.
  - unfold julian_day. cbv zeta.
    assert (Hfields : ∀ dt' : datetime,
              dt' = (if tzinfo dt is Some _ then replace_tzinfo_none dt else dt) →
              (year dt', month dt', day dt', hour dt', minute dt', second dt')
              = (year dt, month dt, day dt, hour dt, minute dt, second dt))
      by (intros dt' ->; by destruct (tzinfo dt)).
    specialize (Hfields _ eq_refl).
    injection Hfields as -> -> -> -> -> ->.
    pose proof (jdn_ordinal (year dt) (month dt) (day dt) Hmonth) as Hjdn.
    cbv zeta in Hjdn. rewrite Hjdn. reflexivity.
  - unfold GanZhi.calculate_day_ganzhi. cbv zeta.
    assert (Hord : toordinal (if tzinfo dt is Some _
                              then replace_tzinfo_none dt else dt) = toordinal dt)
      by (by destruct (tzinfo dt)).
    rewrite Hord.
    change (ymd2ord 1900 1 1) with 693596.
    replace ((0 + (toordinal dt - 693596)) mod 10)
      with ((toordinal dt + 1721425 + 9) mod 10)
      by (Z.div_mod_to_equations; lia).
    replace ((10 + (toordinal dt - 693596)) mod 12)
      with ((toordinal dt + 1721425 + 1) mod 12)
      by (Z.div_mod_to_equations; lia).
    reflexivity.
Qed.

Lemma julian_day_number_is_the_ordinal_witness :
  let dt := mk 2000 1 1 12 0 0 0 None in
  let jdn := toordinal dt + 1721425 in
  julian_day dt
  = (PyFloat.of_int jdn + PyFloat.of_int (hour dt - 12) / 24.0
     + PyFloat.of_int (minute dt) / 1440.0
     + PyFloat.of_int (second dt) / 86400.0)%float
  ∧ GanZhi.calculate_day_ganzhi dt
    = (gan ← PyList.getitem TIAN_GAN ((jdn + 9) mod 10);
       zhi ← PyList.getitem DI_ZHI ((jdn + 1) mod 12);
       Some (gan, zhi)).
Proof.
  apply (julian_day_number_is_the_ordinal (mk 2000 1 1 12 0 0 0 None)).
  simpl. lia.
Defined.

(** Noon of 2000-01-01 is the epoch J2000.0, day 2451545. *)
Example jdn_of_j2000 :
  toordinal (mk 2000 1 1 12 0 0 0 None) + 1721425 = 2451545
  ∧ julian_day (mk 2000 1 1 12 0 0 0 None) = 2451545.0%float.
Proof. vm_compute. done. Qed.

End AstronomicalLaws.

(** ** The term in force (astronomical.py) *)

Module SolarTermLaws.
Import Datetime SolarTerm.

Section sort.
Context {A : Type} (key : A → Z).

Fixpoint sorted_by (l : list A) : Prop :=
  match l with
  | [] => True
  | x :: r => Forall (λ y, key x <= key y) r ∧ sorted_by r
  end.

Lemma insert_by_perm (x : A) (l : list A) : insert_by key x l ≡ₚ x :: l.
Proof.
  induction l as [|y r IH]; cbn [insert_by]; [done|].
  case_bool_decide; [done|]. rewrite IH. apply Permutation_swap.
Qed.

Lemma insert_by_sorted (x : A) (l : list A) :
  sorted_by l → sorted_by (insert_by key x l).
Proof.
  induction l as [|y r IH]; cbn [insert_by sorted_by]; [done|].
  intros [Hy Hr]. case_bool_decide as Hlt; cbn [sorted_by].
  - split; [|done]. constructor; [lia|].
    eapply Forall_impl; [exact Hy|]. intros z Hz. simpl in *. lia.
  - split; [|by apply IH]. rewrite insert_by_perm. constructor; [lia|done].
Qed.

Lemma sort_by_spec (l : list A) : sorted_by (sort_by key l) ∧ sort_by key l ≡ₚ l.
Proof.
  unfold sort_by.
  assert (H : ∀ acc, sorted_by acc →
              sorted_by (foldl (λ acc x, insert_by key x acc) acc l)
              ∧ foldl (λ acc x, insert_by key x acc) acc l ≡ₚ acc ++ l).
  { induction l as [|x r IH]; intros acc Hacc; cbn [foldl].
    - by rewrite app_nil_r.
    - destruct (IH (insert_by key x acc)) as [Hs Hp];
        [by apply insert_by_sorted|].
      split; [done|]. rewrite Hp, insert_by_perm. cbn [app].
      apply Permutation_middle. }
  apply (H []). done.
Qed.
End sort.

Section solar_terms.
Variable SOLAR_TERMS : list string.
Variable find_solar_term_time : Z → string → option datetime.

Local Abbreviation time_of := (λ x : string * Z * datetime, to_us x.2).

Lemma calculate_all_lookup (year : Z) (l : list string)
    (d0 d : PyDict.dict string datetime) :
  Palace.for_each l
    (fun solar_terms term_name =>
       term_time ← find_solar_term_time year term_name;
       Some (PyDict.set solar_terms term_name term_time)) d0 = Some d →
  (∀ name, name ∈ l → PyDict.lookup d name = find_solar_term_time year name)
  ∧ (∀ name, name ∉ l → PyDict.lookup d name = PyDict.lookup d0 name)
  ∧ ∀ name, name ∈ l → is_Some (find_solar_term_time year name).
Proof.
  revert d0. induction l as [|n r IH]; intros d0; cbn [Palace.for_each].
  - intros [= <-]. split; [by intros ? ?%elem_of_nil|].
    split; [done|by intros ? ?%elem_of_nil].
  - destruct (find_solar_term_time year n) as [t|] eqn:Hn;
      cbn [mbind option_bind]; [|done].
    intros (Hin & Hout & Hsome)%IH. split; [|split].
    + intros name Hname. destruct (decide (name ∈ r)) as [Hr|Hr]; [by apply Hin|].
      apply elem_of_cons in Hname as [->|?]; [|done].
      rewrite Hout by done. rewrite PyDictFacts.lookup_set_eq. done.
    + intros name [Hne Hr]%not_elem_of_cons. rewrite Hout by done.
      by apply PyDictFacts.lookup_set_ne.
    + intros name [->|?]%elem_of_cons; [by rewrite Hn|by apply Hsome].
Qed.

Lemma calculate_all_solar_terms_lookup (year : Z) (d : PyDict.dict string datetime) :
  calculate_all_solar_terms SOLAR_TERMS find_solar_term_time year = Some d →
  ∀ name,
    PyDict.lookup d name
    = (if decide (name ∈ SOLAR_TERMS) then find_solar_term_time year name else None).
Proof.
  intros (Hin & Hout & _)%calculate_all_lookup name.
  case_decide; [by apply Hin|by rewrite Hout].
Qed.

Lemma current_year_loop (d : PyDict.dict string datetime) (l : list string)
    (acc all_terms : list (string * Z * datetime)) :
  Palace.for_each l
    (fun all_terms term_name =>
       term_time ← PyDict.lookup d term_name;
       term_index ← PyList.index SOLAR_TERMS term_name;
       Some (all_terms ++ [(term_name, term_index, term_time)])) acc
  = Some all_terms →
  ∀ x, x ∈ all_terms
       ↔ x ∈ acc
         ∨ (x.1.1 ∈ l ∧ PyList.index SOLAR_TERMS x.1.1 = Some x.1.2
            ∧ PyDict.lookup d x.1.1 = Some x.2).
Proof.
  revert acc. induction l as [|n r IH]; intros acc; cbn [Palace.for_each].
  - intros [= <-] x. rewrite elem_of_nil. tauto.
  - destruct (PyDict.lookup d n) as [t|] eqn:Ht; cbn [mbind option_bind]; [|done].
    destruct (PyList.index SOLAR_TERMS n) as [i|] eqn:Hi;
      cbn [mbind option_bind]; [|done].
    intros Hrun x. rewrite (IH _ Hrun x), elem_of_app, list_elem_of_singleton,
      elem_of_cons.
    split.
    + intros [[?| ->]|(? & ? & ?)]; [tauto| |tauto]. right. cbn [fst snd]. tauto.
    + intros [?|([Hn|?] & Hidx & Hlook)]; [tauto| |tauto].
      left. right. destruct x as [[xn xi] xt]. cbn [fst snd] in *. subst xn.
      rewrite Hi in Hidx. rewrite Ht in Hlook. by injection Hidx as <-;
        injection Hlook as <-.
Qed.

Lemma scan_spec (dt : datetime) (l : list (string * Z * datetime))
    (cur : option (string * Z * datetime)) :
  sorted_by time_of l →
  (∀ c, cur = Some c → to_us c.2 <= to_us dt) →
  match scan dt l cur with
  | Some x =>
      to_us x.2 <= to_us dt
      ∧ (cur = Some x ∨ x ∈ l)
      ∧ ∀ y, y ∈ l → to_us y.2 <= to_us dt → to_us y.2 <= to_us x.2
  | None => cur = None ∧ ∀ y, y ∈ l → to_us dt < to_us y.2
  end.
Proof.
  revert cur. induction l as [|[[n i] t] r IH]; intros cur Hsorted Hcur;
    cbn [scan].
  - destruct cur as [c|].
    + split; [by apply Hcur|]. split; [by left|]. by intros ? ?%elem_of_nil.
    + split; [done|]. by intros ? ?%elem_of_nil.
  - destruct Hsorted as [Hhead Hr]. unfold ge. case_bool_decide as Hge.
    + specialize (IH (Some (n, i, t)) Hr).
      destruct (scan dt r (Some (n, i, t))) as [x|].
      * destruct IH as (Hx & Hfrom & Hmax); [by intros c [= <-]; simpl; lia|].
        split; [done|]. split.
        { right. destruct Hfrom as [[= <-]|?]; [left|by right]. }
        intros y [->|Hy]%elem_of_cons Hle; [|by apply Hmax].
        destruct Hfrom as [[= <-]|Hxr]; [done|].
        rewrite Forall_forall in Hhead. apply (Hhead x Hxr).
      * destruct IH as [? _]; [by intros c [= <-]; simpl; lia|done].
    + assert (Hafter : ∀ y, y ∈ (n, i, t) :: r → to_us dt < to_us y.2).
      { intros y [->|Hy]%elem_of_cons; [simpl; lia|].
        rewrite Forall_forall in Hhead. specialize (Hhead y Hy). simpl in *. lia. }
      destruct cur as [c|].
      * split; [by apply Hcur|]. split; [by left|].
        intros y Hy Hle. specialize (Hafter y Hy). lia.
      * done.
Qed.

(** The terms that [get_current_solar_term] considers at a naive [dt]: the
    terms of the year of [dt], and 小寒 and 大寒 as computed for the year
    before when they fall in the year of [dt]. *)
Definition candidate (dt : datetime) (term_name : string) (term_time : datetime) : Prop :=
  term_name ∈ SOLAR_TERMS
  ∧ (find_solar_term_time (year dt) term_name = Some term_time
     ∨ (term_name ∈ ["小寒"; "大寒"]
        ∧ find_solar_term_time (year dt - 1) term_name = Some term_time
        ∧ year term_time = year dt)).

(** X22.  When [get_current_solar_term] returns (name, index, time) for a
    naive timestamp, the index is the position of the name in
    [SOLAR_TERMS], and either the term is the latest of the terms
    considered that is not after the timestamp, or every term considered is
    after the timestamp and the result is 大寒 as computed for the year
    before, whatever its time. *)
Theorem current_term_is_the_latest_started (dt : datetime) (term_name : string)
    (term_index : Z) (term_time : datetime) :
  tzinfo dt = None →
  get_current_solar_term SOLAR_TERMS find_solar_term_time dt
  = Some (term_name, term_index, term_time) →
  PyList.index SOLAR_TERMS term_name = Some term_index
  ∧ ((candidate dt term_name term_time
      ∧ to_us term_time <= to_us dt
      ∧ ∀ name time,
          candidate dt name time → to_us time <= to_us dt →
          to_us time <= to_us term_time)
     ∨ (term_name = "大寒"
        ∧ find_solar_term_time (year dt - 1) "大寒" = Some term_time
        ∧ ∀ name time, candidate dt name time → to_us dt < to_us time)).
Proof.
  intros Hnaive. unfold get_current_solar_term. rewrite Hnaive. cbv zeta.
  destruct (calculate_all_solar_terms _ _ (year dt)) as [cur|] eqn:Hcur;
    cbn [mbind option_bind]; [|done].
  destruct (calculate_all_solar_terms _ _ (year dt - 1)) as [prev|] eqn:Hprev;
    cbn [mbind option_bind]; [|done].
  pose proof (calculate_all_solar_terms_lookup _ _ Hcur) as Hcurl.
  pose proof (calculate_all_solar_terms_lookup _ _ Hprev) as Hprevl.
  destruct (Palace.for_each ["小寒"; "大寒"] _ []) as [early|] eqn:Hearly;
    cbn [mbind option_bind]; [|done].
  destruct (Palace.for_each SOLAR_TERMS _ early) as [all_terms|] eqn:Hall;
    cbn [mbind option_bind]; [|done].
  pose proof (current_year_loop _ _ _ _ Hall) as Hmem.
  assert (Hearly_mem : ∀ x, x ∈ early
            ↔ x.1.1 ∈ ["小寒"; "大寒"]
              ∧ PyList.index SOLAR_TERMS x.1.1 = Some x.1.2
              ∧ PyDict.lookup prev x.1.1 = Some x.2
              ∧ year x.2 = year dt).
  { clear Hall Hmem. revert Hearly. cbn [Palace.for_each].
    destruct (PyDict.lookup prev "小寒") as [t1|] eqn:H1;
      cbn [mbind option_bind]; [|done].
    destruct (PyDict.lookup prev "大寒") as [t2|] eqn:H2.
    2: { by destruct (if bool_decide (year t1 = year dt) then _ else _). }
    assert (Hcase : ∀ (acc : list (string * Z * datetime)) n t,
              (if bool_decide (year t = year dt)
               then term_index ← PyList.index SOLAR_TERMS n;
                    Some (acc ++ [(n, term_index, t)])
               else Some acc) = None
              ∨ (year t ≠ year dt
                 ∧ (if bool_decide (year t = year dt)
                    then term_index ← PyList.index SOLAR_TERMS n;
                         Some (acc ++ [(n, term_index, t)])
                    else Some acc) = Some acc)
              ∨ ∃ i, year t = year dt ∧ PyList.index SOLAR_TERMS n = Some i
                     ∧ (if bool_decide (year t = year dt)
                        then term_index ← PyList.index SOLAR_TERMS n;
                             Some (acc ++ [(n, term_index, t)])
                        else Some acc) = Some (acc ++ [(n, i, t)])).
    { intros acc n t. case_bool_decide; [|by right; left].
      destruct (PyList.index SOLAR_TERMS n) as [i|]; [|by left].
      right. right. by exists i. }
    destruct (Hcase [] "小寒" t1) as [->|[[Hy1 ->]|(i1 & Hy1 & Hi1 & ->)]];
      cbn [mbind option_bind]; [done| |];
      [destruct (Hcase [] "大寒" t2)
         as [->|[[Hy2 ->]|(i2 & Hy2 & Hi2 & ->)]]
      |destruct (Hcase ([] ++ [("小寒", i1, t1)]) "大寒" t2)
         as [->|[[Hy2 ->]|(i2 & Hy2 & Hi2 & ->)]]];
      cbn [mbind option_bind]; try done;
      intros [= <-] [[xn xi] xt]; cbn [fst snd app];
      rewrite ?elem_of_cons, ?elem_of_nil; split.
    all: try (intros (Hn & Hidx & Hlook & Hyear);
              destruct Hn as [->|[->|[]]];
              rewrite ?H1, ?H2, ?Hi1, ?Hi2 in *;
              try (injection Hlook as <-); try (injection Hidx as <-);
              try done; tauto).
    all: intros H; repeat destruct H as [H|H]; try done;
         injection H as -> -> ->; tauto. }
  pose proof (sort_by_spec time_of all_terms) as [Hsorted Hperm].
  pose proof (scan_spec dt _ None Hsorted ltac:(done)) as Hscan.
  assert (Hcand : ∀ x, x ∈ sort_by time_of all_terms
                       ↔ PyList.index SOLAR_TERMS x.1.1 = Some x.1.2
                         ∧ candidate dt x.1.1 x.2).
  { intros x. rewrite Hperm, Hmem, Hearly_mem. unfold candidate.
    rewrite Hcurl, Hprevl. split.
    - intros [(Hn & Hidx & Hlook & Hyear)|(Hn & Hidx & Hlook)].
      + case_decide; [|done]. tauto.
      + case_decide; [|done]. tauto.
    - intros (Hidx & Hn & [Hfind|(Hn' & Hfind & Hyear)]).
      + right. rewrite decide_True by done. tauto.
      + left. rewrite decide_True by done. tauto. }
  destruct (scan dt (sort_by time_of all_terms) None) as [[[n i] t]|].
  - intros [= -> -> ->]. destruct Hscan as (Hle & [?|Hin] & Hmax); [done|].
    apply Hcand in Hin as [Hidx Hc]. cbn [fst snd] in *.
    split; [done|]. left. split; [done|]. split; [done|].
    intros name time Hname Hle'.
    assert (Hidx' : is_Some (PyList.index SOLAR_TERMS name))
      by (apply PyListFacts.index_elem_of; by destruct Hname).
    destruct Hidx' as [j Hj].
    apply (Hmax (name, j, time)); [|done]. apply Hcand. by cbn [fst snd].
  - destruct Hscan as [_ Hafter].
    destruct (PyDict.lookup prev "大寒") as [t|] eqn:Hdahan;
      cbn [mbind option_bind]; [|done].
    destruct (PyList.index SOLAR_TERMS "大寒") as [i|] eqn:Hi;
      cbn [mbind option_bind]; [|done].
    intros [= <- <- <-]. split; [done|]. right. split; [done|]. split.
    + rewrite Hprevl in Hdahan. by case_decide.
    + intros name time Hname.
      assert (Hidx' : is_Some (PyList.index SOLAR_TERMS name))
        by (apply PyListFacts.index_elem_of; by destruct Hname).
      destruct Hidx' as [j Hj].
      apply (Hafter (name, j, time)). apply Hcand. by cbn [fst snd].
Qed.

End solar_terms.

(** A stand-in for the float iteration: each term on the 6th or the 21st of
    its nominal month of the given year. *)
Definition nominal_term_time (year : Z) (term_name : string) : option datetime :=
  term_index ← PyList.index Samples.terms_by_longitude_table term_name;
  Datetime.make year ((term_index / 2 + 1) mod 12 + 1)
    (if bool_decide (term_index mod 2 = 0) then 6 else 21).

Lemma current_term_is_the_latest_started_witness :
  PyList.index Samples.terms_by_longitude_table "小寒" = Some 22
  ∧ ((candidate Samples.terms_by_longitude_table nominal_term_time
        (mk 2025 1 15 8 0 0 0 None) "小寒" (mk 2025 1 6 0 0 0 0 None)
      ∧ to_us (mk 2025 1 6 0 0 0 0 None) <= to_us (mk 2025 1 15 8 0 0 0 None)
      ∧ ∀ name time,
          candidate Samples.terms_by_longitude_table nominal_term_time
            (mk 2025 1 15 8 0 0 0 None) name time →
          to_us time <= to_us (mk 2025 1 15 8 0 0 0 None) →
          to_us time <= to_us (mk 2025 1 6 0 0 0 0 None))
     ∨ ("小寒" = "大寒"
        ∧ nominal_term_time (year (mk 2025 1 15 8 0 0 0 None) - 1) "大寒"
          = Some (mk 2025 1 6 0 0 0 0 None)
        ∧ ∀ name time,
            candidate Samples.terms_by_longitude_table nominal_term_time
              (mk 2025 1 15 8 0 0 0 None) name time →
            to_us (mk 2025 1 15 8 0 0 0 None) < to_us time)).
Proof.
  apply (current_term_is_the_latest_started Samples.terms_by_longitude_table
           nominal_term_time (mk 2025 1 15 8 0 0 0 None) "小寒" 22
           (mk 2025 1 6 0 0 0 0 None)).
  - reflexivity.
  - vm_compute. reflexivity.
Defined.

(** Before the first term of its year a timestamp gets 大寒 as computed for
    the year before: with the stand-in, a date almost a year old. *)
Example current_term_before_the_first :
  get_current_solar_term Samples.terms_by_longitude_table nominal_term_time
    (mk 2025 1 3 8 0 0 0 None)
  = Some ("大寒", 23, mk 2024 1 21 0 0 0 0 None).
Proof. vm_compute. reflexivity. Qed.

End SolarTermLaws.

(** ** From the timestamp to the board (qimen_calendar.py, ju.py, palace.py) *)

Module PipelineLaws.
Import Symbols Datetime GanZhi Calendar.

Section pipeline.
Variable SHI_CHEN : list string.
Variable pytz_timezone : string → option Z.
Variable config : Config.
Variable get_current_solar_term : datetime → string * Z * datetime.
Variable get_true_solar_time : datetime → float → datetime.
Variables JIU_GONG GONG_POSITION BAGUA_GONG : Z → string.

Local Abbreviation from_datetime :=
  (Calendar.from_datetime SHI_CHEN pytz_timezone config get_current_solar_term
     get_true_solar_time).

Lemma get_ju_huopan_total (cal : CalendarInfo) :
  same_parity (day_gan cal) (day_zhi cal) →
  same_parity (hour_gan cal) (hour_zhi cal) →
  ∃ ju_number,
    Ju.get_ju_huopan cal = Some (ju_number, Ju.is_yang_dune cal)
    ∧ 1 <= ju_number <= 9.
Proof.
  intros (dg & dz & Hdg & Hdz & _) (hg & hz & _ & Hhz & _).
  unfold Ju.get_ju_huopan, Ju.calculate_ju_index_huopan. cbv zeta.
  rewrite Hdg, Hdz, Hhz. cbn [mbind option_bind]. eexists. split; [reflexivity|].
  match goal with |- 1 <= ?a mod 9 + 1 <= 9 => pose proof (JuFacts.mod9_range a) end.
  lia.
Qed.

Lemma computed_board_valid :
  (∀ ju_number is_yang,
     ∃ nine_palace,
       Palace._calculate_turn_pan JIU_GONG GONG_POSITION BAGUA_GONG ju_number is_yang
       = Some nine_palace
       ∧ Palace.validate_palace nine_palace = true)
  ∧ (∀ cal nine_palace,
       Palace.fly_pan JIU_GONG GONG_POSITION BAGUA_GONG cal = Some nine_palace
       → Palace.validate_palace nine_palace = true).
Proof.
  apply (PalaceLaws.computed_boards_ind JIU_GONG GONG_POSITION BAGUA_GONG
           (λ ps, Palace.validate_palace
                    {| Palace.ju_number := 0; Palace.is_yang := true;
                       Palace.ju_name := ""; Palace.palaces := ps;
                       Palace.calendar_info := None; Palace.mode := "" |}
                  = true));
    intros k Hk; PalaceFacts.nine_cases k 0; vm_compute; reflexivity.
Qed.

(** X23.  What [from_datetime] builds is accepted downstream.  For every
    record it returns: [get_ju] returns in both modes (the pillar lookups
    of the huopan mode cannot fail), with a chart number in 1..9 and the
    polarity of [is_yang_dune], which [validate_ju] accepts; [turn_pan] with
    the default reference data builds a board for that chart; [fly_pan]
    builds a board for the record; and [validate_palace] accepts both
    boards. *)
Theorem record_is_accepted_downstream (ts : datetime) (tz : string)
    (cal : CalendarInfo) :
  from_datetime ts tz = Some cal →
  (∀ mode,
     ∃ ju_number is_yang nine_palace,
       Ju.get_ju cal mode = Some (ju_number, is_yang)
       ∧ 1 <= ju_number <= 9
       ∧ is_yang = Ju.is_yang_dune cal
       ∧ Ju.validate_ju ju_number is_yang cal = true
       ∧ Palace.turn_pan JIU_GONG GONG_POSITION BAGUA_GONG
           Palace._get_default_palace_data ju_number is_yang = Some nine_palace
       ∧ Palace.validate_palace nine_palace = true)
  ∧ ∃ nine_palace,
      Palace.fly_pan JIU_GONG GONG_POSITION BAGUA_GONG cal = Some nine_palace
      ∧ Palace.validate_palace nine_palace = true.
Proof.
  intros (Hy & Hm & Hd & Hh)%CalendarFacts.from_datetime_pillars.
  destruct computed_board_valid as [Hturn Hfly]. split.
  - intros mode.
    assert (Hju : ∃ ju_number,
              Ju.get_ju cal mode = Some (ju_number, Ju.is_yang_dune cal)
              ∧ 1 <= ju_number <= 9).
    { unfold Ju.get_ju. case_decide.
      - exists (Ju.get_ju_chabu cal).1. split; [done|].
        apply JuLaws.get_ju_chabu_range.
      - by apply get_ju_huopan_total. }
    destruct Hju as (ju_number & Hju & Hrange).
    destruct (Hturn ju_number (Ju.is_yang_dune cal)) as (b & Hb & Hvalid).
    exists ju_number, (Ju.is_yang_dune cal), b.
    split; [done|]. split; [done|]. split; [done|].
    split; [by apply JuLaws.validate_ju_iff|]. split; [exact Hb|done].
  - destruct (PalaceFacts.fly_pan_total JIU_GONG GONG_POSITION BAGUA_GONG cal)
      as [b Hb].
    { destruct Hy as (? & ? & Hyg & _). destruct Hm as (? & ? & _ & Hmz & _).
      destruct Hd as (? & ? & Hdg & _). destruct Hh as (? & ? & _ & Hhz & _).
      repeat split; by eapply GanZhiLaws.index_Some_elem. }
    exists b. split; [done|]. by eapply Hfly.
Qed.

End pipeline.

Lemma record_is_accepted_downstream_witness :
  (∀ mode,
     ∃ ju_number is_yang nine_palace,
       Ju.get_ju (Samples.cal_2025 22) mode = Some (ju_number, is_yang)
       ∧ 1 <= ju_number <= 9
       ∧ is_yang = Ju.is_yang_dune (Samples.cal_2025 22)
       ∧ Ju.validate_ju ju_number is_yang (Samples.cal_2025 22) = true
       ∧ Palace.turn_pan (λ _, "") (λ _, "") (λ _, "")
           Palace._get_default_palace_data ju_number is_yang = Some nine_palace
       ∧ Palace.validate_palace nine_palace = true)
  ∧ ∃ nine_palace,
      Palace.fly_pan (λ _, "") (λ _, "") (λ _, "") (Samples.cal_2025 22)
      = Some nine_palace
      ∧ Palace.validate_palace nine_palace = true.
Proof.
  apply (record_is_accepted_downstream Samples.SHI_CHEN_names (λ _, Some 480)
           Samples.config_astronomical Samples.xiao_han_2025 (λ dt _, dt)
           (λ _, "") (λ _, "") (λ _, "")
           (mk 2025 1 15 8 0 0 0 None) "Asia/Shanghai").
  vm_compute. reflexivity.
Defined.

End PipelineLaws.

(** ** The engine with plugins that share a name or write their arguments (rules.py) *)

Module RulesLaws.
Import Rules.

Implicit Types (p : RulePlugin) (ps : list RulePlugin).
Implicit Types (b : Palace.NinePalace) (c : Calendar.CalendarInfo).

(** The last plugin registered under a name, and the last call of a run
    under a name. *)
Local Abbreviation last_named name ps :=
  (last (List.filter (fun p => bool_decide (plugin_name p = name)) ps)).
Local Abbreviation last_called name cs :=
  (last (List.filter
           (fun call : RulePlugin * arguments =>
              bool_decide (plugin_name call.1 = name)) cs)).

(** The entry that the loop writes at a call. *)
Local Abbreviation entry_of call := (entry call.2.1 call.2.2 call.1).

Lemma keys_set_elem {V} (d : PyDict.dict string V) (k k' : string) (v : V) :
  k' ∈ PyDict.keys (PyDict.set d k v) ↔ k' = k ∨ k' ∈ PyDict.keys d.
Proof.
  destruct (decide (k ∈ PyDict.keys d)) as [Hin|Hnot].
  - rewrite PyDictFacts.keys_set_present by done. split; [tauto|].
    by intros [->|?].
  - rewrite PyDictFacts.keys_set_fresh by done.
    rewrite elem_of_app, list_elem_of_singleton. tauto.
Qed.

Lemma keys_set_NoDup {V} (d : PyDict.dict string V) (k : string) (v : V) :
  NoDup (PyDict.keys d) → NoDup (PyDict.keys (PyDict.set d k v)).
Proof.
  intros Hnd. destruct (decide (k ∈ PyDict.keys d)) as [Hin|Hnot].
  - by rewrite PyDictFacts.keys_set_present.
  - rewrite PyDictFacts.keys_set_fresh by done.
    apply NoDup_app. split; [done|]. split; [|apply NoDup_singleton].
    intros x Hx ->%list_elem_of_singleton. done.
Qed.

Lemma last_filter_cons {A} (f : A → bool) (x : A) (l : list A) :
  last (List.filter f (x :: l))
  = match last (List.filter f l) with
    | Some y => Some y
    | None => if f x then Some x else None
    end.
Proof.
  cbn [List.filter]. destruct (f x).
  - destruct (List.filter f l) as [|y r]; [done|].
    change (last (x :: y :: r)) with (last (y :: r)).
    destruct (last (y :: r)) as [z|] eqn:Hlast; [done|].
    by apply last_None in Hlast.
  - by destruct (last _).
Qed.

Lemma filter_fmap {A B} (f : B → bool) (g : A → B) (l : list A) :
  List.filter f (g <$> l) = g <$> List.filter (fun a => f (g a)) l.
Proof.
  induction l as [|x l IH]; [done|]. cbn [fmap list_fmap List.filter].
  destruct (f (g x)); cbn [fmap list_fmap]; by rewrite <- IH.
Qed.

(** When no call writes an argument, every plugin is called on the board
    and the record that [apply_all] was given. *)
Lemma calls_unwritten ps b c :
  (∀ p b' c', (p, (b', c')) ∈ calls ps b c → leaves_arguments b' c' p) →
  calls ps b c = (fun p => (p, (b, c))) <$> ps.
Proof.
  revert b c. induction ps as [|p ps IH]; intros b c Hsame; [done|].
  cbn [calls fmap list_fmap].
  assert (Hp : (apply p b c).2 = (b, c)).
  { apply Hsame. cbn [calls]. left. }
  cbn [calls] in Hsame. rewrite Hp in Hsame |- *. simpl in *.
  f_equal. apply IH. intros q b' c' Hq. apply Hsame. by right.
Qed.

Lemma for_each_apply_one_any ps b c
    (results0 results : PyDict.dict string (list string)) (shared : arguments) :
  Palace.for_each ps apply_one ((b, c), results0) = Some (shared, results) →
  (NoDup (PyDict.keys results0) → NoDup (PyDict.keys results))
  ∧ (∀ name, name ∈ PyDict.keys results
             ↔ name ∈ PyDict.keys results0 ∨ name ∈ plugin_name <$> ps)
  ∧ (∀ name,
       PyDict.lookup results name
       = match last_called name (calls ps b c) with
         | Some call => Some (entry_of call)
         | None => PyDict.lookup results0 name
         end)
  ∧ ∀ p b' c', (p, (b', c')) ∈ calls ps b c → raises_only_exceptions b' c' p.
Proof.
  revert b c results0.
  induction ps as [|p ps IH]; intros b c results0; cbn [Palace.for_each].
  - intros [= <- <-]. split; [done|]. split.
    { intros name. rewrite fmap_nil, elem_of_nil. tauto. }
    split; [done|]. by intros p b' c' ?%elem_of_nil.
  - destruct (apply_one ((b, c), results0) p) as [[shared1 results1]|] eqn:Hstep;
      cbn [mbind option_bind]; [|done].
    assert (Hone : shared1 = (apply p b c).2
                   ∧ results1 = PyDict.set results0 (plugin_name p) (entry b c p)
                   ∧ raises_only_exceptions b c p).
    { unfold apply_one, entry, raises_only_exceptions in *.
      destruct (apply p b c) as [[messages|str_e|str_e] shared']; [| |done];
        by injection Hstep as <- <-. }
    destruct Hone as (-> & -> & Hp).
    destruct (apply p b c).2 as [b1 c1] eqn:Hshared.
    intros (Hnd & Hkeys & Hlook & Hexc)%IH.
    cbn [calls]. rewrite Hshared. cbn [fst snd].
    split; [intros ?; by apply Hnd, keys_set_NoDup|]. split; [|split].
    + intros name. rewrite Hkeys, keys_set_elem, fmap_cons, elem_of_cons. tauto.
    + intros name. rewrite Hlook, last_filter_cons.
      destruct (last_called name (calls ps b1 c1)) as [call|]; [done|].
      cbn [fst]. case_bool_decide as Hname.
      * subst name. apply PyDictFacts.lookup_set_eq.
      * by apply PyDictFacts.lookup_set_ne.
    + intros q b' c' [[= -> -> ->]|Hq]%elem_of_cons; [done|by apply Hexc].
Qed.

Lemma apply_all_total ps b c (results0 : PyDict.dict string (list string)) :
  (∀ p b' c', (p, (b', c')) ∈ calls ps b c → raises_only_exceptions b' c' p) →
  is_Some (Palace.for_each ps apply_one ((b, c), results0)).
Proof.
  revert b c results0. induction ps as [|p ps IH]; intros b c results0 Hexc;
    cbn [Palace.for_each]; [eauto|].
  rewrite RulesFacts.apply_one_step by (apply Hexc; cbn [calls]; left).
  cbn [mbind option_bind].
  destruct (apply p b c).2 as [b1 c1] eqn:Hshared.
  apply IH. intros q b' c' Hq. apply Hexc. cbn [calls]. right.
  by rewrite Hshared.
Qed.

Lemma find_is_head_filter {A} (f : A → bool) (l : list A) :
  List.find f l = head (List.filter f l).
Proof.
  induction l as [|x r IH]; cbn [List.find List.filter]; [done|].
  by destruct (f x).
Qed.

Section engine.
Variable nine_palace : Palace.NinePalace.
Variable cal : Calendar.CalendarInfo.


End engine.

(** A plugin that empties the board leaves its mark on the entry of the
    plugin called after it, here the last registered under its name. *)
Example the_last_call_reads_what_the_first_wrote :
  let ps := [Samples.plugin_clearing; GeJuPlugin.new] in
  calls ps Samples.yang_1 (Samples.cal_2025 22)
  = [(Samples.plugin_clearing, (Samples.yang_1, Samples.cal_2025 22));
     (GeJuPlugin.new,
      (arguments_after [Samples.plugin_clearing] Samples.yang_1
         (Samples.cal_2025 22)))]
  ∧ Palace.palaces
      (arguments_after [Samples.plugin_clearing] Samples.yang_1
         (Samples.cal_2025 22)).1 = [].
Proof. split; reflexivity. Qed.

End RulesLaws.

(** ** The four analysis plugins on computed boards (rules.py) *)

Module PluginLaws.
Import Symbols Palace.

Ltac decide_true := apply (bool_decide_unpack _); vm_compute; reflexivity.

Section tables.
Variables JIU_GONG GONG_POSITION BAGUA_GONG : Z → string.

Local Abbreviation board_of ps :=
  {| ju_number := 0; is_yang := true; ju_name := ""; palaces := ps;
     calendar_info := None; mode := "" |}.

(** X25.  On every computed board [GeJuPlugin.apply] raises no [KeyError],
    always reports 三奇得使 (the wonder 丙 turns together with the gate 生门)
    and never reports 反吟 (two opposite palaces never hold the same star);
    it reports 伏吟 exactly when the star 天禽 is in palace 5. *)
Theorem ge_ju_on_computed_boards :
  (∀ ju_number is_yang,
     ∃ nine_palace,
       _calculate_turn_pan JIU_GONG GONG_POSITION BAGUA_GONG ju_number is_yang
       = Some nine_palace
       ∧ ∀ cal,
           ∃ messages,
             GeJuPlugin.apply nine_palace cal = GeJuPlugin.Ok messages
             ∧ "三奇得使：贵人相助，事半功倍" ∈ messages
             ∧ ("反吟：事情反复，变化较大" ∉ messages)
             ∧ (("伏吟：事情拖延，进展缓慢" ∈ messages)
                ↔ (xing <$> PyDict.lookup (palaces nine_palace) "5") = Some "天禽"))
  ∧ (∀ cal nine_palace,
       fly_pan JIU_GONG GONG_POSITION BAGUA_GONG cal = Some nine_palace →
       ∀ cal,
         ∃ messages,
           GeJuPlugin.apply nine_palace cal = GeJuPlugin.Ok messages
           ∧ "三奇得使：贵人相助，事半功倍" ∈ messages
           ∧ ("反吟：事情反复，变化较大" ∉ messages)
           ∧ (("伏吟：事情拖延，进展缓慢" ∈ messages)
              ↔ (xing <$> PyDict.lookup (palaces nine_palace) "5") = Some "天禽")).
Proof.
  apply (PalaceLaws.computed_boards_ind JIU_GONG GONG_POSITION BAGUA_GONG
           (λ ps,
              ∀ cal,
                ∃ messages,
                  GeJuPlugin.apply (board_of ps) cal = GeJuPlugin.Ok messages
                  ∧ "三奇得使：贵人相助，事半功倍" ∈ messages
                  ∧ ("反吟：事情反复，变化较大" ∉ messages)
                  ∧ (("伏吟：事情拖延，进展缓慢" ∈ messages)
                     ↔ (xing <$> PyDict.lookup ps "5") = Some "天禽")));
    intros k Hk cal; PalaceFacts.nine_cases k 0;
    unfold GeJuPlugin.apply, GeJuPlugin._analyze_xiong_ge; cbv zeta;
    destruct (GeJuPlugin._check_men_po _);
    (lazymatch goal with
     | |- ∃ messages, ?f = GeJuPlugin.Ok messages ∧ _ =>
         let v := eval vm_compute in f in
         lazymatch v with
         | GeJuPlugin.Ok ?m => exists m; split; [vm_compute; reflexivity|]
         end
     end;
     split; [decide_true|]; split; [decide_true|];
     first [ split; intros _; decide_true
           | split; intros H; exfalso; revert H;
             lazymatch goal with |- ?P → False => change (¬ P) end;
             decide_true ]).
Qed.

End tables.

Lemma palace_at_key_error (nine_palace : NinePalace) (k key : string) :
  GeJuPlugin.palace_at nine_palace k = GeJuPlugin.KeyError key →
  key = k ∧ PyDict.lookup (palaces nine_palace) key = None.
Proof.
  unfold GeJuPlugin.palace_at.
  destruct (PyDict.lookup (palaces nine_palace) k) eqn:Hk; [done|].
  by intros [= <-].
Qed.

Lemma fan_yin_loop_key_error (nine_palace : NinePalace) (pairs : list (Z * Z))
    (key : string) :
  GeJuPlugin.fan_yin_loop nine_palace pairs = GeJuPlugin.KeyError key →
  (key ∈ (λ pair_, str_of_int pair_.1) <$> pairs
   ∨ key ∈ (λ pair_, str_of_int pair_.2) <$> pairs)
  ∧ PyDict.lookup (palaces nine_palace) key = None.
Proof.
  induction pairs as [|pair_ rest IH]; cbn [GeJuPlugin.fan_yin_loop]; [done|].
  rewrite !fmap_cons, !elem_of_cons.
  destruct (GeJuPlugin.palace_at nine_palace (str_of_int pair_.1)) eqn:H1;
    cbn [GeJuPlugin.bind];
    [|intros [= <-]; apply palace_at_key_error in H1 as [-> ?]; tauto].
  destruct (GeJuPlugin.palace_at nine_palace (str_of_int pair_.2)) eqn:H2;
    cbn [GeJuPlugin.bind];
    [|intros [= <-]; apply palace_at_key_error in H2 as [-> ?]; tauto].
  destruct (bool_decide _); [done|]. intros [Hin ?]%IH. tauto.
Qed.

(** The palaces that [GeJuPlugin] reads by key: all but the centre. *)
Lemma ge_ju_key_error (nine_palace : NinePalace) (cal : Calendar.CalendarInfo)
    (key : string) :
  GeJuPlugin.apply nine_palace cal = GeJuPlugin.KeyError key →
  key ∈ ["1"; "9"; "3"; "2"; "8"; "7"; "4"; "6"]
  ∧ PyDict.lookup (palaces nine_palace) key = None.
Proof.
  unfold GeJuPlugin.apply. cbv zeta.
  destruct (GeJuPlugin._analyze_ji_ge nine_palace cal) as [ji|k] eqn:Hji;
    cbn [GeJuPlugin.bind].
  - destruct (GeJuPlugin._analyze_xiong_ge nine_palace cal) as [xiong|k] eqn:Hxiong;
      cbn [GeJuPlugin.bind].
    + destruct (GeJuPlugin._analyze_te_shu_ge nine_palace cal) as [te|k] eqn:Hte;
        cbn [GeJuPlugin.bind]; [done|].
      intros [= <-]. revert Hte.
      unfold GeJuPlugin._analyze_te_shu_ge, GeJuPlugin._check_fan_yin. cbv zeta.
      destruct (GeJuPlugin.fan_yin_loop _ _) as [fan_yin|k'] eqn:Hloop;
        cbn [GeJuPlugin.bind]; [done|].
      intros [= <-]. apply fan_yin_loop_key_error in Hloop as [Hin Hnone].
      split; [|done]. revert Hin. rewrite !list_elem_of_In. vm_compute. tauto.
    + intros [= <-]. revert Hxiong.
      unfold GeJuPlugin._analyze_xiong_ge, GeJuPlugin._check_bai_hu_chang_kuang,
        GeJuPlugin._check_teng_she_yao_jiao. cbv zeta.
      destruct (GeJuPlugin.palace_at nine_palace "3") eqn:H3; cbn [GeJuPlugin.bind];
        [|intros [= <-]; apply palace_at_key_error in H3 as [-> ?];
          split; [decide_true|done]].
      destruct (GeJuPlugin.palace_at nine_palace "9") eqn:H9; cbn [GeJuPlugin.bind];
        [done|intros [= <-]; apply palace_at_key_error in H9 as [-> ?];
              split; [decide_true|done]].
  - intros [= <-]. revert Hji.
    unfold GeJuPlugin._analyze_ji_ge, GeJuPlugin._check_qing_long_fan_shou,
      GeJuPlugin._check_fei_niao_die_xue. cbv zeta.
    destruct (GeJuPlugin.palace_at nine_palace "1") eqn:H1; cbn [GeJuPlugin.bind];
      [|intros [= <-]; apply palace_at_key_error in H1 as [-> ?];
        split; [decide_true|done]].
    destruct (GeJuPlugin.palace_at nine_palace "9") eqn:H9; cbn [GeJuPlugin.bind];
      [done|intros [= <-]; apply palace_at_key_error in H9 as [-> ?];
            split; [decide_true|done]].
Qed.

Lemma default_engine_names (TIAN_GAN_WU_XING : PyDict.dict string string) :
  Rules.get_plugin_names (create_default_engine TIAN_GAN_WU_XING)
  = ["值符分析"; "旺衰分析"; "格局分析"; "应期分析"].
Proof. reflexivity. Qed.

(** X26.  The default engine, on any board and record.  [apply_all] always
    returns, with the four entries 值符分析, 旺衰分析, 格局分析, 应期分析 in
    this order.  The entries of the first, second and fourth plugin are
    their findings.  The third is the findings of [GeJuPlugin], or, when it
    raises the [KeyError] of a palace that the board lacks (one of the
    eight palaces other than the centre), the single error string with that
    key between quotes; on a board with no palace that key is '1'. *)
Theorem default_engine_entries (TIAN_GAN_WU_XING : PyDict.dict string string)
    (nine_palace : NinePalace) (cal : Calendar.CalendarInfo) :
  Rules.apply_all (create_default_engine TIAN_GAN_WU_XING) nine_palace cal
  = Some [("值符分析", ZhiFuPlugin.apply nine_palace cal);
          ("旺衰分析", WangShuaiPlugin.apply TIAN_GAN_WU_XING nine_palace cal);
          ("格局分析",
           match GeJuPlugin.apply nine_palace cal with
           | GeJuPlugin.Ok messages => messages
           | GeJuPlugin.KeyError key => [("插件执行错误: " ++ "'" ++ key ++ "'")%string]
           end);
          ("应期分析", YingQiPlugin.apply nine_palace cal)]
  ∧ (∀ key,
       GeJuPlugin.apply nine_palace cal = GeJuPlugin.KeyError key →
       key ∈ ["1"; "9"; "3"; "2"; "8"; "7"; "4"; "6"]
       ∧ PyDict.lookup (palaces nine_palace) key = None)
  ∧ (palaces nine_palace = [] →
     GeJuPlugin.apply nine_palace cal = GeJuPlugin.KeyError "1").
Proof.
  split; [|split].
  - unfold Rules.apply_all, Rules.apply_loop, create_default_engine. cbv zeta.
    cbn [Rules.plugins Rules.add_plugin Rules.new app for_each].
    unfold Rules.apply_one.
    cbn [Rules.apply ZhiFuPlugin.new WangShuaiPlugin.new GeJuPlugin.new
         YingQiPlugin.new Rules.plugin_name Rules.name default from_option id
         mbind option_bind].
    destruct (GeJuPlugin.apply nine_palace cal); reflexivity.
  - apply ge_ju_key_error.
  - intros Hempty.
    unfold GeJuPlugin.apply, GeJuPlugin._analyze_ji_ge,
      GeJuPlugin._check_qing_long_fan_shou, GeJuPlugin.palace_at.
    by rewrite Hempty.
Qed.

Section yong_shen.
Variables JIU_GONG GONG_POSITION BAGUA_GONG : Z → string.

Local Abbreviation board_of ps :=
  {| ju_number := 0; is_yang := true; ju_name := ""; palaces := ps;
     calendar_info := None; mode := "" |}.

Lemma find_gan_None (ps : PyDict.dict string PalaceInfo) (day_gan : string) :
  List.find (fun palace_info => bool_decide (gan palace_info = day_gan))
    (PyDict.values ps) = None
  ↔ day_gan ∉ gan <$> PyDict.values ps.
Proof.
  split.
  - intros Hfind (p & -> & Hp)%list_elem_of_fmap.
    apply list_elem_of_In in Hp.
    pose proof (find_none _ _ Hfind _ Hp) as Hno.
    apply bool_decide_eq_false in Hno. by destruct Hno.
  - intros Hnot. destruct (List.find _ _) as [p|] eqn:Hfind; [|done].
    apply find_some in Hfind as [Hp Hgan].
    apply bool_decide_eq_true in Hgan. destruct Hnot.
    rewrite <- Hgan. apply list_elem_of_fmap_2. by apply list_elem_of_In.
Qed.

Lemma wang_shuai_lines (cal : Calendar.CalendarInfo)
    (ps : PyDict.dict string PalaceInfo) (messages : list string) :
  length
    (foldl
       (fun messages '(gong_str, palace_info) =>
          let wang_shuai := WangShuaiPlugin._get_palace_wang_shuai palace_info cal in
          if bool_decide (wang_shuai ≠ "")
          then messages ++ [(gong_name palace_info ++ wang_shuai)%string]
          else messages)
       messages ps)
  = (length messages + length ps)%nat.
Proof.
  revert messages. induction ps as [|[g p] ps IH]; intros messages; cbn [foldl length].
  - lia.
  - rewrite IH. cbv zeta.
    rewrite bool_decide_eq_true_2 by (by unfold WangShuaiPlugin._get_palace_wang_shuai).
    rewrite length_app. cbn [length]. lia.
Qed.

(** X27.  The stem 甲 is hidden: it is the one stem of the cycle that no
    palace holds.  So on every computed board, for every record, the
    plugins find the palace of the day stem exactly when the day stem is
    one of the nine of [gan_sequence]: [YingQiPlugin.apply] returns the time
    line and the direction line, [WangShuaiPlugin.apply] the line of that
    palace and nine palace lines; on a 甲 day each returns one line less.
    The direction line always lists three positions. *)
Theorem day_stem_jia_has_no_palace :
  (∀ stem, stem ∈ TIAN_GAN → (stem ∈ gan_sequence ↔ stem ≠ "甲"))
  ∧ (∀ ju_number is_yang,
       ∃ nine_palace,
         _calculate_turn_pan JIU_GONG GONG_POSITION BAGUA_GONG ju_number is_yang
         = Some nine_palace
         ∧ ∀ cal TIAN_GAN_WU_XING,
             (YingQiPlugin._get_yong_shen_gong nine_palace cal = None
              ↔ Calendar.day_gan cal ∉ gan_sequence)
             ∧ length (YingQiPlugin._get_favorable_directions nine_palace cal)
               = 3%nat
             ∧ length (YingQiPlugin.apply nine_palace cal)
               = (if bool_decide (Calendar.day_gan cal ∈ gan_sequence)
                  then 2%nat else 1%nat)
             ∧ length (WangShuaiPlugin.apply TIAN_GAN_WU_XING nine_palace cal)
               = (if bool_decide (Calendar.day_gan cal ∈ gan_sequence)
                  then 10%nat else 9%nat))
  ∧ (∀ cal0 nine_palace,
       fly_pan JIU_GONG GONG_POSITION BAGUA_GONG cal0 = Some nine_palace →
       ∀ cal TIAN_GAN_WU_XING,
         (YingQiPlugin._get_yong_shen_gong nine_palace cal = None
          ↔ Calendar.day_gan cal ∉ gan_sequence)
         ∧ length (YingQiPlugin._get_favorable_directions nine_palace cal)
           = 3%nat
         ∧ length (YingQiPlugin.apply nine_palace cal)
           = (if bool_decide (Calendar.day_gan cal ∈ gan_sequence)
              then 2%nat else 1%nat)
         ∧ length (WangShuaiPlugin.apply TIAN_GAN_WU_XING nine_palace cal)
           = (if bool_decide (Calendar.day_gan cal ∈ gan_sequence)
              then 10%nat else 9%nat)).
Proof.
  split.
  { intros stem Hstem. unfold TIAN_GAN in Hstem.
    repeat (apply elem_of_cons in Hstem as [->|Hstem]);
      try (by apply elem_of_nil in Hstem);
      first [ split; [intros _; discriminate|intros _; decide_true]
            | split; [intros H; exfalso; revert H;
                      lazymatch goal with |- ?P → False => change (¬ P) end;
                      decide_true
                     |done] ]. }
  assert (Hgen : ∀ ps : PyDict.dict string PalaceInfo,
            gan <$> PyDict.values ps ≡ₚ gan_sequence →
            length ps = 9%nat →
            length (List.filter
                      (fun palace_info =>
                         PyList.contains ["开门"; "生门"; "休门"] (men palace_info))
                      (PyDict.values ps)) = 3%nat →
            ∀ cal TIAN_GAN_WU_XING,
              (YingQiPlugin._get_yong_shen_gong (board_of ps) cal = None
               ↔ Calendar.day_gan cal ∉ gan_sequence)
              ∧ length (YingQiPlugin._get_favorable_directions (board_of ps) cal)
                = 3%nat
              ∧ length (YingQiPlugin.apply (board_of ps) cal)
                = (if bool_decide (Calendar.day_gan cal ∈ gan_sequence)
                   then 2%nat else 1%nat)
              ∧ length (WangShuaiPlugin.apply TIAN_GAN_WU_XING (board_of ps) cal)
                = (if bool_decide (Calendar.day_gan cal ∈ gan_sequence)
                   then 10%nat else 9%nat)).
  { intros ps Hperm Hlen Hfav cal T.
    assert (Hyong : YingQiPlugin._get_yong_shen_gong (board_of ps) cal = None
                    ↔ Calendar.day_gan cal ∉ gan_sequence).
    { unfold YingQiPlugin._get_yong_shen_gong. cbv zeta. cbn [palaces].
      rewrite find_gan_None. by rewrite Hperm. }
    assert (Hdir : length (YingQiPlugin._get_favorable_directions (board_of ps) cal)
                   = 3%nat).
    { unfold YingQiPlugin._get_favorable_directions. cbn [palaces].
      by rewrite length_fmap. }
    split; [done|]. split; [done|]. split.
    - unfold YingQiPlugin.apply, YingQiPlugin._analyze_time_ying_qi,
        YingQiPlugin._analyze_direction_ying_qi. cbv zeta.
      destruct (YingQiPlugin._get_favorable_directions (board_of ps) cal)
        as [|d ds]; [done|].
      case_bool_decide as Hin.
      + destruct (YingQiPlugin._get_yong_shen_gong (board_of ps) cal);
          [done|]. destruct (proj1 Hyong eq_refl Hin).
      + by rewrite (proj2 Hyong Hin).
    - unfold WangShuaiPlugin.apply. cbv zeta. cbn [palaces].
      rewrite wang_shuai_lines, Hlen.
      change (WangShuaiPlugin._get_yong_shen_gong (board_of ps) cal)
        with (YingQiPlugin._get_yong_shen_gong (board_of ps) cal).
      case_bool_decide as Hin.
      + destruct (YingQiPlugin._get_yong_shen_gong (board_of ps) cal);
          [done|]. destruct (proj1 Hyong eq_refl Hin).
      + by rewrite (proj2 Hyong Hin). }
  apply (PalaceLaws.computed_boards_ind JIU_GONG GONG_POSITION BAGUA_GONG
           (λ ps,
              ∀ cal TIAN_GAN_WU_XING,
                (YingQiPlugin._get_yong_shen_gong (board_of ps) cal = None
                 ↔ Calendar.day_gan cal ∉ gan_sequence)
                ∧ length (YingQiPlugin._get_favorable_directions (board_of ps) cal)
                  = 3%nat
                ∧ length (YingQiPlugin.apply (board_of ps) cal)
                  = (if bool_decide (Calendar.day_gan cal ∈ gan_sequence)
                     then 2%nat else 1%nat)
                ∧ length (WangShuaiPlugin.apply TIAN_GAN_WU_XING (board_of ps) cal)
                  = (if bool_decide (Calendar.day_gan cal ∈ gan_sequence)
                     then 10%nat else 9%nat)));
    intros k Hk; apply Hgen; PalaceFacts.nine_cases k 0;
    first [ decide_true | vm_compute; reflexivity ].
Qed.

End yong_shen.

(** Evaluate the substring tests on the literals of [ZhiFuPlugin]. *)
Ltac eval_contains :=
  repeat match goal with
         | |- context [PyStr.contains ?a ?b] =>
             let v := eval vm_compute in (PyStr.contains a b) in
             change (PyStr.contains a b) with v
         end.

(** X28.  [ZhiFuPlugin._analyze_time_space_match] never answers 时空俱佳:
    every seasonal status contains 旺, but no palace relation contains 生助.
    It answers 时空不利 exactly when the month is in none of the four month
    lists of [_get_seasonal_status] (4 and 5, among the months 1..12) and
    the palace of 直符 is a wood palace, and 时空平和 otherwise; the three
    descriptions follow the verdict. *)
Theorem time_space_match_is_never_excellent (zhi_fu_palace : PalaceInfo)
    (cal : Calendar.CalendarInfo) :
  ZhiFuPlugin._analyze_time_space_match zhi_fu_palace cal
  = ((if bool_decide (Calendar.month cal ∉ [1; 2; 3; 6; 7; 8; 9; 10; 11; 12])
         && bool_decide (wu_xing zhi_fu_palace = "木")
      then "时空不利：" else "时空平和：")
     ++ ZhiFuPlugin._get_seasonal_status (Calendar.month cal) ++ "，"
     ++ ZhiFuPlugin._analyze_gong_relation (wu_xing zhi_fu_palace) ++ "，"
     ++ ZhiFuPlugin._analyze_hour_gan_relation (Calendar.hour_gan cal))%string.
Proof.
  unfold ZhiFuPlugin._analyze_time_space_match. cbv zeta.
  set (month := Calendar.month cal).
  set (hour_relation := ZhiFuPlugin._analyze_hour_gan_relation _).
  assert (Hmonth : ∀ l : list Z,
            PyList.contains l month = true →
            l ⊆ [1; 2; 3; 6; 7; 8; 9; 10; 11; 12] →
            bool_decide (month ∉ [1; 2; 3; 6; 7; 8; 9; 10; 11; 12]) = false).
  { intros l Hin%bool_decide_eq_true Hsub. apply bool_decide_eq_false.
    intros Hnot. apply Hnot, Hsub, Hin. }
  assert (Hgong : ∀ wx,
            PyStr.contains "生助" (ZhiFuPlugin._analyze_gong_relation wx) = false
            ∧ PyStr.contains "受制" (ZhiFuPlugin._analyze_gong_relation wx)
              = bool_decide (wx = "木")).
  { intros wx. unfold ZhiFuPlugin._analyze_gong_relation, PyDict.get.
    cbv zeta. cbn [PyDict.lookup].
    destruct (decide (wx = "土")) as [->|?]; [split; vm_compute; reflexivity|].
    destruct (decide (wx = "火")) as [->|?]; [split; vm_compute; reflexivity|].
    destruct (decide (wx = "金")) as [->|?]; [split; vm_compute; reflexivity|].
    destruct (decide (wx = "水")) as [->|?]; [split; vm_compute; reflexivity|].
    destruct (decide (wx = "木")) as [->|?]; [split; vm_compute; reflexivity|].
    cbn [default from_option]. rewrite bool_decide_eq_false_2 by done.
    split; vm_compute; reflexivity. }
  destruct (Hgong (wu_xing zhi_fu_palace)) as [-> ->].
  rewrite !andb_false_r.
  unfold ZhiFuPlugin._get_seasonal_status.
  destruct (PyList.contains [6; 7; 8] month) eqn:H1.
  { rewrite (Hmonth _ H1) by decide_true. eval_contains. reflexivity. }
  destruct (PyList.contains [3; 6; 9; 12] month) eqn:H2.
  { rewrite (Hmonth _ H2) by decide_true. eval_contains. reflexivity. }
  destruct (PyList.contains [9; 10; 11] month) eqn:H3.
  { rewrite (Hmonth _ H3) by decide_true. eval_contains. reflexivity. }
  destruct (PyList.contains [12; 1; 2] month) eqn:H4.
  { rewrite (Hmonth _ H4) by decide_true. eval_contains. reflexivity. }
  eval_contains. cbn [andb].
  rewrite (bool_decide_eq_true_2 (month ∉ _));
    [by destruct (bool_decide (wu_xing zhi_fu_palace = "木"))|].
  apply bool_decide_eq_false in H1, H2, H3, H4.
  revert H1 H2 H3 H4. rewrite !elem_of_cons, !elem_of_nil. tauto.
Qed.

Example time_space_match_in_may :
  ZhiFuPlugin._analyze_time_space_match
    {| gong_num := 3; gong_name := ""; position := ""; bagua := ""; gan := "戊";
       men := "休门"; xing := "天蓬"; shen := "直符"; wu_xing := "木" |}
    {| Calendar.year := 2025; Calendar.month := 5; Calendar.day := 15;
       Calendar.hour := 8; Calendar.minute := 0; Calendar.second := 0;
       Calendar.timezone := ""; Calendar.solar_term := "";
       Calendar.solar_term_index := 7;
       Calendar.year_gan := "乙"; Calendar.year_zhi := "巳";
       Calendar.month_gan := "辛"; Calendar.month_zhi := "巳";
       Calendar.day_gan := "甲"; Calendar.day_zhi := "申";
       Calendar.hour_gan := "戊"; Calendar.hour_zhi := "辰";
       Calendar.shi_chen := "辰时";
       Calendar.is_early_zi := false; Calendar.is_late_zi := false;
       Calendar.jie_qi_day := 5; Calendar.yuan_shou := 2;
       Calendar.use_true_solar_time := false; Calendar.true_solar_time := None;
       Calendar.time_difference_minutes := 0.0%float;
       Calendar.standard_time_shi_chen := "辰时" |}
  = "时空不利：春季木旺克土，戊土受克略衰，戊土居木宫，木克土而受制，戊土比和，时干同助值符".
Proof. vm_compute. reflexivity. Qed.

(** X29.  The seasonal table of [WangShuaiPlugin] agrees with its two
    relations.  In every month exactly one of the five elements is 旺; the
    element it generates is 相, the one that generates it is 休, the one
    that overcomes it is 囚 and the one it overcomes is 死, so the five
    elements get the five statuses, each once; 平 is returned for a string
    that is no element, and only then. *)
Theorem season_table_follows_the_cycles (month : Z) :
  let status := fun wu_xing => WangShuaiPlugin._get_season_wang_shuai wu_xing month in
  let elements := ["木"; "火"; "土"; "金"; "水"] in
  status <$> elements ≡ₚ ["旺"; "相"; "休"; "囚"; "死"]
  ∧ (∀ wu_xing, status wu_xing = "平" ↔ wu_xing ∉ elements)
  ∧ ∀ wang other,
      wang ∈ elements → other ∈ elements → status wang = "旺" →
      (status other = "相" ↔ WangShuaiPlugin._is_sheng wang other = true)
      ∧ (status other = "休" ↔ WangShuaiPlugin._is_sheng other wang = true)
      ∧ (status other = "囚" ↔ WangShuaiPlugin._is_ke other wang = true)
      ∧ (status other = "死" ↔ WangShuaiPlugin._is_ke wang other = true).
Proof.
  cbv zeta. unfold WangShuaiPlugin._get_season_wang_shuai.
  destruct (PyList.contains [3; 4; 5] month);
    [|destruct (PyList.contains [6; 7; 8] month);
      [|destruct (PyList.contains [9; 10; 11] month)]];
    (split; [decide_true|]; split;
     [intros wx; rewrite !not_elem_of_cons; split;
      [repeat case_decide; try discriminate; intros _;
       repeat split; first [done|apply not_elem_of_nil]
      |intros (? & ? & ? & ? & ? & _); by rewrite !decide_False by done]
     |intros wang other Hwang Hother;
      repeat (apply elem_of_cons in Hwang as [->|Hwang]);
      try (by apply elem_of_nil in Hwang);
      (repeat (apply elem_of_cons in Hother as [->|Hother]);
       try (by apply elem_of_nil in Hother));
      vm_compute; intros Hw; try discriminate Hw;
      repeat split; intros H; first [reflexivity|discriminate H]]).
Qed.

End PluginLaws.

(** ** Sanity checks of the Python fragments *)

Module PyExamples.

Example str_of_int_9 : str_of_int 9 = "9".
Proof. reflexivity. Qed.

Example tian_gan_index : PyList.index Symbols.TIAN_GAN "丙" = Some 2.
Proof. vm_compute. reflexivity. Qed.

Example ord_roundtrip_leap : Datetime.ord2ymd (Datetime.ymd2ord 2024 2 29) = (2024, 2, 29).
Proof. vm_compute. reflexivity. Qed.

Example ord_roundtrip_end : Datetime.ord2ymd (Datetime.ymd2ord 2025 12 31) = (2025, 12, 31).
Proof. vm_compute. reflexivity. Qed.

Example ord_1900 : Datetime.ymd2ord 1900 1 1 = 693596.
Proof. vm_compute. reflexivity. Qed.

Example astimezone_utc_to_shanghai :
  Datetime.astimezone (Datetime.mk 2025 1 15 20 0 0 0 (Some 0)) 0 480
  = Some (Datetime.mk 2025 1 16 4 0 0 0 (Some 480)).
Proof. vm_compute. reflexivity. Qed.

Example julian_day_j2000 :
  Astronomical.julian_day (Datetime.mk 2000 1 1 12 0 0 0 None) = 2451545.0%float.
Proof. vm_compute. reflexivity. Qed.

Example year_1984 : GanZhi.calculate_year_ganzhi 1984 = Some ("甲", "子").
Proof. vm_compute. reflexivity. Qed.

Example year_2044_repeats_1984 :
  GanZhi.calculate_year_ganzhi 2044 = GanZhi.calculate_year_ganzhi 1984.
Proof. vm_compute. reflexivity. Qed.

Example day_1900 :
  GanZhi.calculate_day_ganzhi (Datetime.mk 1900 1 1 0 0 0 0 None) = Some ("甲", "戌").
Proof. vm_compute. reflexivity. Qed.

End PyExamples.
